(** * OBD-II reader: a shallow embedding of [obd_reader.py]

    The script polls a vehicle's diagnostics interface through the external
    [obd] library and shows eight (dashboard) or seven (terminal) readings.
    This development embeds

    - the float formatting the script relies on ([f"{x:.0f}"], [f"{x:.1f}"]),
    - [terminal_mode], as a program in a small exception/state monad,
    - the [OBDReaderGUI] methods and its polling thread, as atomic steps on a
      shared state,
    - the mode selection of [main],

    and states the properties of the specification over them. *)

From Stdlib Require Import Floats ZArith String Ascii DecimalString DecimalN Lia.
From stdpp Require Import gmap strings list.

Open Scope string_scope.

(** ** Python's fixed-point float formatting

    [format(x, ".Nf")] prints the decimal numeral with [N] fractional digits
    that is nearest to the exact binary value of [x], ties going to the even
    last digit.  A float is [m * 2^e] with [m] and [e] integers, so the
    rounding is integer arithmetic on [Prim2SF x]. *)
Module Fmt.

(** The integer nearest to [num / den] ([den > 0]), ties to even. *)
Definition round_half_even (num den : Z) : Z :=
  let q := (num / den)%Z in
  let r := (num mod den)%Z in
  match (2 * r ?= den)%Z with
  | Lt => q
  | Gt => (q + 1)%Z
  | Eq => if Z.even q then q else (q + 1)%Z
  end.

(** [|x| * 10^prec], rounded to an integer, for [|x| = m * 2^e]. *)
Definition scaled (prec : nat) (m : positive) (e : Z) : Z :=
  if (0 <=? e)%Z
  then (Z.pos m * 2 ^ e * 10 ^ Z.of_nat prec)%Z
  else round_half_even (Z.pos m * 10 ^ Z.of_nat prec) (2 ^ (- e)).

Definition int_digits (n : Z) : string :=
  NilZero.string_of_uint (N.to_uint (Z.to_N n)).

Definition digit (d : Z) : string :=
  String (ascii_of_N (48 + Z.to_N d)) EmptyString.

(** The last [prec] decimal digits of [n], zero padded. *)
Fixpoint frac_digits (prec : nat) (n : Z) : string :=
  match prec with
  | O => ""
  | S p => frac_digits p (n / 10) ++ digit (n mod 10)
  end.

(** The numeral of [n / 10^prec] with exactly [prec] fractional digits;
    no decimal point when [prec] is 0. *)
Definition fixed (prec : nat) (n : Z) : string :=
  int_digits (n / 10 ^ Z.of_nat prec) ++
  match prec with
  | O => ""
  | S _ => "." ++ frac_digits prec n
  end.

Definition sign (s : bool) : string := if s then "-" else "".

(** [format(x, ".<prec>f")] for a Python float. *)
Definition format_f (prec : nat) (x : float) : string :=
  match Prim2SF x with
  | S754_nan => "nan"
  | S754_infinity s => sign s ++ "inf"
  | S754_zero s => sign s ++ fixed prec 0
  | S754_finite s m e => sign s ++ fixed prec (scaled prec m e)
  end.

End Fmt.

(** ** The external world: the [obd] library, [time.sleep], the terminal *)

(** The entries of [obd.commands] the script uses. *)
Inductive command : Type :=
| RPM | SPEED | COOLANT_TEMP | THROTTLE_POS
| ENGINE_LOAD | INTAKE_TEMP | FUEL_LEVEL | FUEL_PRESSURE.

#[global] Instance command_eq_dec : EqDecision command.
Proof. solve_decision. Defined.

(** The exceptions the script distinguishes: [except KeyboardInterrupt] and
    [except Exception as e], which prints [str(e)]. *)
Inductive exn : Type :=
| KeyboardInterrupt
| Exception (msg : string).

(** What a call into the world does: it returns, or it raises. *)
Inductive outcome (A : Type) : Type :=
| Return (a : A)
| Raise (e : exn).
Arguments Return {A} a.
Arguments Raise {A} e.

(** The link a freshly built [obd.OBD] object reports: its port and protocol
    names when it is connected, nothing when it is not. *)
Record link : Type := Link { port_name : string; protocol_name : string }.

(** The world as an oracle.  [on_open n port] is what the [n]-th
    [obd.OBD(port)] call does ([port = None] is auto-detection),
    [on_query n c] what the [n]-th [query] does (the magnitude of
    [response.value], [None] when [response.value is None]), and
    [on_sleep n] tells whether Ctrl-C arrives during the [n]-th sleep.
    Exceptions arrive where the script blocks: in [obd.OBD], in [query] and
    in a sleep.  The prints, [close()] and the accessors of a connection are
    taken to return. *)
Record oracle : Type := Oracle {
  on_open : nat -> option string -> outcome (option link);
  on_query : nat -> command -> outcome (option float);
  on_sleep : nat -> bool
}.

(** An [obd.OBD] object in the library's store. *)
Record conn : Type := Conn {
  c_port : option string;      (* the port asked for *)
  c_link : option link;        (* [Some] while connected *)
  c_closed : bool              (* [close()] has been called *)
}.

(** Everything the script does to the world, in order. *)
Inductive event : Type :=
| EvPrint (s : string)
| EvClear
| EvSleep (ms : nat)
| EvOpen (id : nat) (port : option string)
| EvQuery (id : nat) (c : command)
| EvClose (id : nat)
| EvJoin (thread : nat) (ms : nat)
| EvShowError (title msg : string)
| EvDestroy.

#[global] Instance event_eq_dec : EqDecision event.
Proof. solve_decision. Defined.

Record env : Type := Env {
  opened : list conn;          (* the [obd.OBD] objects built so far; the id is the index *)
  n_query : nat;               (* queries issued so far *)
  n_sleep : nat;               (* sleeps started so far *)
  trace : list event
}.

Definition env0 : env := Env [] 0 0 [].

(** ** A small monad for Python control flow

    A computation runs on a state and returns, raises, or is still
    [Running] when the fuel of a [while True] loop is used up. *)
Inductive result (A : Type) : Type :=
| Ok (a : A)
| Raised (e : exn)
| Running.
Arguments Ok {A} a.
Arguments Raised {A} e.
Arguments Running {A}.

Definition M (S A : Type) : Type := S -> result A * S.

#[global] Instance M_ret {S} : MRet (M S) := fun A a s => (Ok a, s).

#[global] Instance M_bind {S} : MBind (M S) := fun A B k m s =>
  match m s with
  | (Ok a, s') => k a s'
  | (Raised e, s') => (Raised e, s')
  | (Running, s') => (Running, s')
  end.

Definition raise {S A} (e : exn) : M S A := fun s => (Raised e, s).

(** [try: m  except: h] with a handler for every exception. *)
Definition try_except {S A} (m : M S A) (h : exn -> M S A) : M S A :=
  fun s =>
    match m s with
    | (Raised e, s') => h e s'
    | r => r
    end.

(** [try: m  finally: f]. *)
Definition try_finally {S A} (m : M S A) (f : M S unit) : M S A :=
  fun s =>
    match m s with
    | (Running, s') => (Running, s')
    | (r, s') =>
        match f s' with
        | (Ok _, s'') => (r, s'')
        | (Raised e, s'') => (Raised e, s'')
        | (Running, s'') => (Running, s'')
        end
    end.

Definition when {S} (b : bool) (m : M S unit) : M S unit :=
  if b then m else mret tt.

Definition nl : string := String (ascii_of_nat 10) "".

Fixpoint str_mul (s : string) (n : nat) : string :=
  match n with
  | O => ""
  | S n' => s ++ str_mul s n'
  end.

(** ** The library calls, as computations on [env] *)
Section World.
Variable W : oracle.

Definition emit (ev : event) : M env unit := fun s =>
  (Ok tt, Env (opened s) (n_query s) (n_sleep s) (trace s ++ [ev])).

Definition print (s : string) : M env unit := emit (EvPrint s).

(** [os.system('clear')] *)
Definition clear_screen : M env unit := emit EvClear.

(** [obd.OBD(port)]: the object exists only when the constructor returns. *)
Definition OBD (port : option string) : M env nat := fun s =>
  let id := length (opened s) in
  match on_open W id port with
  | Raise e => (Raised e, s)
  | Return l =>
      (Ok id, Env (opened s ++ [Conn port l false]) (n_query s) (n_sleep s)
                  (trace s ++ [EvOpen id port]))
  end.

Definition conn_link (s : env) (id : nat) : option link :=
  c ← opened s !! id; c_link c.

(** [connection.is_connected()] *)
Definition is_connected (id : nat) : M env bool := fun s =>
  (Ok (bool_decide (is_Some (conn_link s id))), s).

(** [connection.port_name()] and [connection.protocol_name()] *)
Definition get_port_name (id : nat) : M env string := fun s =>
  (Ok (from_option port_name "" (conn_link s id)), s).
Definition get_protocol_name (id : nat) : M env string := fun s =>
  (Ok (from_option protocol_name "" (conn_link s id)), s).

(** [connection.query(cmd)], returning [response.value]'s magnitude. *)
Definition query (id : nat) (cmd : command) : M env (option float) := fun s =>
  let s' := Env (opened s) (S (n_query s)) (n_sleep s)
                (trace s ++ [EvQuery id cmd]) in
  match on_query W (n_query s) cmd with
  | Raise e => (Raised e, s')
  | Return v => (Ok v, s')
  end.

(** [connection.close()]: the object is no longer connected. *)
Definition close (id : nat) : M env unit := fun s =>
  (Ok tt, Env (alter (fun c => Conn (c_port c) None true) id (opened s))
              (n_query s) (n_sleep s) (trace s ++ [EvClose id])).

(** [time.sleep(ms / 1000)]; Ctrl-C may arrive while it sleeps. *)
Definition sleep (ms : nat) : M env unit := fun s =>
  let s' := Env (opened s) (n_query s) (S (n_sleep s))
                (trace s ++ [EvSleep ms]) in
  if on_sleep W (n_sleep s) then (Raised KeyboardInterrupt, s') else (Ok tt, s').

(** ** [terminal_mode] *)

(** The f-strings of the report. *)
Definition rpm_line (magnitude : float) : string :=
  "Engine RPM:      " ++ Fmt.format_f 0 magnitude ++ " rpm".
Definition speed_line (magnitude : float) : string :=
  "Vehicle Speed:   " ++ Fmt.format_f 0 magnitude ++ " mph".
Definition coolant_line (magnitude : float) : string :=
  let temp_f := (magnitude * 9 / 5 + 32)%float in
  "Coolant Temp:    " ++ Fmt.format_f 1 magnitude ++ "°C ("
    ++ Fmt.format_f 1 temp_f ++ "°F)".
Definition throttle_line (magnitude : float) : string :=
  "Throttle Pos:    " ++ Fmt.format_f 1 magnitude ++ "%".
Definition load_line (magnitude : float) : string :=
  "Engine Load:     " ++ Fmt.format_f 1 magnitude ++ "%".
Definition iat_line (magnitude : float) : string :=
  let iat_f := (magnitude * 9 / 5 + 32)%float in
  "Intake Air Temp: " ++ Fmt.format_f 1 magnitude ++ "°C ("
    ++ Fmt.format_f 1 iat_f ++ "°F)".
Definition fuel_line (magnitude : float) : string :=
  "Fuel Level:      " ++ Fmt.format_f 1 magnitude ++ "%".

(** One reading: the formatted line, or the "No data" line. *)
Definition show (line : float -> string) (no_data : string)
    (value : option float) : M env unit :=
  match value with
  | Some magnitude => print (line magnitude)
  | None => print no_data
  end.

(** The body of [while True] (lines 57-123). *)
Definition terminal_cycle (connection : nat) : M env unit :=
  clear_screen;;
  print "=== OBD-II LIVE DATA ===";;
  print (str_mul "-" 25);;
  rpm_response ← query connection RPM;
  show rpm_line "Engine RPM:      No data" rpm_response;;
  speed_response ← query connection SPEED;
  show speed_line "Vehicle Speed:   No data" speed_response;;
  coolant_response ← query connection COOLANT_TEMP;
  show coolant_line "Coolant Temp:    No data" coolant_response;;
  throttle_response ← query connection THROTTLE_POS;
  show throttle_line "Throttle Pos:    No data" throttle_response;;
  load_response ← query connection ENGINE_LOAD;
  show load_line "Engine Load:     No data" load_response;;
  iat_response ← query connection INTAKE_TEMP;
  show iat_line "Intake Air Temp: No data" iat_response;;
  fuel_response ← query connection FUEL_LEVEL;
  show fuel_line "Fuel Level:      No data" fuel_response;;
  print (str_mul "-" 25);;
  print "Press Ctrl+C to exit";;
  sleep 1000.

(** [while True: ...]; with no fuel left the loop is still [Running]. *)
Fixpoint terminal_loop (fuel : nat) (connection : nat) : M env unit :=
  match fuel with
  | O => fun s => (Running, s)
  | S fuel' => terminal_cycle connection;; terminal_loop fuel' connection
  end.

(** The handlers of lines 125-128. *)
Definition terminal_handler (e : exn) : M env unit :=
  match e with
  | KeyboardInterrupt => print (nl ++ nl ++ "Exiting...")
  | Exception msg => print (nl ++ "Error: " ++ msg)
  end.

(** Lines 55-131: the polling loop inside [try/except/finally]. *)
Definition terminal_run (fuel : nat) (connection : nat) : M env unit :=
  try_finally
    (try_except (terminal_loop fuel connection) terminal_handler)
    (close connection;; print "Connection closed.").

(** Lines 26-40: the fixed port first, auto-detection when that did not give
    a connected object. *)
Definition terminal_connect : M env nat :=
  connection ← try_except
    (print "Trying /dev/ttyACM0...";;
     c ← OBD (Some "/dev/ttyACM0");
     b ← is_connected c;
     when b (print "Connected via /dev/ttyACM0!");;
     mret (Some c))
    (fun _ => mret None);
  let retry := print "Trying auto-detection...";; OBD None in
  match connection with
  | None => retry
  | Some c => b ← is_connected c; if negb b then retry else mret c
  end.

Definition terminal_mode (fuel : nat) : M env unit :=
  print "Connecting to OBD-II port...";;
  connection ← terminal_connect;
  b ← is_connected connection;
  if negb b then
    print "Failed to connect to vehicle!";;
    print "Check:";;
    print "- OBD-II adapter is plugged in";;
    print "- Vehicle ignition is ON";;
    print "- Adapter drivers are installed"
  else
    pn ← get_port_name connection;
    print ("Connected to: " ++ pn);;
    pr ← get_protocol_name connection;
    print ("Protocol: " ++ pr);;
    print (nl ++ "Starting data read... (Press Ctrl+C to exit)");;
    sleep 2000;;
    terminal_run fuel connection.

End World.

(** ** The dashboard: [OBDReaderGUI] *)

(** Where a polling thread ([read_data_loop]) stands. *)
Inductive wpc : Type :=
| WLoopHead                                  (* line 328: about to test the [while] condition *)
| WFor (rest : list (string * command))      (* line 330: the parameters still to visit in this pass *)
| WSleep (ms : nat)                          (* line 356 or 360: about to sleep *)
| WExited.                                   (* the thread has finished *)

Inductive btn_state : Type := Normal | Disabled.

(** The two widgets the methods reconfigure. *)
Record widgets : Type := Widgets {
  status_text : string;
  status_fg : string;
  btn_text : string;
  btn_bg : string;
  btn_st : btn_state
}.

(** The object, the library's store, and the threads around it.  The
    timestamp timer ([update_timestamp]) only rewrites its own label and is
    left out. *)
Record dash : Type := Dash {
  g_env : env;
  connection : option nat;                   (* [self.connection] *)
  is_running : bool;                         (* [self.is_running] *)
  data_thread : option nat;                  (* [self.data_thread], an index into [threads] *)
  data_vars : gmap string string;            (* [self.data_vars]: the text of each [StringVar] *)
  ui : widgets;
  threads : list wpc;                        (* the polling threads started so far *)
  pending : list (string * string);          (* [root.after(0, var.set, value)] calls not yet run *)
  destroyed : bool                           (* [root.destroy()] was called *)
}.

Definition with_env (e : env) (g : dash) : dash :=
  Dash e (connection g) (is_running g) (data_thread g) (data_vars g) (ui g)
      (threads g) (pending g) (destroyed g).
Definition with_connection (c : option nat) (g : dash) : dash :=
  Dash (g_env g) c (is_running g) (data_thread g) (data_vars g) (ui g)
      (threads g) (pending g) (destroyed g).
Definition with_is_running (b : bool) (g : dash) : dash :=
  Dash (g_env g) (connection g) b (data_thread g) (data_vars g) (ui g)
      (threads g) (pending g) (destroyed g).
Definition with_data_thread (t : option nat) (g : dash) : dash :=
  Dash (g_env g) (connection g) (is_running g) t (data_vars g) (ui g)
      (threads g) (pending g) (destroyed g).
Definition with_data_vars (d : gmap string string) (g : dash) : dash :=
  Dash (g_env g) (connection g) (is_running g) (data_thread g) d (ui g)
      (threads g) (pending g) (destroyed g).
Definition with_ui (w : widgets) (g : dash) : dash :=
  Dash (g_env g) (connection g) (is_running g) (data_thread g) (data_vars g) w
      (threads g) (pending g) (destroyed g).
Definition with_threads (ts : list wpc) (g : dash) : dash :=
  Dash (g_env g) (connection g) (is_running g) (data_thread g) (data_vars g) (ui g)
      ts (pending g) (destroyed g).
Definition with_pending (p : list (string * string)) (g : dash) : dash :=
  Dash (g_env g) (connection g) (is_running g) (data_thread g) (data_vars g) (ui g)
      (threads g) p (destroyed g).
Definition with_destroyed (b : bool) (g : dash) : dash :=
  Dash (g_env g) (connection g) (is_running g) (data_thread g) (data_vars g) (ui g)
      (threads g) (pending g) b.

(** Reading and writing the object's fields inside [M dash]. *)
Definition get {A} (f : dash -> A) : M dash A := fun g => (Ok (f g), g).
Definition modify (f : dash -> dash) : M dash unit := fun g => (Ok tt, f g).

(** A library call made from a method. *)
Definition liftE {A} (m : M env A) : M dash A := fun g =>
  let (r, e) := m (g_env g) in (r, with_env e g).

(** [x.attr] on an attribute that may hold [None]. *)
Definition attr_of {A} (o : option A) (attr : string) : M dash A :=
  match o with
  | Some a => mret a
  | None => raise (Exception ("'NoneType' object has no attribute '" ++ attr ++ "'"))
  end.

(** [create_data_displays]: the eight cells, in order. *)
Definition parameters : list (string * string * string) :=
  [ ("Engine RPM", "rpm", "RPM");
    ("Speed", "speed", "MPH");
    ("Coolant Temp", "coolant_temp", "°C");
    ("Throttle Position", "throttle_pos", "%");
    ("Engine Load", "engine_load", "%");
    ("Intake Air Temp", "intake_temp", "°C");
    ("Fuel Level", "fuel_level", "%");
    ("Fuel Pressure", "fuel_pressure", "kPa") ].

Definition create_data_displays (data_vars : gmap string string)
    : gmap string string :=
  foldl (fun vars '(display_name, var_name, unit) => <[var_name := "--"]> vars)
        data_vars parameters.

(** [__init__] and [setup_ui]. *)
Definition dash_init : dash :=
  Dash env0 None false None (create_data_displays ∅)
      (Widgets "Status: Disconnected" "red" "Connect" "#4CAF50" Normal)
      [] [] false.

(** The [commands] dictionary of [read_data_loop], in insertion order. *)
Definition commands : list (string * command) :=
  [ ("rpm", RPM);
    ("speed", SPEED);
    ("coolant_temp", COOLANT_TEMP);
    ("throttle_pos", THROTTLE_POS);
    ("engine_load", ENGINE_LOAD);
    ("intake_temp", INTAKE_TEMP);
    ("fuel_level", FUEL_LEVEL);
    ("fuel_pressure", FUEL_PRESSURE) ].

(** [param in [...]] *)
Definition str_in (param : string) (l : list string) : bool :=
  existsb (String.eqb param) l.

(** Lines 336-350: the text published for a response. *)
Definition format_value (param : string) (value : option float) : string :=
  match value with
  | Some magnitude =>
      if str_in param ["rpm"] then Fmt.format_f 0 magnitude
      else if str_in param ["speed"] then Fmt.format_f 0 magnitude
      else if str_in param ["coolant_temp"; "intake_temp"] then
        let celsius := magnitude in
        let fahrenheit := (celsius * 9 / 5 + 32)%float in
        Fmt.format_f 1 celsius ++ "°C" ++ nl ++ "(" ++ Fmt.format_f 1 fahrenheit ++ "°F)"
      else Fmt.format_f 1 magnitude
  | None => "N/A"
  end.

Section Dashboard.
Variable W : oracle.

Definition set_status (text fg : string) : M dash unit :=
  modify (fun g => with_ui (Widgets text fg (btn_text (ui g)) (btn_bg (ui g))
                                    (btn_st (ui g))) g).
Definition set_btn_state (st : btn_state) : M dash unit :=
  modify (fun g => with_ui (Widgets (status_text (ui g)) (status_fg (ui g))
                                    (btn_text (ui g)) (btn_bg (ui g)) st) g).
Definition set_btn (text bg : string) (st : btn_state) : M dash unit :=
  modify (fun g => with_ui (Widgets (status_text (ui g)) (status_fg (ui g))
                                    text bg st) g).

(** The event loop runs one [var.set(value)] scheduled by [root.after]. *)
Definition run_callback (g : dash) : dash :=
  match pending g with
  | [] => g
  | (param, value) :: rest =>
      with_pending rest (with_data_vars (<[param := value]> (data_vars g)) g)
  end.

(** The event loop runs every scheduled call, oldest first. *)
Definition drain (g : dash) : dash :=
  with_pending []
    (with_data_vars
       (foldl (fun vars '(param, value) => <[param := value]> vars)
              (data_vars g) (pending g)) g).

(** *** The polling thread, one atomic step at a time *)

Definition set_thread (t : nat) (pc : wpc) (g : dash) : dash :=
  with_threads (<[t := pc]> (threads g)) g.

(** Line 328. *)
Definition loop_condition (g : dash) : bool :=
  is_running g &&
  match connection g with
  | Some c => bool_decide (is_Some (conn_link (g_env g) c))
  | None => false
  end.

(** Lines 359-360, up to the sleep. *)
Definition read_error (t : nat) (msg : string) (g : dash) : dash :=
  set_thread t (WSleep 1000)
    (with_env (print ("Error reading data: " ++ msg) (g_env g)).2 g).

(** Lines 331-354: one iteration of the [for]. *)
Definition read_param (t : nat) (param : string) (cmd : command)
    (rest : list (string * command)) (g : dash) : dash :=
  if negb (is_running g) then set_thread t (WSleep 500) g
  else
    match (c ← attr_of (connection g) "query"; liftE (query W c cmd)) g with
    | (Ok response, g') =>
        let value := format_value param response in
        let g'' :=
          if bool_decide (is_Some (data_vars g' !! param))
          then with_pending (pending g' ++ [(param, value)]) g'
          else g' in
        set_thread t (WFor rest) g''
    | (Raised (Exception msg), g') => read_error t msg g'
    | (Raised KeyboardInterrupt, g') => set_thread t WExited g'
    | (Running, g') => g'
    end.

Definition worker_step (t : nat) (g : dash) : dash :=
  match threads g !! t with
  | None | Some WExited => g
  | Some WLoopHead =>
      set_thread t (if loop_condition g then WFor commands else WExited) g
  | Some (WFor []) => set_thread t (WSleep 500) g
  | Some (WFor ((param, cmd) :: rest)) => read_param t param cmd rest g
  | Some (WSleep ms) =>
      match liftE (sleep W ms) g with
      | (Ok _, g') => set_thread t WLoopHead g'
      | (_, g') => set_thread t WExited g'
      end
  end.

Definition thread_alive (g : dash) (t : nat) : bool :=
  match threads g !! t with
  | None | Some WExited => false
  | Some _ => true
  end.

(** [thread.join(timeout)]: the caller waits while the scheduler runs the
    polling threads in the order [sched], until thread [t] has finished or
    the schedule (the timeout) is used up. *)
Fixpoint wait_for (t : nat) (sched : list nat) (g : dash) : dash :=
  match sched with
  | [] => g
  | u :: sched' =>
      if thread_alive g t then wait_for t sched' (worker_step u g) else g
  end.

Definition join (t : nat) (ms : nat) (sched : list nat) : M dash unit :=
  liftE (emit (EvJoin t ms));;
  modify (wait_for t sched).

(** *** The methods, run by the event loop *)

(** [threading.Thread(target=self.read_data_loop, daemon=True)] and [start()]. *)
Definition start_thread : M dash unit :=
  modify (fun g => with_threads (threads g ++ [WLoopHead])
                     (with_data_thread (Some (length (threads g))) g)).

Definition showerror (title msg : string) : M dash unit :=
  liftE (emit (EvShowError title msg)).

Definition connection_failed_text : string :=
  "Failed to connect to OBD-II port." ++ nl ++ nl ++
  "Check:" ++ nl ++
  "• Ignition is ON" ++ nl ++
  "• OBD adapter is connected" ++ nl ++
  "• Vehicle is OBD-II compatible".

(** Lines 266-272. *)
Definition connect_attempts : M dash unit :=
  try_except
    (c ← liftE (OBD W (Some "/dev/ttyACM0"));
     modify (with_connection (Some c));;
     b ← liftE (is_connected c);
     when (negb b)
       (liftE (close c);;
        c' ← liftE (OBD W None);
        modify (with_connection (Some c'))))
    (fun _ =>
       c ← liftE (OBD W None);
       modify (with_connection (Some c))).

Definition connect : M dash unit :=
  try_except
    (set_status "Status: Connecting..." "orange";;
     set_btn_state Disabled;;
     modify drain;;                                   (* [self.root.update()] *)
     connect_attempts;;
     c ← (o ← get connection; attr_of o "is_connected");
     b ← liftE (is_connected c);
     if (b : bool) then
       (pr ← liftE (get_protocol_name c);
        set_status ("Status: Connected (" ++ pr ++ ")") "green";;
        set_btn "Disconnect" "#f44336" Normal;;
        modify (with_is_running true);;
        start_thread)
     else
       set_status "Status: Connection Failed" "red";;
       set_btn_state Normal;;
       showerror "Connection Error" connection_failed_text)
    (fun e =>
       match e with
       | Exception msg =>
           set_status "Status: Error" "red";;
           set_btn_state Normal;;
           showerror "Error" ("Connection error: " ++ msg)
       | KeyboardInterrupt => raise e
       end).

(** Lines 299-313; [sched] is what the polling threads do during the join. *)
Definition disconnect (sched : list nat) : M dash unit :=
  modify (with_is_running false);;
  th ← get data_thread;
  (if bool_decide (is_Some th)
   then t ← attr_of th "join"; join t 2000 sched
   else mret tt);;
  o ← get connection;
  (if bool_decide (is_Some o)
   then c ← attr_of o "close"; liftE (close c);; modify (with_connection None)
   else mret tt);;
  set_status "Status: Disconnected" "red";;
  set_btn "Connect" "#4CAF50" Normal;;
  modify (fun g => with_data_vars ((fun _ => "--") <$> data_vars g) g).

Definition toggle_connection (sched : list nat) : M dash unit :=
  o ← get connection;
  b ← match o with
      | Some c => liftE (is_connected c)
      | None => mret false
      end;
  if (b : bool) then disconnect sched else connect.

(** Lines 362-366. *)
Definition on_closing : M dash unit :=
  modify (with_is_running false);;
  o ← get connection;
  (if bool_decide (is_Some o)
   then c ← attr_of o "close"; liftE (close c)
   else mret tt);;
  liftE (emit EvDestroy);;
  modify (with_destroyed true).

(** *** The dashboard as a transition system *)

(** What can happen next while the window exists. *)
Inductive action : Type :=
| Click (sched : list nat)     (* the button: [toggle_connection] *)
| CloseWindow                  (* WM_DELETE_WINDOW: [on_closing] *)
| Idle                         (* the event loop runs the next scheduled call *)
| Worker (t : nat).            (* polling thread [t] takes a step *)

(** An exception that escapes a method is reported by the toolkit and the
    event loop goes on. *)
Definition handle (m : M dash unit) (g : dash) : dash := (m g).2.

Definition step (a : action) (g : dash) : dash :=
  if destroyed g then g
  else
    match a with
    | Click sched =>
        match btn_st (ui g) with
        | Normal => handle (toggle_connection sched) g
        | Disabled => g
        end
    | CloseWindow => handle on_closing g
    | Idle => run_callback g
    | Worker t => worker_step t g
    end.

Definition run (l : list action) (g : dash) : dash := foldl (fun g a => step a g) g l.

End Dashboard.

(** ** [main]: choosing the front end *)

(** The parsed command line: [args.terminal] and [args.gui]. *)
Record args : Type := Args { terminal : bool; gui : bool }.

(** Which front end ran, and what it did. *)
Inductive ran : Type :=
| RanTerminal (r : result unit) (s : env)   (* [terminal_mode()] *)
| RanDashboard (g : dash)                   (* [gui_mode()] with its main loop *)
| GuiUnavailable (s : env).                 (* [gui_mode()] gave up: no toolkit *)

(** Python's truth value of [os.environ.get(name)]: a missing variable gives
    [None], an empty one the empty string, and both are false. *)
Definition truthy (v : option string) : bool :=
  match v with
  | None => false
  | Some s => negb (String.eqb s "")
  end.

Section Main.
Variable W : oracle.
Variable GUI_AVAILABLE : bool.             (* did [import tkinter] succeed *)
Variable environ : gmap string string.     (* [os.environ] *)
Variable fuel : nat.                       (* passes of the terminal loop to run *)
Variable sched : list action.              (* what happens while the window exists *)

(** Lines 9-16, run when the module is loaded. *)
Definition module_init : M env unit :=
  when (negb GUI_AVAILABLE)
    (print "GUI libraries not available. Running in terminal mode only.").

Definition gui_mode (s : env) : ran :=
  if negb GUI_AVAILABLE then
    GuiUnavailable
      ((print "Error: GUI libraries not available.";;
        print "Install tkinter or run in terminal mode with: --terminal") s).2
  else RanDashboard (run W sched (with_env s dash_init)).

Definition run_terminal (s : env) : ran :=
  let (r, s') := terminal_mode W fuel s in RanTerminal r s'.

Definition main (a : args) : ran :=
  let s := (module_init env0).2 in
  if terminal a then run_terminal s
  else if gui a then gui_mode s
  else if GUI_AVAILABLE && truthy (environ !! "DISPLAY") then
    gui_mode ((print "Display detected. Starting GUI mode...";;
               print "Use --terminal to force terminal mode") s).2
  else
    run_terminal ((print "No display or GUI unavailable. Starting terminal mode...";;
                   print "Use --gui to force GUI mode") s).2.

End Main.

(** The front end [main] called. *)
Inductive mode : Type := TerminalMode | DashboardMode.

Definition mode_of (r : ran) : mode :=
  match r with
  | RanTerminal _ _ => TerminalMode
  | RanDashboard _ | GuiUnavailable _ => DashboardMode
  end.

(** * Definitions for the statements

    What the properties below are stated with: the specification's reading
    of a formatted number, the events of whole passes, the oracles of the
    examples, and the invariant of the dashboard. *)

(** What the specification means by "[x] to [prec] decimals", said by
    reading the text back as a number, without the formatter.

    A digit and its value. *)
Definition digit_value (c : ascii) : option Z :=
  let n := Z.of_N (N_of_ascii c) in
  if ((48 <=? n) && (n <=? 57))%Z then Some (n - 48)%Z else None.

(** The number a string of digits denotes, after the digits [acc]. *)
Fixpoint digits_value (acc : Z) (s : string) : option Z :=
  match s with
  | EmptyString => Some acc
  | String c s' =>
      match digit_value c with
      | Some d => digits_value (10 * acc + d) s'
      | None => None
      end
  end.

(** An integer part without a superfluous leading zero. *)
Definition canonical (ip : string) : Prop :=
  exists c rest, ip = String c rest /\ (c = "0"%char -> rest = "").

(** [text] is the decimal numeral of [n / 10^prec], negated when [neg]: a
    minus sign when [neg], an integer part without a superfluous leading
    zero, and, when [prec > 0], a point and exactly [prec] digits. *)
Definition numeral (prec : nat) (neg : bool) (n : Z) (text : string) : Prop :=
  exists ip fp : string,
    text = (if neg then "-" else "") ++ ip
             ++ match prec with O => "" | S _ => "." ++ fp end /\
    String.length fp = prec /\
    canonical ip /\
    digits_value 0 (ip ++ fp) = Some n.

(** [n] is the integer nearest to the rational [num / den] ([den > 0]), the
    even one of the two when [num / den] lies half way. *)
Definition nearest_even (num den n : Z) : Prop :=
  (2 * Z.abs (num - n * den) <= den)%Z /\
  ((2 * Z.abs (num - n * den) = den)%Z -> Z.even n = true).

(** [text] shows the number of magnitude [num / den], negative when [neg],
    to [prec] decimals. *)
Definition rounds_to (prec : nat) (neg : bool) (num den : Z) (text : string) : Prop :=
  exists n : Z,
    nearest_even (num * 10 ^ Z.of_nat prec) den n /\ numeral prec neg n text.

(** The same for a float, whose exact value is [± m * 2^e]; infinities and
    NaN have their names. *)
Definition shows_to (prec : nat) (x : float) (text : string) : Prop :=
  match Prim2SF x with
  | S754_finite s m e =>
      rounds_to prec s (Z.pos m * 2 ^ Z.max e 0) (2 ^ Z.max (- e) 0) text
  | S754_zero s => rounds_to prec s 0 1 text
  | S754_infinity s => text = (if s then "-" else "") ++ "inf"
  | S754_nan => text = "nan"
  end.

(** The exact value of the float [x] is the whole number [k], negated when
    [neg] (a float is [± m * 2^e], or a signed zero). *)
Definition whole (x : float) (neg : bool) (k : Z) : Prop :=
  match Prim2SF x with
  | S754_zero s => neg = s /\ k = 0%Z
  | S754_finite s m e =>
      neg = s /\ (Z.pos m * 2 ^ Z.max e 0 = k * 2 ^ Z.max (- e) 0)%Z
  | _ => False
  end.

(** A state after more events, queries and sleeps. *)
Definition push (evs : list event) (q sl : nat) (s : env) : env :=
  Env (opened s) (q + n_query s) (sl + n_sleep s) (trace s ++ evs).

(** The seven readings of the report, in order: the command, the f-string
    of its line, and its "No data" line. *)
Definition terminal_readings : list (command * (float -> string) * string) :=
  [ (RPM, rpm_line, "Engine RPM:      No data");
    (SPEED, speed_line, "Vehicle Speed:   No data");
    (COOLANT_TEMP, coolant_line, "Coolant Temp:    No data");
    (THROTTLE_POS, throttle_line, "Throttle Pos:    No data");
    (ENGINE_LOAD, load_line, "Engine Load:     No data");
    (INTAKE_TEMP, iat_line, "Intake Air Temp: No data");
    (FUEL_LEVEL, fuel_line, "Fuel Level:      No data") ].

(** Query and show the readings [rs] in order, then go on with [k]. *)
Fixpoint read_all (W : oracle) (connection : nat)
    (rs : list (command * (float -> string) * string)) (k : M env unit) : M env unit :=
  match rs with
  | [] => k
  | (cmd, line, no_data) :: rs' =>
      response ← query W connection cmd;
      show line no_data response;;
      read_all W connection rs' k
  end.

(** The queries numbered [q], [q+1], ... for the commands [cs] return [vs]. *)
Fixpoint answers (W : oracle) (q : nat) (cs : list command)
    (vs : list (option float)) : Prop :=
  match cs, vs with
  | [], [] => True
  | c :: cs', v :: vs' => on_query W q c = Return v /\ answers W (S q) cs' vs'
  | _, _ => False
  end.

(** The line of a reading: formatted, or the "No data" line. *)
Definition line_or (line : float -> string) (no_data : string)
    (v : option float) : string :=
  match v with
  | Some magnitude => line magnitude
  | None => no_data
  end.

(** The events of the readings [rs] with the values [vs]. *)
Fixpoint reading_events (id : nat)
    (rs : list (command * (float -> string) * string))
    (vs : list (option float)) : list event :=
  match rs, vs with
  | r :: rs', v :: vs' =>
      EvQuery id r.1.1 :: EvPrint (line_or r.1.2 r.2 v) :: reading_events id rs' vs'
  | _, _ => []
  end.

(** The value query number [q] gives for [c]. *)
Definition value_at (W : oracle) (q : nat) (c : command) : option float :=
  match on_query W q c with
  | Return v => v
  | Raise _ => None
  end.

(** The same for a run of consecutive queries. *)
Fixpoint values_from (W : oracle) (q : nat) (cs : list command)
    : list (option float) :=
  match cs with
  | [] => []
  | c :: cs' => value_at W q c :: values_from W (S q) cs'
  end.

(** One pass of the terminal loop that starts with query number [q]: the
    screen is cleared, the header, the seven readings in order and the
    footer are printed, and the loop sleeps one second. *)
Definition report_events (W : oracle) (id q : nat) : list event :=
  [ EvClear;
    EvPrint "=== OBD-II LIVE DATA ===";
    EvPrint "-------------------------";
    EvQuery id RPM;
    EvPrint (line_or rpm_line "Engine RPM:      No data" (value_at W q RPM));
    EvQuery id SPEED;
    EvPrint (line_or speed_line "Vehicle Speed:   No data" (value_at W (1 + q) SPEED));
    EvQuery id COOLANT_TEMP;
    EvPrint (line_or coolant_line "Coolant Temp:    No data" (value_at W (2 + q) COOLANT_TEMP));
    EvQuery id THROTTLE_POS;
    EvPrint (line_or throttle_line "Throttle Pos:    No data" (value_at W (3 + q) THROTTLE_POS));
    EvQuery id ENGINE_LOAD;
    EvPrint (line_or load_line "Engine Load:     No data" (value_at W (4 + q) ENGINE_LOAD));
    EvQuery id INTAKE_TEMP;
    EvPrint (line_or iat_line "Intake Air Temp: No data" (value_at W (5 + q) INTAKE_TEMP));
    EvQuery id FUEL_LEVEL;
    EvPrint (line_or fuel_line "Fuel Level:      No data" (value_at W (6 + q) FUEL_LEVEL));
    EvPrint "-------------------------";
    EvPrint "Press Ctrl+C to exit";
    EvSleep 1000 ].

(** What [except] prints for an exception. *)
Definition handler_text (e : exn) : string :=
  match e with
  | KeyboardInterrupt => nl ++ nl ++ "Exiting..."
  | Exception msg => nl ++ "Error: " ++ msg
  end.

(** The state after [connection.close()]. *)
Definition closed (id : nat) (s : env) : env := (close id s).2.

(** The messages between connecting and the first pass. *)
Definition prologue (l : link) : list event :=
  [ EvPrint ("Connected to: " ++ port_name l);
    EvPrint ("Protocol: " ++ protocol_name l);
    EvPrint (nl ++ "Starting data read... (Press Ctrl+C to exit)");
    EvSleep 2000 ].

(** A car that answers: the fixed port connects, every query returns (the
    speed one without a value), nobody presses Ctrl-C. *)
Definition W_car : oracle :=
  Oracle
    (fun _ _ => Return (Some (Link "/dev/ttyACM0" "ISO 15765-4")))
    (fun _ c =>
       match c with
       | RPM => Return (Some 812.5%float)
       | SPEED => Return None
       | COOLANT_TEMP => Return (Some 90%float)
       | INTAKE_TEMP => Return (Some 20%float)
       | FUEL_PRESSURE => Return (Some 300%float)
       | _ => Return (Some 37.5%float)
       end)
    (fun _ => false).

(** The commands queried in a trace. *)
Definition queried (evs : list event) (c : command) : bool :=
  existsb (fun ev => match ev with
                     | EvQuery _ c' => bool_decide (c = c')
                     | _ => false
                     end) evs.

(** The calls [root.after(0, var.set, value)] of a pass over [ps] whose
    queries returned [vs], for the cells that exist in [d]. *)
Fixpoint published (d : gmap string string) (ps : list (string * command))
    (vs : list (option float)) : list (string * string) :=
  match ps, vs with
  | (param, _) :: ps', v :: vs' =>
      (if bool_decide (is_Some (d !! param))
       then [(param, format_value param v)] else [])
      ++ published d ps' vs'
  | _, _ => []
  end.

(** The cells after the scheduled calls [l] have run, oldest first. *)
Definition apply_calls (d : gmap string string) (l : list (string * string))
    : gmap string string :=
  foldl (fun vars '(param, value) => <[param := value]> vars) d l.

(** A car whose speed query times out. *)
Definition W_speed_fails : oracle :=
  Oracle
    (on_open W_car)
    (fun n c =>
       match c with
       | SPEED => Raise (Exception "timeout")
       | _ => on_query W_car n c
       end)
    (fun _ => false).

(** The dashboard after a click on Connect and the polling thread's test of
    its loop condition: the thread is at the start of its first pass. *)
Definition g_polling : dash := run W_speed_fails [Click []; Worker 0] dash_init.

(** The texts a cell may show. *)
Definition valid_text (param text : string) : Prop :=
  text = "--" \/ text = "N/A" \/ exists magnitude, text = format_value param (Some magnitude).

(** A scheduled call that targets an existing cell with a text it may show. *)
Definition valid_call (d : gmap string string) (call : string * string) : Prop :=
  is_Some (d !! call.1) /\ valid_text call.1 call.2.

(** The events a polling thread produces. *)
Definition worker_event (ev : event) : Prop :=
  match ev with
  | EvQuery _ _ | EvPrint _ | EvSleep _ => True
  | _ => False
  end.

(** [g'] differs from [g] by the work of polling threads only. *)
Record polled (g g' : dash) : Prop := Polled {
  polled_connection : connection g' = connection g;
  polled_is_running : is_running g' = is_running g;
  polled_data_thread : data_thread g' = data_thread g;
  polled_data_vars : data_vars g' = data_vars g;
  polled_ui : ui g' = ui g;
  polled_destroyed : destroyed g' = destroyed g;
  polled_opened : opened (g_env g') = opened (g_env g);
  polled_threads : length (threads g') = length (threads g);
  polled_trace : exists evs,
    trace (g_env g') = (trace (g_env g) ++ evs)%list /\ Forall worker_event evs;
  polled_pending : exists calls,
    pending g' = (pending g ++ calls)%list /\ Forall (valid_call (data_vars g)) calls
}.

(** The invariant of the dashboard: the cells are the eight of
    [create_data_displays], each shows a valid text, and every scheduled call
    targets one of them with a valid text. *)
Record cells_ok (g : dash) : Prop := CellsOk {
  cells_dom : forall p, is_Some (data_vars g !! p) <-> p ∈ commands.*1;
  cells_text : forall p v, data_vars g !! p = Some v -> valid_text p v;
  cells_pending : Forall (valid_call (data_vars g)) (pending g)
}.

(** A method keeps a property of the state, however it ends. *)
Definition preserves {A} (P : dash -> Prop) (m : M dash A) : Prop :=
  forall g, P g -> P (m g).2.

(** The state in which [disconnect] starts to wait for the polling thread. *)
Definition stopping (g : dash) : dash :=
  match data_thread g with
  | Some t => with_env (push [EvJoin t 2000] 0 0 (g_env g)) (with_is_running false g)
  | None => with_is_running false g
  end.

(** The state in which it stops waiting. *)
Definition joined (W : oracle) (sched : list nat) (g : dash) : dash :=
  match data_thread g with
  | Some t => wait_for W t sched (stopping g)
  | None => stopping g
  end.

(** Lines 304-306. *)
Definition release (g : dash) : dash :=
  match connection g with
  | Some c => with_connection None (with_env (closed c (g_env g)) g)
  | None => g
  end.

(** No adapter: both [obd.OBD] calls return an object that is not
    connected. *)
Definition W_unplugged : oracle :=
  Oracle (fun _ _ => Return None) (fun _ _ => Return None) (fun _ => false).

(** The display variable is set to something: this is what makes
    [os.environ.get('DISPLAY')] true. *)
Definition display_set (environ : gmap string string) : Prop :=
  exists v, environ !! "DISPLAY" = Some v /\ v <> "".

(** ** Further states and oracles *)

(** Ctrl-C during the second pass of a car that answers. *)
Definition W_ctrl_c : oracle :=
  Oracle (on_open W_car) (on_query W_car) (fun n => Nat.eqb n 1).

(** The store after [obd.OBD(port)] has returned an object with link [l]. *)
Definition built (port : option string) (l : option link) (s : env) : env :=
  Env (opened s ++ [Conn port l false]) (n_query s) (n_sleep s)
      (trace s ++ [EvOpen (length (opened s)) port]).

(** Ctrl-C during the delay before the first pass. *)
Definition W_early_ctrl_c : oracle :=
  Oracle (on_open W_car) (on_query W_car) (fun n => Nat.eqb n 0).

(** The fixed port gives an object that is not connected, and
    auto-detection raises. *)
Definition W_autodetect_raises : oracle :=
  Oracle
    (fun _ port =>
       match port with
       | Some _ => Return None
       | None => Raise (Exception "could not open port")
       end)
    (on_query W_car) (fun _ => false).

(** *** The polling thread with the blocking call made visible

    [worker_step] takes lines 331-354 (the flag test, the query, the
    scheduled call) as one step.  The query blocks inside the library, and
    the other threads run meanwhile.  Here the thread has one more position:
    [in_query = Some c] says that it has passed the flag test of line 331,
    has read [self.connection] (the object [c]) and is inside
    [c.query(command)]; its place in [threads] is still the parameter it is
    asking for. *)

(** Lines 334-354, from the return of [query]. *)
Definition finish_query (W : oracle) (t c : nat) (param : string) (cmd : command)
    (rest : list (string * command)) (g : dash) : dash :=
  match liftE (query W c cmd) g with
  | (Ok response, g') =>
      let value := format_value param response in
      let g'' :=
        if bool_decide (is_Some (data_vars g' !! param))
        then with_pending (pending g' ++ [(param, value)]) g'
        else g' in
      set_thread t (WFor rest) g''
  | (Raised (Exception msg), g') => read_error t msg g'
  | (Raised KeyboardInterrupt, g') => set_thread t WExited g'
  | (Running, g') => g'
  end.

Definition fine_step (W : oracle) (t : nat) (st : option nat * dash)
    : option nat * dash :=
  let (in_query, g) := st in
  match threads g !! t, in_query with
  | Some (WFor ((param, cmd) :: rest)), Some c =>
      (None, finish_query W t c param cmd rest g)
  | Some (WFor ((param, cmd) :: rest)), None =>
      if is_running g && bool_decide (is_Some (connection g))
      then (connection g, g)                 (* enters [query] *)
      else (None, worker_step W t g)         (* [break], or [None.query] raises *)
  | _, _ => (None, worker_step W t g)
  end.

(** The dashboard when [connect] starts its attempts: the status reads
    "Connecting...", the button is disabled, and [root.update()] has run the
    scheduled calls. *)
Definition connecting (g : dash) : dash :=
  drain (with_ui (Widgets "Status: Connecting..." "orange"
                          (btn_text (ui g)) (btn_bg (ui g)) Disabled) g).

(** Lines 275-282: connected, the polling thread is started. *)
Definition connected_state (l : link) (g : dash) : dash :=
  with_threads (threads g ++ [WLoopHead])
    (with_data_thread (Some (length (threads g)))
       (with_is_running true
          (with_ui (Widgets ("Status: Connected (" ++ protocol_name l ++ ")") "green"
                            "Disconnect" "#f44336" Normal) g))).

(** Lines 285-292 and 295-297: a message box, the button enabled again. *)
Definition refused_state (status title msg : string) (g : dash) : dash :=
  with_env (push [EvShowError title msg] 0 0 (g_env g))
    (with_ui (Widgets status "red" (btn_text (ui g)) (btn_bg (ui g)) Normal) g).

(** At most one connection object is connected, and [self.connection] holds
    it. *)
Definition one_session (g : dash) : Prop :=
  forall id l, conn_link (g_env g) id = Some l -> connection g = Some id.

(** A thread in a pass has a tail of the table left to visit; it sleeps half
    a second after a pass and one second after an error. *)
Definition pc_ok (pc : wpc) : Prop :=
  match pc with
  | WFor rest => exists visited, commands = (visited ++ rest)%list
  | WSleep ms => ms = 500 \/ ms = 1000
  | WLoopHead | WExited => True
  end.

Definition threads_ok (g : dash) : Prop := Forall pc_ok (threads g).

(** Lines 212-219: the cell of the parameter number [i] is placed in row
    [i // 2], column [i % 2]. *)
Definition grid_position (i : nat) : nat * nat := (i / 2, i mod 2).

Definition grid_cells : list (string * (nat * nat)) :=
  imap (fun i '(display_name, var_name, unit) => (var_name, grid_position i)) parameters.

(** [k + 1] polling threads stand at the head of their loop while a
    connection is open and the flag is set. *)
Definition polling_sessions (k : nat) (g : dash) : Prop :=
  destroyed g = false /\ btn_st (ui g) = Normal /\ is_running g = true /\
  threads g = replicate (S k) WLoopHead /\
  exists c l, connection g = Some c /\ conn_link (g_env g) c = Some l /\
              S c = length (opened (g_env g)).

(** * Properties *)

(** ** Formatting *)

Example format_0f_rpm : Fmt.format_f 0 812.5%float = "812".
Proof. vm_compute. reflexivity. Qed.

Example format_0f_half_up : Fmt.format_f 0 813.5%float = "814".
Proof. vm_compute. reflexivity. Qed.

Example format_1f_neg_small : Fmt.format_f 1 (-0.03125)%float = "-0.0".
Proof. vm_compute. reflexivity. Qed.

Example format_1f_quarter : Fmt.format_f 1 0.25%float = "0.2".
Proof. vm_compute. reflexivity. Qed.

Example format_1f_percent : Fmt.format_f 1 (255 * 100 / 255)%float = "100.0".
Proof. vm_compute. reflexivity. Qed.

Lemma round_half_even_nonneg (num den : Z) :
  (0 <= num)%Z -> (0 < den)%Z -> (0 <= Fmt.round_half_even num den)%Z.
Proof.
  intros Hnum Hden. unfold Fmt.round_half_even.
  assert (0 <= num / den)%Z by (apply Z.div_pos; lia).
  destruct (2 * (num mod den) ?= den)%Z; [destruct (Z.even _) | |]; lia.
Qed.

(** *** Reading a numeral back *)

Lemma append_cons c (a b : string) : String c a ++ b = String c (a ++ b).
Proof. reflexivity. Qed.

Lemma append_nil_r (s : string) : s ++ "" = s.
Proof.
  induction s as [| a s IH]; [done |]. by rewrite append_cons, IH.
Qed.

Lemma append_assoc (s1 s2 s3 : string) : (s1 ++ s2) ++ s3 = s1 ++ s2 ++ s3.
Proof.
  induction s1 as [| a s1 IH]; [done |]. by rewrite !append_cons, IH.
Qed.

Lemma length_append (a b : string) :
  String.length (a ++ b) = String.length a + String.length b.
Proof.
  induction a as [| c a IH]; [done |]. rewrite append_cons. simpl. by rewrite IH.
Qed.

Lemma digit_value_range c d : digit_value c = Some d -> (0 <= d < 10)%Z.
Proof.
  unfold digit_value. destruct (_ && _)%Z eqn:H; [| done].
  intros [= <-]. apply andb_true_iff in H as [H1 H2]. lia.
Qed.

Lemma digit_value_inj c1 c2 d :
  digit_value c1 = Some d -> digit_value c2 = Some d -> c1 = c2.
Proof.
  unfold digit_value.
  destruct (_ && _)%Z; [| done]. destruct (_ && _)%Z; [| done].
  intros [= H1] [= H2].
  rewrite <- (ascii_N_embedding c1), <- (ascii_N_embedding c2). f_equal. lia.
Qed.

Lemma digits_value_app acc a b :
  digits_value acc (a ++ b) =
    match digits_value acc a with
    | Some v => digits_value v b
    | None => None
    end.
Proof.
  revert acc. induction a as [| c a IH]; intros acc; [done |].
  rewrite append_cons. simpl. destruct (digit_value c); [apply IH | done].
Qed.

(** A string of digits after [acc] denotes a number in the range of
    [acc]. *)
Lemma digits_value_bounds s : forall acc v,
  digits_value acc s = Some v ->
  (acc * 10 ^ Z.of_nat (String.length s) <= v
   < (acc + 1) * 10 ^ Z.of_nat (String.length s))%Z.
Proof.
  induction s as [| c s IH]; intros acc v H.
  - simpl in *. injection H as <-. lia.
  - simpl in H. destruct (digit_value c) as [d |] eqn:Hd; [| done].
    apply digit_value_range in Hd. apply IH in H.
    change (String.length (String c s)) with (S (String.length s)).
    rewrite Nat2Z.inj_succ, Z.pow_succ_r by lia.
    assert (0 < 10 ^ Z.of_nat (String.length s))%Z by (apply Z.pow_pos_nonneg; lia).
    nia.
Qed.

(** Strings of digits of the same length that denote the same number are
    the same. *)
Lemma digits_value_inj s1 : forall s2 acc1 acc2 v,
  String.length s1 = String.length s2 ->
  digits_value acc1 s1 = Some v -> digits_value acc2 s2 = Some v ->
  acc1 = acc2 /\ s1 = s2.
Proof.
  induction s1 as [| c1 s1 IH]; intros [| c2 s2] acc1 acc2 v Hlen H1 H2;
    try discriminate.
  - simpl in *. split; [congruence | done].
  - simpl in H1, H2.
    destruct (digit_value c1) as [d1 |] eqn:Hd1; [| done].
    destruct (digit_value c2) as [d2 |] eqn:Hd2; [| done].
    injection Hlen as Hlen.
    destruct (IH s2 _ _ v Hlen H1 H2) as [Hacc ->].
    pose proof (digit_value_range _ _ Hd1). pose proof (digit_value_range _ _ Hd2).
    assert (d1 = d2) as -> by lia.
    split; [lia |]. f_equal. by apply (digit_value_inj c1 c2 d2).
Qed.

(** Its length is determined by the number. *)
Lemma canonical_bounds ip v :
  canonical ip -> digits_value 0 ip = Some v ->
  (v < 10 ^ Z.of_nat (String.length ip))%Z /\
  (2 <= String.length ip -> (10 ^ Z.of_nat (String.length ip - 1) <= v)%Z).
Proof.
  intros (c & rest & -> & Hzero) H.
  split; [apply digits_value_bounds in H; lia |].
  intros Hlen. simpl in H. destruct (digit_value c) as [d |] eqn:Hd; [| done].
  assert (d <> 0)%Z as Hnz.
  { intros ->. assert (c = "0"%char) as Hc
      by (apply (digit_value_inj c "0"%char 0); [exact Hd | reflexivity]).
    apply Hzero in Hc. subst rest. simpl in Hlen. lia. }
  apply digit_value_range in Hd. apply digits_value_bounds in H.
  change (String.length (String c rest) - 1) with (String.length rest - 0).
  rewrite Nat.sub_0_r.
  assert (0 < 10 ^ Z.of_nat (String.length rest))%Z by (apply Z.pow_pos_nonneg; lia).
  nia.
Qed.

Lemma canonical_inj ip1 ip2 v :
  canonical ip1 -> canonical ip2 ->
  digits_value 0 ip1 = Some v -> digits_value 0 ip2 = Some v -> ip1 = ip2.
Proof.
  intros Hc1 Hc2 H1 H2.
  destruct (canonical_bounds ip1 v Hc1 H1) as [Hu1 Hl1].
  destruct (canonical_bounds ip2 v Hc2 H2) as [Hu2 Hl2].
  assert (String.length ip1 = String.length ip2) as Hlen.
  { destruct (Nat.lt_trichotomy (String.length ip1) (String.length ip2))
      as [Hlt | [Heq | Hgt]]; [exfalso | done | exfalso].
    - assert (10 ^ Z.of_nat (String.length ip1)
              <= 10 ^ Z.of_nat (String.length ip2 - 1))%Z
        by (apply Z.pow_le_mono_r; lia).
      destruct Hc1 as (? & ? & -> & _). simpl in Hlt.
      specialize (Hl2 ltac:(lia)). lia.
    - assert (10 ^ Z.of_nat (String.length ip2)
              <= 10 ^ Z.of_nat (String.length ip1 - 1))%Z
        by (apply Z.pow_le_mono_r; lia).
      destruct Hc2 as (? & ? & -> & _). simpl in Hgt.
      specialize (Hl1 ltac:(lia)). lia. }
  by destruct (digits_value_inj ip1 ip2 0 0 v Hlen H1 H2).
Qed.

(** The text of a numeral is determined by the number. *)
Lemma numeral_unique prec neg n t1 t2 :
  numeral prec neg n t1 -> numeral prec neg n t2 -> t1 = t2.
Proof.
  intros (ip1 & fp1 & -> & Hl1 & Hc1 & Hv1) (ip2 & fp2 & -> & Hl2 & Hc2 & Hv2).
  rewrite digits_value_app in Hv1, Hv2.
  destruct (digits_value 0 ip1) as [v1 |] eqn:Hip1; [| done].
  destruct (digits_value 0 ip2) as [v2 |] eqn:Hip2; [| done].
  destruct (digits_value_inj fp1 fp2 v1 v2 n ltac:(congruence) Hv1 Hv2) as [-> ->].
  by rewrite (canonical_inj ip1 ip2 v2 Hc1 Hc2 Hip1 Hip2).
Qed.

Lemma nearest_even_unique num den n1 n2 :
  (0 < den)%Z -> nearest_even num den n1 -> nearest_even num den n2 -> n1 = n2.
Proof.
  intros Hden [Hd1 He1] [Hd2 He2].
  assert (-1 <= n2 - n1 <= 1)%Z as Hclose by nia.
  destruct (Z.eq_dec n1 n2) as [| Hne]; [done | exfalso].
  assert (2 * Z.abs (num - n1 * den) = den)%Z as Ht1 by nia.
  assert (2 * Z.abs (num - n2 * den) = den)%Z as Ht2 by nia.
  specialize (He1 Ht1). specialize (He2 Ht2).
  assert (n2 = n1 + 1 \/ n1 = n2 + 1)%Z as [-> | ->] by lia.
  - rewrite Z.even_add in He2. rewrite He1 in He2. done.
  - rewrite Z.even_add in He1. rewrite He2 in He1. done.
Qed.

Lemma rounds_to_unique prec neg num den t1 t2 :
  (0 < den)%Z ->
  rounds_to prec neg num den t1 -> rounds_to prec neg num den t2 -> t1 = t2.
Proof.
  intros Hden (n1 & Hn1 & Ht1) (n2 & Hn2 & Ht2).
  rewrite (nearest_even_unique _ _ n1 n2 Hden Hn1 Hn2) in Ht1.
  exact (numeral_unique _ _ _ _ _ Ht1 Ht2).
Qed.

(** "[x] to [prec] decimals" names one text. *)
Lemma shows_to_unique prec x t1 t2 :
  shows_to prec x t1 -> shows_to prec x t2 -> t1 = t2.
Proof.
  unfold shows_to. destruct (Prim2SF x) as [s | s | | s m e].
  - apply rounds_to_unique. lia.
  - congruence.
  - congruence.
  - apply rounds_to_unique. apply Z.pow_pos_nonneg; lia.
Qed.

(** *** The formatter writes that numeral *)

Lemma digit_readback d :
  (0 <= d < 10)%Z ->
  exists c, Fmt.digit d = String c "" /\ digit_value c = Some d.
Proof.
  intros Hd. unfold Fmt.digit. eexists. split; [reflexivity |].
  assert (d = 0 \/ d = 1 \/ d = 2 \/ d = 3 \/ d = 4 \/ d = 5 \/ d = 6 \/ d = 7
          \/ d = 8 \/ d = 9)%Z as H by lia.
  repeat (destruct H as [-> | H]; [reflexivity |]). by subst.
Qed.

Lemma frac_digits_length prec : forall n,
  String.length (Fmt.frac_digits prec n) = prec.
Proof.
  induction prec as [| p IH]; intros n; [done |].
  cbn [Fmt.frac_digits]. rewrite length_append, IH.
  unfold Fmt.digit. simpl. lia.
Qed.

Lemma frac_digits_value prec : forall n acc,
  digits_value acc (Fmt.frac_digits prec n)
    = Some (acc * 10 ^ Z.of_nat prec + n mod 10 ^ Z.of_nat prec)%Z.
Proof.
  induction prec as [| p IH]; intros n acc.
  - simpl. f_equal. rewrite Z.mod_1_r. lia.
  - cbn [Fmt.frac_digits]. rewrite digits_value_app, IH.
    destruct (digit_readback (n mod 10)) as (c & -> & Hc);
      [apply Z.mod_pos_bound; lia |].
    simpl. rewrite Hc. f_equal.
    rewrite Nat2Z.inj_succ, Z.pow_succ_r by lia.
    rewrite (Z.rem_mul_r n 10 (10 ^ Z.of_nat p)) by
      (try lia; apply Z.pow_pos_nonneg; lia).
    lia.
Qed.

(** The number a [Decimal.uint] denotes, after the digits [acc]. *)
Lemma uint_readback d : forall acc,
  exists v, digits_value acc (NilEmpty.string_of_uint d) = Some v /\
            forall p, acc = Z.pos p -> v = Z.pos (Pos.of_uint_acc d p).
Proof.
  induction d as [| d IH | d IH | d IH | d IH | d IH | d IH | d IH | d IH | d IH | d IH];
    intros acc;
    [ exists acc; split; [reflexivity | by intros p ->] | .. ];
    match goal with
    | |- context [NilEmpty.string_of_uint (?D d)] =>
        cbn [NilEmpty.string_of_uint digits_value]
    end;
    match goal with
    | |- context [digit_value ?c] =>
        let r := eval vm_compute in (digit_value c) in
        change (digit_value c) with r; cbv iota
    end;
    match goal with
    | |- context [digits_value ?a (NilEmpty.string_of_uint d)] =>
        destruct (IH a) as (v & Hv & Hp); exists v; split; [exact Hv |];
        intros p ->; cbn [Pos.of_uint_acc]; apply Hp; lia
    end.
Qed.

Lemma of_uint_readback d :
  digits_value 0 (NilEmpty.string_of_uint d) = Some (Z.of_N (Pos.of_uint d)).
Proof.
  induction d as [| d IH | d IH | d IH | d IH | d IH | d IH | d IH | d IH | d IH | d IH];
    [reflexivity | exact IH | ..];
    cbn [NilEmpty.string_of_uint digits_value Pos.of_uint];
    match goal with
    | |- context [digit_value ?c] =>
        let r := eval vm_compute in (digit_value c) in
        change (digit_value c) with r; cbv iota
    end;
    match goal with
    | |- digits_value ?a _ = _ =>
        destruct (uint_readback d a) as (v & -> & Hp); f_equal;
        rewrite (Hp _ eq_refl); reflexivity
    end.
Qed.

Lemma nzhead_head d :
  match Decimal.nzhead d with Decimal.D0 _ => False | _ => True end.
Proof. induction d; simpl; done. Qed.

Lemma unorm_canonical d : canonical (NilZero.string_of_uint (Decimal.unorm d)).
Proof.
  unfold Decimal.unorm. pose proof (nzhead_head d) as H.
  destruct (Decimal.nzhead d); try done;
    cbn; eexists _, _; (split; [reflexivity |]); done.
Qed.

Lemma int_digits_canonical k : canonical (Fmt.int_digits k).
Proof.
  unfold Fmt.int_digits.
  rewrite <- (DecimalN.Unsigned.of_to (Z.to_N k)) at 1.
  rewrite DecimalN.Unsigned.to_of. apply unorm_canonical.
Qed.

Lemma int_digits_value k :
  (0 <= k)%Z -> digits_value 0 (Fmt.int_digits k) = Some k.
Proof.
  intros Hk. unfold Fmt.int_digits.
  assert (forall d, digits_value 0 (NilZero.string_of_uint d)
                    = Some (Z.of_N (N.of_uint d))) as H.
  { intros d. destruct d; try apply of_uint_readback. reflexivity. }
  rewrite H, DecimalN.Unsigned.of_to. f_equal. lia.
Qed.

(** [fixed] writes the numeral of [n / 10^prec]. *)
Lemma fixed_numeral prec neg n :
  (0 <= n)%Z -> numeral prec neg n (Fmt.sign neg ++ Fmt.fixed prec n).
Proof.
  intros Hn.
  exists (Fmt.int_digits (n / 10 ^ Z.of_nat prec)), (Fmt.frac_digits prec n).
  assert (0 < 10 ^ Z.of_nat prec)%Z as Hpow by (apply Z.pow_pos_nonneg; lia).
  split; [reflexivity |].
  split; [apply frac_digits_length |].
  split; [apply int_digits_canonical |].
  rewrite digits_value_app, int_digits_value by (apply Z.div_pos; lia).
  rewrite frac_digits_value. f_equal.
  rewrite (Z.div_mod n (10 ^ Z.of_nat prec)) at 3 by lia. lia.
Qed.

Lemma round_half_even_nearest_even (num den : Z) :
  (0 < den)%Z -> nearest_even num den (Fmt.round_half_even num den).
Proof.
  intros Hden. unfold nearest_even, Fmt.round_half_even.
  pose proof (Z.div_mod num den ltac:(lia)) as Hdm.
  pose proof (Z.mod_pos_bound num den Hden) as Hr.
  set (q := (num / den)%Z) in *. set (r := (num mod den)%Z) in *.
  destruct (Z.compare_spec (2 * r) den) as [Heq | Hlt | Hgt].
  - destruct (Z.even q) eqn:Hq.
    + split; [nia | done].
    + split; [nia |]. intros _. by rewrite Z.even_add, Hq.
  - split; [nia | intros H; exfalso; nia].
  - split; [nia | intros H; exfalso; nia].
Qed.

Lemma scaled_nearest_even (prec : nat) (m : positive) (e : Z) :
  nearest_even (Z.pos m * 2 ^ Z.max e 0 * 10 ^ Z.of_nat prec) (2 ^ Z.max (- e) 0)
    (Fmt.scaled prec m e).
Proof.
  unfold Fmt.scaled.
  destruct (Z.leb_spec 0 e) as [Hle | Hlt].
  - rewrite (Z.max_l e 0), (Z.max_r (- e) 0) by lia.
    unfold nearest_even. simpl (2 ^ 0)%Z. split; [lia | intros H; exfalso; lia].
  - rewrite (Z.max_r e 0), (Z.max_l (- e) 0) by lia.
    replace (Z.pos m * 2 ^ 0 * 10 ^ Z.of_nat prec)%Z
      with (Z.pos m * 10 ^ Z.of_nat prec)%Z by (simpl (2 ^ 0)%Z; lia).
    apply round_half_even_nearest_even. apply Z.pow_pos_nonneg; lia.
Qed.

Lemma scaled_nonneg (prec : nat) (m : positive) (e : Z) :
  (0 <= Fmt.scaled prec m e)%Z.
Proof.
  unfold Fmt.scaled.
  assert (0 < 10 ^ Z.of_nat prec)%Z by (apply Z.pow_pos_nonneg; lia).
  destruct (Z.leb_spec 0 e).
  - assert (0 < 2 ^ e)%Z by (apply Z.pow_pos_nonneg; lia). nia.
  - apply round_half_even_nonneg; [nia |]. apply Z.pow_pos_nonneg; lia.
Qed.

(** [format_f] prints its argument to [prec] decimals. *)
Lemma format_f_shows (prec : nat) (x : float) :
  shows_to prec x (Fmt.format_f prec x).
Proof.
  unfold shows_to, Fmt.format_f.
  destruct (Prim2SF x) as [s | s | | s m e]; try reflexivity.
  - exists 0%Z. split; [| by apply fixed_numeral].
    split; [lia | done].
  - exists (Fmt.scaled prec m e).
    split; [apply scaled_nearest_even | apply fixed_numeral, scaled_nonneg].
Qed.

(** It is the only text that does. *)
Lemma shows_to_format_f (prec : nat) (x : float) (text : string) :
  shows_to prec x text <-> text = Fmt.format_f prec x.
Proof.
  split; [| intros ->; apply format_f_shows].
  intros H. exact (shows_to_unique prec x _ _ H (format_f_shows prec x)).
Qed.

(** C5: for a temperature reading of magnitude [c], both front ends print
    [c] to one decimal followed by the Celsius sign, and the float that the
    expression [c * 9 / 5 + 32] evaluates to, to one decimal, followed by the
    Fahrenheit sign; "to one decimal" names one text (the nearest numeral of
    tenths, ties to even, with a minus sign for a negative number).  For
    [c = 20.0] the texts are "20.0°C" and "68.0°F", for [c = -40.0] they are
    "-40.0°C" and "-40.0°F". *)
Theorem temperature_format :
  (forall c : float,
     exists celsius fahrenheit : string,
       shows_to 1 c celsius /\
       shows_to 1 (c * 9 / 5 + 32)%float fahrenheit /\
       (forall text, shows_to 1 c text -> text = celsius) /\
       (forall text, shows_to 1 (c * 9 / 5 + 32)%float text -> text = fahrenheit) /\
       coolant_line c = "Coolant Temp:    " ++ celsius ++ "°C (" ++ fahrenheit ++ "°F)" /\
       iat_line c = "Intake Air Temp: " ++ celsius ++ "°C (" ++ fahrenheit ++ "°F)" /\
       format_value "coolant_temp" (Some c)
         = celsius ++ "°C" ++ nl ++ "(" ++ fahrenheit ++ "°F)" /\
       format_value "intake_temp" (Some c)
         = celsius ++ "°C" ++ nl ++ "(" ++ fahrenheit ++ "°F)") /\
  coolant_line 20%float = "Coolant Temp:    20.0°C (68.0°F)" /\
  iat_line 20%float = "Intake Air Temp: 20.0°C (68.0°F)" /\
  format_value "coolant_temp" (Some 20%float) = "20.0°C" ++ nl ++ "(68.0°F)" /\
  format_value "intake_temp" (Some 20%float) = "20.0°C" ++ nl ++ "(68.0°F)" /\
  coolant_line (-40)%float = "Coolant Temp:    -40.0°C (-40.0°F)" /\
  format_value "intake_temp" (Some (-40)%float) = "-40.0°C" ++ nl ++ "(-40.0°F)".
Proof.
  split.
  - intros c.
    exists (Fmt.format_f 1 c), (Fmt.format_f 1 (c * 9 / 5 + 32)%float).
    split; [apply format_f_shows |]. split; [apply format_f_shows |].
    split; [intros text H; by apply shows_to_format_f |].
    split; [intros text H; by apply shows_to_format_f |].
    repeat split.
  - repeat split; vm_compute; reflexivity.
Qed.

Lemma temperature_format_witness :
  shows_to 1 20%float "20.0" /\ shows_to 1 (20 * 9 / 5 + 32)%float "68.0" /\
  format_value "coolant_temp" (Some 20%float) = "20.0" ++ "°C" ++ nl ++ "(" ++ "68.0" ++ "°F)".
Proof.
  destruct temperature_format as [H _].
  destruct (H 20%float) as (celsius & fahrenheit & Hc & Hf & Hcu & Hfu & _ & _ & Hv & _).
  assert (shows_to 1 20%float "20.0") as H20.
  { assert (Fmt.format_f 1 20%float = "20.0") as <- by (vm_compute; reflexivity).
    apply format_f_shows. }
  assert (shows_to 1 (20 * 9 / 5 + 32)%float "68.0") as H68.
  { assert (Fmt.format_f 1 (20 * 9 / 5 + 32)%float = "68.0") as <-
      by (vm_compute; reflexivity).
    apply format_f_shows. }
  split; [exact H20 |]. split; [exact H68 |].
  rewrite (Hcu _ H20), (Hfu _ H68). exact Hv.
Defined.

(** C5 as stated fails: the Fahrenheit text is that of the float the
    expression evaluates to, not of the number [c * 9 / 5 + 32].
    For the float [c] nearest to 16.36111111111111, which is
    [4605243368960455 / 2^48], the number [c * 9 / 5 + 32] lies below 61.45
    and is 61.4 to one decimal, while the three float operations give
    61.45 and both front ends print 61.5. *)
Theorem fahrenheit_of_the_float :
  let c := 0x1.05c71c71c71c7p+4%float in
  let num := (9 * 4605243368960455 + 160 * 2 ^ 48)%Z in
  let den := (5 * 2 ^ 48)%Z in
  Prim2SF c = S754_finite false 4605243368960455 (-48) /\
  rounds_to 1 false num den "61.4" /\
  ~ rounds_to 1 false num den "61.5" /\
  coolant_line c = "Coolant Temp:    16.4°C (61.5°F)" /\
  iat_line c = "Intake Air Temp: 16.4°C (61.5°F)" /\
  format_value "coolant_temp" (Some c) = "16.4°C" ++ nl ++ "(61.5°F)" /\
  format_value "intake_temp" (Some c) = "16.4°C" ++ nl ++ "(61.5°F)".
Proof.
  cbv zeta.
  assert (rounds_to 1 false (9 * 4605243368960455 + 160 * 2 ^ 48) (5 * 2 ^ 48) "61.4")
    as Hexact.
  { exists 614%Z. split.
    - split; [vm_compute; discriminate | vm_compute; discriminate].
    - exists "61", "4". split; [reflexivity |]. split; [reflexivity |].
      split; [| reflexivity].
      exists "6"%char, "1". split; [reflexivity | discriminate]. }
  split; [vm_compute; reflexivity |].
  split; [exact Hexact |].
  split.
  - intros H.
    assert ("61.4" = "61.5") as Heq; [| discriminate Heq].
    refine (rounds_to_unique 1 false _ _ _ _ _ Hexact H). vm_compute. reflexivity.
  - repeat split; vm_compute; reflexivity.
Qed.

(** ** The terminal report *)

Lemma push_push evs1 q1 sl1 evs2 q2 sl2 s :
  push evs2 q2 sl2 (push evs1 q1 sl1 s) = push (evs1 ++ evs2) (q2 + q1) (sl2 + sl1) s.
Proof. unfold push; simpl. f_equal; [lia | lia | by rewrite app_assoc]. Qed.

Lemma push_nil s : push [] 0 0 s = s.
Proof. destruct s. unfold push. simpl. by rewrite app_nil_r. Qed.

(** The loop body is the header, the seven readings, and the footer. *)
Lemma terminal_cycle_read_all W connection :
  terminal_cycle W connection =
    (clear_screen;;
     print "=== OBD-II LIVE DATA ===";;
     print (str_mul "-" 25);;
     read_all W connection terminal_readings
       (print (str_mul "-" 25);;
        print "Press Ctrl+C to exit";;
        sleep W 1000)).
Proof. reflexivity. Qed.

Lemma query_ok W id c v s :
  on_query W (n_query s) c = Return v ->
  query W id c s = (Ok v, push [EvQuery id c] 1 0 s).
Proof. intros H. unfold query. by rewrite H. Qed.

Lemma query_raise W id c e s :
  on_query W (n_query s) c = Raise e ->
  query W id c s = (Raised e, push [EvQuery id c] 1 0 s).
Proof. intros H. unfold query. by rewrite H. Qed.

Lemma show_ok line no_data v s :
  show line no_data v s = (Ok tt, push [EvPrint (line_or line no_data v)] 0 0 s).
Proof. by destruct v. Qed.

Lemma bind_ok {S A B} (m : M S A) (k : A -> M S B) s a s' :
  m s = (Ok a, s') -> (m ≫= k) s = k a s'.
Proof. intros H. unfold mbind, M_bind. by rewrite H. Qed.

Lemma bind_raised {S A B} (m : M S A) (k : A -> M S B) s e s' :
  m s = (Raised e, s') -> (m ≫= k) s = (Raised e, s').
Proof. intros H. unfold mbind, M_bind. by rewrite H. Qed.

Lemma read_all_ok W id rs vs k s :
  answers W (n_query s) (map (fun r => r.1.1) rs) vs ->
  read_all W id rs k s = k (push (reading_events id rs vs) (length rs) 0 s).
Proof.
  revert vs s. induction rs as [| [[c line] nd] rs IH]; intros vs s Hans.
  - destruct vs; [| done]. simpl. by rewrite push_nil.
  - destruct vs as [| v vs]; [done |]. destruct Hans as [Hq Hans].
    simpl read_all.
    rewrite (bind_ok _ _ _ _ _ (query_ok _ id _ _ _ Hq)).
    rewrite (bind_ok _ _ _ _ _ (show_ok _ _ _ _)).
    rewrite push_push.
    rewrite (IH vs); [| exact Hans].
    rewrite push_push. simpl. do 2 f_equal. unfold push. f_equal; lia.
Qed.

Lemma read_all_raise W id pre cmd line nd post vs e k s :
  answers W (n_query s) (map (fun r => r.1.1) pre) vs ->
  on_query W (length pre + n_query s) cmd = Raise e ->
  read_all W id (pre ++ (cmd, line, nd) :: post) k s =
    (Raised e, push (reading_events id pre vs ++ [EvQuery id cmd]) (S (length pre)) 0 s).
Proof.
  revert vs s. induction pre as [| [[c l] n] pre IH]; intros vs s Hans Hq.
  - destruct vs; [| done]. simpl.
    by rewrite (bind_raised _ _ _ _ _ (query_raise _ id _ _ _ Hq)).
  - destruct vs as [| v vs]; [done |]. destruct Hans as [Hq0 Hans].
    simpl app. simpl read_all.
    rewrite (bind_ok _ _ _ _ _ (query_ok _ id _ _ _ Hq0)).
    rewrite (bind_ok _ _ _ _ _ (show_ok _ _ _ _)).
    rewrite push_push.
    rewrite (IH vs); [| exact Hans |].
    + rewrite push_push. simpl. do 2 f_equal. unfold push. f_equal; lia.
    + simpl. rewrite <- Hq. f_equal. simpl. lia.
Qed.

Lemma answers_values_from W q cs :
  (forall n c, exists v, on_query W n c = Return v) ->
  answers W q cs (values_from W q cs).
Proof.
  intros Hret. revert q. induction cs as [| c cs IH]; intros q; [done |].
  simpl. split; [| apply IH].
  unfold value_at. destruct (Hret q c) as [v Hv]. by rewrite Hv.
Qed.

Lemma report_events_readings W id q :
  report_events W id q =
    ([EvClear; EvPrint "=== OBD-II LIVE DATA ==="; EvPrint (str_mul "-" 25)]
     ++ reading_events id terminal_readings
          (values_from W q (map (fun r => r.1.1) terminal_readings))
     ++ [EvPrint (str_mul "-" 25); EvPrint "Press Ctrl+C to exit"; EvSleep 1000])%list.
Proof. reflexivity. Qed.

Lemma emit_ok ev s : emit ev s = (Ok tt, push [ev] 0 0 s).
Proof. reflexivity. Qed.

Lemma sleep_ok W ms s :
  on_sleep W (n_sleep s) = false -> sleep W ms s = (Ok tt, push [EvSleep ms] 0 1 s).
Proof. intros H. unfold sleep. by rewrite H. Qed.

Lemma sleep_interrupted W ms s :
  on_sleep W (n_sleep s) = true ->
  sleep W ms s = (Raised KeyboardInterrupt, push [EvSleep ms] 0 1 s).
Proof. intros H. unfold sleep. by rewrite H. Qed.

Lemma terminal_cycle_ok W id s :
  (forall n c, exists v, on_query W n c = Return v) ->
  (forall n, on_sleep W n = false) ->
  terminal_cycle W id s = (Ok tt, push (report_events W id (n_query s)) 7 1 s).
Proof.
  intros Hret Hsl. rewrite terminal_cycle_read_all.
  unfold clear_screen, print.
  rewrite !(bind_ok _ _ _ _ _ (emit_ok _ _)), !push_push.
  rewrite (read_all_ok W id terminal_readings
             (values_from W (n_query s) (map (fun r => r.1.1) terminal_readings)));
    [| apply answers_values_from, Hret].
  rewrite !push_push.
  rewrite !(bind_ok _ _ _ _ _ (emit_ok _ _)), !push_push.
  rewrite sleep_ok by apply Hsl. rewrite push_push.
  by rewrite report_events_readings.
Qed.

Lemma flat_map_seq_S {A} (f : nat -> list A) (n : nat) :
  flat_map f (seq 0 (S n)) = (f 0 ++ flat_map (fun k => f (S k)) (seq 0 n))%list.
Proof.
  change (seq 0 (S n)) with (0 :: seq 1 n).
  rewrite <- seq_shift. change (flat_map f (0 :: map S (seq 0 n)))
    with (f 0 ++ flat_map f (map S (seq 0 n)))%list.
  f_equal. induction (seq 0 n) as [| k l IH]; [done |].
  simpl. by rewrite IH.
Qed.

Lemma terminal_loop_running W id fuel s :
  (forall n c, exists v, on_query W n c = Return v) ->
  (forall n, on_sleep W n = false) ->
  terminal_loop W fuel id s =
    (Running,
     push (flat_map (fun k => report_events W id (7 * k + n_query s)) (seq 0 fuel))
          (7 * fuel) fuel s).
Proof.
  intros Hret Hsl. revert s. induction fuel as [| fuel IH]; intros s.
  - simpl. by rewrite push_nil.
  - change (terminal_loop W (S fuel) id)
      with (terminal_cycle W id;; terminal_loop W fuel id).
    rewrite (bind_ok _ _ _ _ _ (terminal_cycle_ok W id s Hret Hsl)).
    rewrite IH, push_push, flat_map_seq_S.
    f_equal. unfold push. cbn [n_query]. f_equal; [lia | lia |].
    f_equal. f_equal. apply flat_map_ext. intros k. f_equal. lia.
Qed.

(** The loop ends only by an exception. *)
Lemma terminal_loop_not_ok W fuel id s s' :
  terminal_loop W fuel id s <> (Ok tt, s').
Proof.
  revert s. induction fuel as [| fuel IH]; intros s; [done |].
  change (terminal_loop W (S fuel) id)
    with (terminal_cycle W id;; terminal_loop W fuel id).
  unfold mbind, M_bind.
  destruct (terminal_cycle W id s) as [[[] | e |] s1]; [apply IH | done | done].
Qed.

Lemma terminal_run_running W fuel id s s1 :
  terminal_loop W fuel id s = (Running, s1) ->
  terminal_run W fuel id s = (Running, s1).
Proof.
  intros H. unfold terminal_run, try_finally, try_except. by rewrite H.
Qed.

Lemma terminal_run_raised W fuel id s e s1 :
  terminal_loop W fuel id s = (Raised e, s1) ->
  terminal_run W fuel id s =
    (Ok tt,
     push [EvPrint "Connection closed."] 0 0
       (closed id (push [EvPrint (handler_text e)] 0 0 s1))).
Proof.
  intros H. unfold terminal_run, try_finally, try_except. rewrite H.
  by destruct e.
Qed.

Lemma conn_link_push evs q sl s id :
  conn_link (push evs q sl s) id = conn_link s id.
Proof. reflexivity. Qed.

Lemma is_connected_true s id l :
  conn_link s id = Some l -> is_connected id s = (Ok true, s).
Proof.
  intros H. unfold is_connected. rewrite H.
  by rewrite bool_decide_eq_true_2 by eauto.
Qed.

Lemma is_connected_false s id :
  conn_link s id = None -> is_connected id s = (Ok false, s).
Proof.
  intros H. unfold is_connected. rewrite H.
  by rewrite bool_decide_eq_false_2 by (intros [? ?]; done).
Qed.

Lemma get_port_name_ok s id l :
  conn_link s id = Some l -> get_port_name id s = (Ok (port_name l), s).
Proof. intros H. unfold get_port_name. by rewrite H. Qed.

Lemma get_protocol_name_ok s id l :
  conn_link s id = Some l -> get_protocol_name id s = (Ok (protocol_name l), s).
Proof. intros H. unfold get_protocol_name. by rewrite H. Qed.

Lemma terminal_mode_connected W fuel s id s1 l :
  terminal_connect W (print "Connecting to OBD-II port..." s).2 = (Ok id, s1) ->
  conn_link s1 id = Some l ->
  on_sleep W (n_sleep s1) = false ->
  terminal_mode W fuel s = terminal_run W fuel id (push (prologue l) 0 1 s1).
Proof.
  intros Hc Hl Hsl. unfold terminal_mode.
  rewrite (bind_ok _ _ s tt (print "Connecting to OBD-II port..." s).2 eq_refl).
  rewrite (bind_ok _ _ _ _ _ Hc).
  rewrite (bind_ok _ _ _ _ _ (is_connected_true _ _ _ Hl)). cbn [negb].
  rewrite (bind_ok _ _ _ _ _ (get_port_name_ok _ _ _ Hl)).
  unfold print.
  rewrite (bind_ok _ _ _ _ _ (emit_ok _ _)).
  rewrite (bind_ok _ _ _ _ _ (get_protocol_name_ok (push _ 0 0 s1) id l Hl)).
  rewrite !(bind_ok _ _ _ _ _ (emit_ok _ _)), !push_push.
  rewrite (bind_ok _ _ _ _ _ (sleep_ok W 2000 (push _ 0 0 s1) Hsl)).
  by rewrite push_push.
Qed.

(** C1 (amended): once connected, the terminal loop prints, pass after pass
    and for as many passes as it is given, the fixed-order report of the
    seven readings RPM, speed, coolant temperature, throttle position, engine
    load, intake air temperature and fuel level (fuel pressure is not part of
    it), sleeps one second after each, and never leaves the loop as long as
    no query raises and no interrupt arrives. *)
Theorem terminal_report_repeats W fuel s id s1 l :
  terminal_connect W (print "Connecting to OBD-II port..." s).2 = (Ok id, s1) ->
  conn_link s1 id = Some l ->
  (forall n c, exists v, on_query W n c = Return v) ->
  (forall n, on_sleep W n = false) ->
  terminal_mode W fuel s =
    (Running,
     push (prologue l ++
           flat_map (fun k => report_events W id (7 * k + n_query s1)) (seq 0 fuel))
          (7 * fuel) (S fuel) s1).
Proof.
  intros Hc Hl Hret Hsl.
  rewrite (terminal_mode_connected W fuel s id s1 l Hc Hl (Hsl _)).
  rewrite (terminal_run_running W fuel id _ _
             (terminal_loop_running W id fuel _ Hret Hsl)).
  rewrite push_push. f_equal. unfold push. cbn [n_query]. f_equal; lia.
Qed.

(** Two passes against a car that answers. *)
Lemma terminal_report_repeats_witness :
  exists s,
    terminal_mode W_car 2 env0 = (Running, s) /\ n_query s = 14 /\ n_sleep s = 3.
Proof.
  eexists. split.
  - eapply (terminal_report_repeats W_car 2 env0 0 _ (Link "/dev/ttyACM0" "ISO 15765-4")).
    + vm_compute. reflexivity.
    + reflexivity.
    + intros n c. destruct c; eexists; reflexivity.
    + reflexivity.
  - split; reflexivity.
Defined.

(** C1 as stated fails: a full pass of the terminal loop against a car that
    answers every query prints seven readings and never asks for the fuel
    pressure. *)
Lemma terminal_report_omits_fuel_pressure :
  exists s,
    terminal_mode W_car 1 env0 = (Running, s) /\
    trace s =
      [ EvPrint "Connecting to OBD-II port...";
        EvPrint "Trying /dev/ttyACM0...";
        EvOpen 0 (Some "/dev/ttyACM0");
        EvPrint "Connected via /dev/ttyACM0!";
        EvPrint "Connected to: /dev/ttyACM0";
        EvPrint "Protocol: ISO 15765-4";
        EvPrint (nl ++ "Starting data read... (Press Ctrl+C to exit)");
        EvSleep 2000;
        EvClear;
        EvPrint "=== OBD-II LIVE DATA ===";
        EvPrint "-------------------------";
        EvQuery 0 RPM; EvPrint "Engine RPM:      812 rpm";
        EvQuery 0 SPEED; EvPrint "Vehicle Speed:   No data";
        EvQuery 0 COOLANT_TEMP; EvPrint "Coolant Temp:    90.0°C (194.0°F)";
        EvQuery 0 THROTTLE_POS; EvPrint "Throttle Pos:    37.5%";
        EvQuery 0 ENGINE_LOAD; EvPrint "Engine Load:     37.5%";
        EvQuery 0 INTAKE_TEMP; EvPrint "Intake Air Temp: 20.0°C (68.0°F)";
        EvQuery 0 FUEL_LEVEL; EvPrint "Fuel Level:      37.5%";
        EvPrint "-------------------------";
        EvPrint "Press Ctrl+C to exit";
        EvSleep 1000 ] /\
    queried (trace s) FUEL_PRESSURE = false /\
    ~ (forall c, queried (trace s) c = true).
Proof.
  eexists. split; [vm_compute; reflexivity |].
  split; [vm_compute; reflexivity |].
  split; [vm_compute; reflexivity |].
  intros H. specialize (H FUEL_PRESSURE). vm_compute in H. discriminate.
Qed.

(** ** A pass of the polling thread *)

Lemma worker_step_for W t g param cmd rest :
  threads g !! t = Some (WFor ((param, cmd) :: rest)) ->
  worker_step W t g = read_param W t param cmd rest g.
Proof. intros H. unfold worker_step. by rewrite H. Qed.

Lemma read_param_ok W t g param cmd rest c v :
  is_running g = true ->
  connection g = Some c ->
  on_query W (n_query (g_env g)) cmd = Return v ->
  read_param W t param cmd rest g =
    Dash (push [EvQuery c cmd] 1 0 (g_env g)) (connection g) (is_running g)
         (data_thread g) (data_vars g) (ui g)
         (<[t := WFor rest]> (threads g))
         (pending g ++ published (data_vars g) [(param, cmd)] [v])
         (destroyed g).
Proof.
  destruct g as [e co ru dt dv w ts pe de]. cbn. intros -> -> Hq.
  unfold read_param. cbn [is_running connection negb attr_of].
  unfold mbind, M_bind, mret, M_ret, liftE. cbn [g_env].
  rewrite (query_ok W c cmd v _ Hq).
  cbn [with_env data_vars published].
  destruct (bool_decide (is_Some (dv !! param))).
  - reflexivity.
  - by rewrite app_nil_r.
Qed.

Lemma read_param_raise W t g param cmd rest c msg :
  is_running g = true ->
  connection g = Some c ->
  on_query W (n_query (g_env g)) cmd = Raise (Exception msg) ->
  read_param W t param cmd rest g =
    Dash (push [EvQuery c cmd; EvPrint ("Error reading data: " ++ msg)] 1 0 (g_env g))
         (connection g) (is_running g)
         (data_thread g) (data_vars g) (ui g)
         (<[t := WSleep 1000]> (threads g))
         (pending g)
         (destroyed g).
Proof.
  destruct g as [e co ru dt dv w ts pe de]. cbn. intros -> -> Hq.
  unfold read_param. cbn [is_running connection negb attr_of].
  unfold mbind, M_bind, mret, M_ret, liftE. cbn [g_env].
  rewrite (query_raise W c cmd _ _ Hq).
  unfold read_error, set_thread, with_threads, with_env, print, push. simpl.
  by rewrite <- app_assoc.
Qed.

Lemma published_app d ps1 vs1 ps2 vs2 :
  length ps1 = length vs1 ->
  published d (ps1 ++ ps2) (vs1 ++ vs2) = (published d ps1 vs1 ++ published d ps2 vs2)%list.
Proof.
  revert vs1. induction ps1 as [| [p c] ps1 IH]; intros [| v vs1] Hlen; try done.
  simpl in *. rewrite IH by lia. by rewrite app_assoc.
Qed.

Lemma answers_length W q cs vs : answers W q cs vs -> length cs = length vs.
Proof.
  revert q vs. induction cs as [| c cs IH]; intros q [| v vs] H; try done.
  destruct H as [_ H]. simpl. f_equal. eauto.
Qed.

(** The thread visits the parameters [pre] whose queries return [vs]: one
    query and one scheduled call per step. *)
Lemma worker_reads W t c pre : forall rest vs g,
  threads g !! t = Some (WFor (pre ++ rest)) ->
  is_running g = true ->
  connection g = Some c ->
  answers W (n_query (g_env g)) pre.*2 vs ->
  Nat.iter (length pre) (worker_step W t) g =
    Dash (push (map (EvQuery c) pre.*2) (length pre) 0 (g_env g))
         (connection g) (is_running g) (data_thread g) (data_vars g) (ui g)
         (<[t := WFor rest]> (threads g))
         (pending g ++ published (data_vars g) pre vs)
         (destroyed g).
Proof.
  induction pre as [| [param cmd] pre IH]; intros rest vs g Ht Hrun Hc Hans.
  - destruct vs; [| done]. simpl. rewrite push_nil, app_nil_r.
    rewrite list_insert_id by exact Ht. by destruct g.
  - destruct vs as [| v vs]; [done |]. destruct Hans as [Hq Hans].
    cbn [length]. rewrite Nat.iter_succ_r.
    rewrite (worker_step_for W t g param cmd (pre ++ rest) Ht).
    rewrite (read_param_ok W t g param cmd (pre ++ rest) c v Hrun Hc Hq).
    rewrite (IH rest vs); cbn [threads is_running connection g_env data_vars
                               data_thread ui pending destroyed].
    + rewrite push_push, list_insert_insert_eq, <- app_assoc.
      cbn [published fmap list_fmap map app snd].
      f_equal; [f_equal; lia | by rewrite app_nil_r].
    + apply list_lookup_insert_eq. by eapply lookup_lt_Some.
    + exact Hrun.
    + exact Hc.
    + exact Hans.
Qed.

Lemma worker_pass_fails W t c pre param cmd post vs msg g :
  threads g !! t = Some (WFor (pre ++ (param, cmd) :: post)) ->
  is_running g = true ->
  connection g = Some c ->
  answers W (n_query (g_env g)) pre.*2 vs ->
  on_query W (length pre + n_query (g_env g)) cmd = Raise (Exception msg) ->
  Nat.iter (S (length pre)) (worker_step W t) g =
    Dash (push (map (EvQuery c) pre.*2
                ++ [EvQuery c cmd; EvPrint ("Error reading data: " ++ msg)])
               (S (length pre)) 0 (g_env g))
         (connection g) (is_running g) (data_thread g) (data_vars g) (ui g)
         (<[t := WSleep 1000]> (threads g))
         (pending g ++ published (data_vars g) pre vs)
         (destroyed g).
Proof.
  intros Ht Hrun Hc Hans Hq. cbn [Nat.iter nat_rect].
  change (nat_rect _ g (fun _ => worker_step W t) (length pre))
    with (Nat.iter (length pre) (worker_step W t) g).
  rewrite (worker_reads W t c pre _ vs g Ht Hrun Hc Hans).
  assert (t < length (threads g)) as Hlt by (by eapply lookup_lt_Some).
  rewrite (worker_step_for W t _ param cmd post)
    by (by apply list_lookup_insert_eq).
  rewrite (read_param_raise W t _ param cmd post c msg);
    cbn [threads is_running connection g_env data_vars data_thread ui pending
         destroyed]; [| exact Hrun | exact Hc | exact Hq].
  by rewrite push_push, list_insert_insert_eq.
Qed.

Lemma data_vars_drain g : data_vars (drain g) = apply_calls (data_vars g) (pending g).
Proof. reflexivity. Qed.

Lemma apply_calls_app d l1 l2 :
  apply_calls d (l1 ++ l2) = apply_calls (apply_calls d l1) l2.
Proof. apply foldl_app. Qed.

Lemma apply_calls_notin d l p :
  p ∉ l.*1 -> apply_calls d l !! p = d !! p.
Proof.
  revert d. induction l as [| [q v] l IH]; intros d Hp; [done |].
  simpl in *. apply not_elem_of_cons in Hp as [Hne Hp].
  rewrite IH by exact Hp. by apply lookup_insert_ne.
Qed.

Lemma apply_calls_in d l p v :
  NoDup l.*1 -> (p, v) ∈ l -> apply_calls d l !! p = Some v.
Proof.
  revert d. induction l as [| [q w] l IH]; intros d Hnd Hin.
  - by apply elem_of_nil in Hin.
  - simpl in *. apply NoDup_cons in Hnd as [Hq Hnd].
    apply elem_of_cons in Hin as [Heq | Hin].
    + inversion Heq; subst. rewrite apply_calls_notin by exact Hq.
      apply lookup_insert_eq.
    + by apply IH.
Qed.

(** With every cell in place, a pass schedules one call per answer. *)
Lemma published_all d ps vs :
  (forall p, p ∈ ps.*1 -> is_Some (d !! p)) ->
  published d ps vs = zip_with (fun pc v => (pc.1, format_value pc.1 v)) ps vs.
Proof.
  revert vs. induction ps as [| [p c] ps IH]; intros [| v vs] Hd; try done.
  simpl. rewrite bool_decide_eq_true_2 by (apply Hd; simpl; left).
  simpl. f_equal. apply IH. intros q Hq. apply Hd. simpl. by right.
Qed.

Lemma published_keys d ps vs : (published d ps vs).*1 ⊆ ps.*1.
Proof.
  revert vs. induction ps as [| [p c] ps IH]; intros [| v vs]; simpl;
    try (intros x Hx; by apply elem_of_nil in Hx).
  destruct (bool_decide _); simpl.
  - intros x Hx. apply elem_of_cons in Hx as [-> | Hx]; [left | right; by eapply IH].
  - intros x Hx. right. by eapply IH.
Qed.

Lemma published_NoDup d ps vs : NoDup ps.*1 -> NoDup (published d ps vs).*1.
Proof.
  revert vs. induction ps as [| [p c] ps IH]; intros [| v vs] Hnd; simpl;
    try apply NoDup_nil_2.
  simpl in Hnd. apply NoDup_cons in Hnd as [Hp Hnd].
  destruct (bool_decide _); simpl; [| by apply IH].
  apply NoDup_cons. split; [| by apply IH].
  intros Hin. apply Hp. by eapply published_keys.
Qed.

Lemma published_lookup d ps vs i p c v :
  is_Some (d !! p) ->
  ps !! i = Some (p, c) -> vs !! i = Some v ->
  (p, format_value p v) ∈ published d ps vs.
Proof.
  intros Hd. revert vs i. induction ps as [| [q c'] ps IH]; intros [| w vs] i Hp Hv;
    try done.
  destruct i as [| i]; simpl in *.
  - inversion Hp; inversion Hv; subst.
    rewrite bool_decide_eq_true_2 by exact Hd. left.
  - apply elem_of_app. right. by eapply IH.
Qed.

Lemma commands_NoDup : NoDup commands.*1.
Proof. apply (bool_decide_unpack (NoDup commands.*1)). vm_compute. exact I. Qed.

Lemma answers_take W q cs vs j :
  answers W q cs vs -> answers W q (take j cs) (take j vs).
Proof.
  revert q vs j. induction cs as [| c cs IH]; intros q [| v vs] [| j] H; try done.
  destruct H as [Hq H]. simpl. split; [exact Hq | by apply IH].
Qed.

Lemma worker_step_sleep W t g ms :
  threads g !! t = Some (WSleep ms) ->
  worker_step W t g =
    Dash (push [EvSleep ms] 0 1 (g_env g))
         (connection g) (is_running g) (data_thread g) (data_vars g) (ui g)
         (<[t := if on_sleep W (n_sleep (g_env g)) then WExited else WLoopHead]>
            (threads g))
         (pending g) (destroyed g).
Proof.
  intros Ht. unfold worker_step. rewrite Ht. unfold liftE, sleep.
  by destruct (on_sleep W (n_sleep (g_env g))).
Qed.

Lemma worker_step_loop_head W t g :
  threads g !! t = Some WLoopHead ->
  worker_step W t g =
    with_threads
      (<[t := if loop_condition g then WFor commands else WExited]> (threads g)) g.
Proof. intros Ht. unfold worker_step. by rewrite Ht. Qed.

(** C10: a pass of the polling thread publishes parameter by parameter.
    When the queries of the parameters [pre] return and the query of the next
    one raises, then after each returned query one more call is scheduled,
    the failing step and the sleep after it schedule and undo nothing, and
    once the event loop has run the scheduled calls the cells of [pre] hold
    the new texts while the cell of the failing parameter and of every later
    one holds what it held before the pass. *)
Theorem failed_pass_keeps_published W t c g pre param cmd post vs msg :
  commands = (pre ++ (param, cmd) :: post)%list ->
  threads g !! t = Some (WFor commands) ->
  is_running g = true ->
  connection g = Some c ->
  (forall p, p ∈ commands.*1 -> is_Some (data_vars g !! p)) ->
  answers W (n_query (g_env g)) pre.*2 vs ->
  on_query W (length pre + n_query (g_env g)) cmd = Raise (Exception msg) ->
  let new := fun (pc : string * command) v => (pc.1, format_value pc.1 v) in
  let g' := Nat.iter (S (length pre)) (worker_step W t) g in
  (forall j, j <= length pre ->
     pending (Nat.iter j (worker_step W t) g)
       = (pending g ++ zip_with new (take j pre) (take j vs))%list) /\
  pending g' = (pending g ++ zip_with new pre vs)%list /\
  data_vars g' = data_vars g /\
  threads g' !! t = Some (WSleep 1000) /\
  pending (worker_step W t g') = pending g' /\
  data_vars (worker_step W t g') = data_vars g' /\
  (forall i p c' v,
     pre !! i = Some (p, c') -> vs !! i = Some v ->
     data_vars (drain g') !! p = Some (format_value p v)) /\
  (forall p, p ∈ param :: post.*1 ->
     data_vars (drain g') !! p = data_vars (drain g) !! p).
Proof.
  intros Hsplit Ht Hrun Hc Hcells Hans Hq new g'.
  assert (forall p, p ∈ pre.*1 -> is_Some (data_vars g !! p)) as Hpre.
  { intros p Hp. apply Hcells. rewrite Hsplit, fmap_app. apply elem_of_app. by left. }
  assert (NoDup (pre.*1 ++ param :: post.*1)%list) as Hnd.
  { pose proof commands_NoDup as H. by rewrite Hsplit, fmap_app in H. }
  apply NoDup_app in Hnd as (Hnd_pre & Hdisj & _).
  rewrite Hsplit in Ht.
  assert (g' = Dash (push (map (EvQuery c) pre.*2
                ++ [EvQuery c cmd; EvPrint ("Error reading data: " ++ msg)])
               (S (length pre)) 0 (g_env g))
         (connection g) (is_running g) (data_thread g) (data_vars g) (ui g)
         (<[t := WSleep 1000]> (threads g))
         (pending g ++ published (data_vars g) pre vs)
         (destroyed g)) as Hg'
    by exact (worker_pass_fails W t c pre param cmd post vs msg g Ht Hrun Hc Hans Hq).
  assert (t < length (threads g)) as Hlt by (by eapply lookup_lt_Some).
  assert (threads g' !! t = Some (WSleep 1000)) as Ht'.
  { rewrite Hg'. cbn [threads]. by apply list_lookup_insert_eq. }
  repeat split.
  - intros j Hj.
    rewrite <- (take_drop j pre), <- app_assoc in Ht.
    pose proof (worker_reads W t c (take j pre) _ (take j vs) g Ht Hrun Hc) as Hr.
    rewrite length_take_le in Hr by exact Hj. rewrite Hr.
    + cbn [pending]. f_equal. apply published_all.
      intros p Hp. apply Hpre. rewrite fmap_take in Hp.
      apply elem_of_take in Hp as (i & Hi & _). by eapply list_elem_of_lookup_2.
    + rewrite fmap_take. by apply answers_take.
  - rewrite Hg'. cbn [pending]. f_equal. by apply published_all.
  - by rewrite Hg'.
  - exact Ht'.
  - by rewrite (worker_step_sleep W t g' 1000 Ht').
  - by rewrite (worker_step_sleep W t g' 1000 Ht').
  - intros i p c' v Hp Hv.
    rewrite data_vars_drain, Hg'. cbn [data_vars pending].
    rewrite apply_calls_app. apply apply_calls_in.
    + by apply published_NoDup.
    + eapply published_lookup; [| exact Hp | exact Hv].
      apply Hpre. apply list_elem_of_fmap. exists (p, c'). split; [done |].
      by eapply list_elem_of_lookup_2.
  - intros p Hp.
    rewrite !data_vars_drain, Hg'. cbn [data_vars pending].
    rewrite apply_calls_app. apply apply_calls_notin.
    intros Hin. apply (Hdisj p); [| exact Hp]. by eapply published_keys.
Qed.

(** The speed query fails right after the RPM query returned: the RPM cell
    gets its new text, the speed cell keeps "--". *)
Lemma failed_pass_keeps_published_witness :
  let g' := Nat.iter 2 (worker_step W_speed_fails 0) g_polling in
  pending g' = [("rpm", "812")] /\
  data_vars (drain g') !! "rpm" = Some "812" /\
  data_vars (drain g') !! "speed" = Some "--".
Proof.
  destruct (failed_pass_keeps_published W_speed_fails 0 0 g_polling
              [("rpm", RPM)] "speed" SPEED
              [ ("coolant_temp", COOLANT_TEMP); ("throttle_pos", THROTTLE_POS);
                ("engine_load", ENGINE_LOAD); ("intake_temp", INTAKE_TEMP);
                ("fuel_level", FUEL_LEVEL); ("fuel_pressure", FUEL_PRESSURE) ]
              [Some 812.5%float] "timeout")
    as (_ & Hpending & _ & _ & _ & _ & Hnew & Hold).
  - reflexivity.
  - vm_compute. reflexivity.
  - vm_compute. reflexivity.
  - vm_compute. reflexivity.
  - intros p Hp.
    repeat (apply elem_of_cons in Hp as [-> | Hp]; [vm_compute; eauto |]).
    by apply elem_of_nil in Hp.
  - split; [reflexivity | exact I].
  - reflexivity.
  - split; [exact Hpending |].
    split.
    + exact (Hnew 0 "rpm" RPM (Some 812.5%float) eq_refl eq_refl).
    + etransitivity; [exact (Hold "speed" ltac:(left)) |].
      vm_compute. reflexivity.
Defined.

(** ** A query that raises *)

Lemma dashboard_query_failure W t c g pre param cmd post vs msg :
  commands = (pre ++ (param, cmd) :: post)%list ->
  threads g !! t = Some (WFor commands) ->
  is_running g = true ->
  connection g = Some c ->
  answers W (n_query (g_env g)) pre.*2 vs ->
  on_query W (length pre + n_query (g_env g)) cmd = Raise (Exception msg) ->
  on_sleep W (n_sleep (g_env g)) = false ->
  let g1 := Nat.iter (S (length pre)) (worker_step W t) g in
  let g2 := worker_step W t g1 in
  let g3 := worker_step W t g2 in
  threads g1 !! t = Some (WSleep 1000) /\
  threads g2 !! t = Some WLoopHead /\
  threads g3 !! t =
    Some (if bool_decide (is_Some (conn_link (g_env g) c))
          then WFor commands else WExited) /\
  g_env g3 =
    push (map (EvQuery c) pre.*2
          ++ [EvQuery c cmd; EvPrint ("Error reading data: " ++ msg); EvSleep 1000])
         (S (length pre)) 1 (g_env g) /\
  pending g3 = (pending g ++ published (data_vars g) pre vs)%list /\
  data_vars g3 = data_vars g.
Proof.
  intros Hsplit Ht Hrun Hc Hans Hq Hsl. cbv zeta.
  rewrite Hsplit in Ht.
  assert (t < length (threads g)) as Hlt by (by eapply lookup_lt_Some).
  rewrite (worker_pass_fails W t c pre param cmd post vs msg g Ht Hrun Hc Hans Hq).
  match goal with |- context [worker_step W t ?x] => set (g1 := x) end.
  assert (threads g1 !! t = Some (WSleep 1000)) as Ht1
    by (by apply list_lookup_insert_eq).
  rewrite (worker_step_sleep W t g1 1000 Ht1).
  subst g1.
  cbn [threads is_running connection g_env data_vars data_thread ui pending
       destroyed push n_sleep].
  rewrite Nat.add_0_l, Hsl, list_insert_insert_eq.
  match goal with |- context [worker_step W t ?x] => set (g2 := x) end.
  assert (threads g2 !! t = Some WLoopHead) as Ht2
    by (by apply list_lookup_insert_eq).
  rewrite (worker_step_loop_head W t g2 Ht2).
  assert (loop_condition g2 = bool_decide (is_Some (conn_link (g_env g) c))) as ->.
  { unfold loop_condition, g2. cbn [is_running connection g_env].
    by rewrite Hrun, Hc. }
  split; [exact Ht1 |]. split; [exact Ht2 |].
  cbn [threads g_env pending data_vars with_threads].
  split.
  { apply list_lookup_insert_eq. unfold g2. cbn [threads].
    by rewrite length_insert. }
  subst g2. cbn [g_env pending data_vars].
  split; [| done].
  unfold push. cbn [opened n_query n_sleep trace].
  f_equal. rewrite <- !app_assoc. reflexivity.
Qed.

Lemma terminal_cycle_raise W id s pre cmd line nd post vs e :
  terminal_readings = (pre ++ (cmd, line, nd) :: post)%list ->
  answers W (n_query s) (map (fun r => r.1.1) pre) vs ->
  on_query W (length pre + n_query s) cmd = Raise e ->
  terminal_cycle W id s =
    (Raised e,
     push ([EvClear; EvPrint "=== OBD-II LIVE DATA ==="; EvPrint "-------------------------"]
           ++ reading_events id pre vs ++ [EvQuery id cmd])
          (S (length pre)) 0 s).
Proof.
  intros Hsplit Hans Hq. rewrite terminal_cycle_read_all, Hsplit.
  unfold clear_screen, print.
  rewrite !(bind_ok _ _ _ _ _ (emit_ok _ _)), !push_push.
  rewrite (read_all_raise W id pre cmd line nd post vs e); [| exact Hans | exact Hq].
  rewrite push_push. f_equal. unfold push. f_equal; first [lia | reflexivity].
Qed.

Lemma terminal_run_next_pass W fuel id s s1 :
  terminal_cycle W id s = (Ok tt, s1) ->
  terminal_run W (S fuel) id s = terminal_run W fuel id s1.
Proof.
  intros H. unfold terminal_run, try_finally, try_except.
  change (terminal_loop W (S fuel) id)
    with (terminal_cycle W id;; terminal_loop W fuel id).
  by rewrite (bind_ok _ _ _ _ _ H).
Qed.

Lemma terminal_query_failure W fuel id s pre cmd line nd post vs msg :
  terminal_readings = (pre ++ (cmd, line, nd) :: post)%list ->
  answers W (n_query s) (map (fun r => r.1.1) pre) vs ->
  on_query W (length pre + n_query s) cmd = Raise (Exception msg) ->
  terminal_run W (S fuel) id s =
    (Ok tt,
     push [EvPrint "Connection closed."] 0 0
       (closed id
          (push ([EvClear; EvPrint "=== OBD-II LIVE DATA ===";
                  EvPrint "-------------------------"]
                 ++ reading_events id pre vs
                 ++ [EvQuery id cmd; EvPrint (nl ++ "Error: " ++ msg)])
                (S (length pre)) 0 s))).
Proof.
  intros Hsplit Hans Hq.
  rewrite (terminal_run_raised W (S fuel) id s (Exception msg)
             (push ([EvClear; EvPrint "=== OBD-II LIVE DATA ===";
                     EvPrint "-------------------------"]
                    ++ reading_events id pre vs ++ [EvQuery id cmd])
                   (S (length pre)) 0 s)).
  - rewrite push_push. cbn [handler_text]. do 3 f_equal.
    unfold push. f_equal. by rewrite <- !app_assoc.
  - change (terminal_loop W (S fuel) id)
      with (terminal_cycle W id;; terminal_loop W fuel id).
    apply bind_raised.
    by apply (terminal_cycle_raise W id s pre cmd line nd post vs).
Qed.

(** C2 (amended): an exception raised by one query ends the pass it occurs
    in.  In the dashboard the polling thread issues no further query of that
    pass and publishes nothing for the failing parameter: it prints the
    error, sleeps one second and, if still connected, starts a new pass at
    the first parameter.  In the terminal the pass stops at the failing
    query, the error is printed, the connection is closed and the loop is
    over; a pass that completes is followed by the next one. *)
Theorem query_failure_ends_pass W :
  (forall t c g pre param cmd post vs msg,
     commands = (pre ++ (param, cmd) :: post)%list ->
     threads g !! t = Some (WFor commands) ->
     is_running g = true ->
     connection g = Some c ->
     answers W (n_query (g_env g)) pre.*2 vs ->
     on_query W (length pre + n_query (g_env g)) cmd = Raise (Exception msg) ->
     on_sleep W (n_sleep (g_env g)) = false ->
     let g1 := Nat.iter (S (length pre)) (worker_step W t) g in
     let g2 := worker_step W t g1 in
     let g3 := worker_step W t g2 in
     threads g1 !! t = Some (WSleep 1000) /\
     threads g2 !! t = Some WLoopHead /\
     threads g3 !! t =
       Some (if bool_decide (is_Some (conn_link (g_env g) c))
             then WFor commands else WExited) /\
     g_env g3 =
       push (map (EvQuery c) pre.*2
             ++ [EvQuery c cmd; EvPrint ("Error reading data: " ++ msg); EvSleep 1000])
            (S (length pre)) 1 (g_env g) /\
     pending g3 = (pending g ++ published (data_vars g) pre vs)%list /\
     data_vars g3 = data_vars g) /\
  (forall fuel id s pre cmd line nd post vs msg,
     terminal_readings = (pre ++ (cmd, line, nd) :: post)%list ->
     answers W (n_query s) (map (fun r => r.1.1) pre) vs ->
     on_query W (length pre + n_query s) cmd = Raise (Exception msg) ->
     terminal_run W (S fuel) id s =
       (Ok tt,
        push [EvPrint "Connection closed."] 0 0
          (closed id
             (push ([EvClear; EvPrint "=== OBD-II LIVE DATA ===";
                     EvPrint "-------------------------"]
                    ++ reading_events id pre vs
                    ++ [EvQuery id cmd; EvPrint (nl ++ "Error: " ++ msg)])
                   (S (length pre)) 0 s)))) /\
  (forall fuel id s s1,
     terminal_cycle W id s = (Ok tt, s1) ->
     terminal_run W (S fuel) id s = terminal_run W fuel id s1).
Proof.
  split; [| split].
  - intros. by apply (dashboard_query_failure W t c g pre param cmd post vs msg).
  - intros. by apply (terminal_query_failure W fuel id s pre cmd line nd post vs msg).
  - intros. by apply terminal_run_next_pass.
Qed.

(** The speed query fails: the dashboard's thread is back at the start of a
    pass after two queries, and the terminal loop has returned after two. *)
Lemma query_failure_ends_pass_witness :
  (let g1 := Nat.iter 2 (worker_step W_speed_fails 0) g_polling in
   let g3 := worker_step W_speed_fails 0 (worker_step W_speed_fails 0 g1) in
   threads g3 !! 0 = Some (WFor commands) /\
   pending g3 = [("rpm", "812")]) /\
  (exists s,
     terminal_run W_speed_fails 3 0 env0 = (Ok tt, s) /\ n_query s = 2).
Proof.
  pose proof (query_failure_ends_pass W_speed_fails) as (Hdash & Hterm & _).
  split.
  - destruct (Hdash 0 0 g_polling [("rpm", RPM)] "speed" SPEED
                [ ("coolant_temp", COOLANT_TEMP); ("throttle_pos", THROTTLE_POS);
                  ("engine_load", ENGINE_LOAD); ("intake_temp", INTAKE_TEMP);
                  ("fuel_level", FUEL_LEVEL); ("fuel_pressure", FUEL_PRESSURE) ]
                [Some 812.5%float] "timeout")
      as (_ & _ & Ht3 & _ & Hpending & _).
    + reflexivity.
    + vm_compute. reflexivity.
    + vm_compute. reflexivity.
    + vm_compute. reflexivity.
    + split; [reflexivity | exact I].
    + reflexivity.
    + reflexivity.
    + split.
      * etransitivity; [exact Ht3 |]. vm_compute. reflexivity.
      * etransitivity; [exact Hpending |]. vm_compute. reflexivity.
  - eexists. split.
    + apply (Hterm 2 0 env0
               [(RPM, rpm_line, "Engine RPM:      No data")]
               SPEED speed_line "Vehicle Speed:   No data"
               [ (COOLANT_TEMP, coolant_line, "Coolant Temp:    No data");
                 (THROTTLE_POS, throttle_line, "Throttle Pos:    No data");
                 (ENGINE_LOAD, load_line, "Engine Load:     No data");
                 (INTAKE_TEMP, iat_line, "Intake Air Temp: No data");
                 (FUEL_LEVEL, fuel_line, "Fuel Level:      No data") ]
               [Some 812.5%float] "timeout").
      * reflexivity.
      * split; [reflexivity | exact I].
      * reflexivity.
    + reflexivity.
Defined.

(** C2 as stated fails in both front ends.  When the speed query raises, the
    dashboard's polling thread asks for nothing else in that pass: after the
    error message and a one-second sleep its next query is RPM again, and the
    speed cell is never set to "N/A".  The terminal loop prints the error,
    closes the connection and returns without asking for the coolant
    temperature. *)
Lemma query_failure_aborts_pass :
  (let g := run W_speed_fails
              [Click []; Worker 0; Worker 0; Worker 0; Worker 0; Worker 0; Worker 0;
               Idle; Idle]
              dash_init in
   trace (g_env g) =
     [ EvOpen 0 (Some "/dev/ttyACM0");
       EvQuery 0 RPM;
       EvQuery 0 SPEED;
       EvPrint "Error reading data: timeout";
       EvSleep 1000;
       EvQuery 0 RPM ] /\
   data_vars g !! "rpm" = Some "812" /\
   data_vars g !! "speed" = Some "--" /\
   data_vars g !! "coolant_temp" = Some "--" /\
   pending g = []) /\
  (exists s,
     terminal_mode W_speed_fails 5 env0 = (Ok tt, s) /\
     trace s =
       [ EvPrint "Connecting to OBD-II port...";
         EvPrint "Trying /dev/ttyACM0...";
         EvOpen 0 (Some "/dev/ttyACM0");
         EvPrint "Connected via /dev/ttyACM0!";
         EvPrint "Connected to: /dev/ttyACM0";
         EvPrint "Protocol: ISO 15765-4";
         EvPrint (nl ++ "Starting data read... (Press Ctrl+C to exit)");
         EvSleep 2000;
         EvClear;
         EvPrint "=== OBD-II LIVE DATA ===";
         EvPrint "-------------------------";
         EvQuery 0 RPM; EvPrint "Engine RPM:      812 rpm";
         EvQuery 0 SPEED;
         EvPrint (nl ++ "Error: timeout");
         EvClose 0;
         EvPrint "Connection closed." ] /\
     queried (trace s) COOLANT_TEMP = false).
Proof.
  split.
  - cbv zeta.
    split; [vm_compute; reflexivity |].
    split; [vm_compute; reflexivity |].
    split; [vm_compute; reflexivity |].
    split; vm_compute; reflexivity.
  - eexists.
    split; [vm_compute; reflexivity |].
    split; vm_compute; reflexivity.
Qed.

(** ** What the polling thread can touch *)

Lemma valid_text_format param v : valid_text param (format_value param v).
Proof.
  destruct v as [m |]; [right; right; by exists m | right; by left].
Qed.

Lemma polled_refl g : polled g g.
Proof.
  split; try done.
  - exists []. by rewrite app_nil_r.
  - exists []. by rewrite app_nil_r.
Qed.

Lemma polled_trans g1 g2 g3 : polled g1 g2 -> polled g2 g3 -> polled g1 g3.
Proof.
  intros [] []. split; try congruence.
  - destruct polled_trace0 as (e1 & He1 & Hf1), polled_trace1 as (e2 & He2 & Hf2).
    exists (e1 ++ e2)%list. split; [by rewrite He2, He1, app_assoc |].
    by apply Forall_app.
  - destruct polled_pending0 as (c1 & Hc1 & Hf1), polled_pending1 as (c2 & Hc2 & Hf2).
    exists (c1 ++ c2)%list. split; [by rewrite Hc2, Hc1, app_assoc |].
    apply Forall_app. split; [done |]. by rewrite <- polled_data_vars0.
Qed.

Lemma polled_set_thread g t pc : polled g (set_thread t pc g).
Proof.
  split; try done.
  - unfold set_thread. simpl. by rewrite length_insert.
  - exists []. by rewrite app_nil_r.
  - exists []. by rewrite app_nil_r.
Qed.

Lemma polled_events g evs q sl :
  Forall worker_event evs ->
  polled g (with_env (push evs q sl (g_env g)) g).
Proof.
  intros H. split; try done.
  - by exists evs.
  - exists []. by rewrite app_nil_r.
Qed.

Lemma polled_call g param text :
  is_Some (data_vars g !! param) -> valid_text param text ->
  polled g (with_pending (pending g ++ [(param, text)]) g).
Proof.
  intros Hc Hv. split; try done.
  - exists []. by rewrite app_nil_r.
  - exists [(param, text)]. split; [done |]. by apply Forall_singleton.
Qed.

Lemma read_param_polled W t param cmd rest g :
  polled g (read_param W t param cmd rest g).
Proof.
  unfold read_param. destruct (is_running g); cbn [negb];
    [| apply polled_set_thread].
  destruct (connection g) as [c |] eqn:Hc; cbn [attr_of].
  - unfold mbind, M_bind, mret, M_ret, liftE, query.
    destruct (on_query W (n_query (g_env g)) cmd) as [v | [| msg]].
    + eapply polled_trans; [| apply polled_set_thread].
      eapply polled_trans;
        [apply (polled_events g [EvQuery c cmd] 1 0); by repeat constructor |].
      cbn [data_vars with_env].
      destruct (bool_decide (is_Some (data_vars g !! param))) eqn:Hin;
        [| apply polled_refl].
      apply bool_decide_eq_true_1 in Hin.
      apply (polled_call (with_env _ g)); [done | apply valid_text_format].
    + eapply polled_trans; [| apply polled_set_thread].
      apply (polled_events g [EvQuery c cmd] 1 0); by repeat constructor.
    + unfold read_error.
      eapply polled_trans; [| apply polled_set_thread].
      eapply polled_trans;
        [apply (polled_events g [EvQuery c cmd; EvPrint ("Error reading data: " ++ msg)] 1 0);
         by repeat constructor |].
      unfold print, emit, push, with_env. cbn. rewrite <- app_assoc.
      apply polled_refl.
  - unfold mbind, M_bind, raise, read_error.
    eapply polled_trans; [| apply polled_set_thread].
    apply (polled_events g [EvPrint _] 0 0); by repeat constructor.
Qed.

Lemma worker_step_polled W t g : polled g (worker_step W t g).
Proof.
  unfold worker_step.
  destruct (threads g !! t) as [[| [| [param cmd] rest] | ms |] |];
    try apply polled_refl; try apply polled_set_thread.
  - apply read_param_polled.
  - unfold liftE, sleep.
    destruct (on_sleep W (n_sleep (g_env g)));
      (eapply polled_trans; [| apply polled_set_thread]);
      apply (polled_events g [EvSleep ms] 0 1); by repeat constructor.
Qed.

Lemma wait_for_polled W t sched g : polled g (wait_for W t sched g).
Proof.
  revert g. induction sched as [| u sched IH]; intros g; [apply polled_refl |].
  simpl. destruct (thread_alive g t); [| apply polled_refl].
  eapply polled_trans; [apply worker_step_polled | apply IH].
Qed.

(** ** The cells of the dashboard *)

Lemma cells_ok_init : cells_ok dash_init.
Proof.
  split.
  - intros p. split.
    + intros [v Hv]. unfold dash_init, create_data_displays in Hv.
      cbn [data_vars parameters foldl] in Hv.
      repeat (apply lookup_insert_Some in Hv as [[<- _] | [_ Hv]];
              [set_solver |]).
      done.
    + intros Hp.
      repeat (apply elem_of_cons in Hp as [-> | Hp]; [vm_compute; eauto |]).
      by apply elem_of_nil in Hp.
  - intros p v Hv. left. unfold dash_init, create_data_displays in Hv.
    cbn [data_vars parameters foldl] in Hv.
    repeat (apply lookup_insert_Some in Hv as [[_ <-] | [_ Hv]]; [done |]).
    done.
  - constructor.
Qed.

Lemma cells_ok_polled g g' : polled g g' -> cells_ok g -> cells_ok g'.
Proof.
  intros [] []. split.
  - by rewrite polled_data_vars0.
  - by rewrite polled_data_vars0.
  - destruct polled_pending0 as (calls & -> & Hcalls).
    rewrite polled_data_vars0. by apply Forall_app.
Qed.

Lemma cells_ok_run_callback g : cells_ok g -> cells_ok (run_callback g).
Proof.
  intros [Hdom Htext Hpend]. unfold run_callback.
  destruct (pending g) as [| [param value] rest] eqn:Hp;
    [split; [done | done | by rewrite Hp] |].
  apply Forall_cons in Hpend as [[Hin Hval] Hrest]. cbn [fst snd] in *.
  assert (forall p, is_Some (<[param := value]> (data_vars g) !! p)
                    <-> is_Some (data_vars g !! p)) as Hsame.
  { intros p. destruct (decide (param = p)) as [<- | Hne].
    - rewrite lookup_insert_eq. split; [done | eauto].
    - by rewrite lookup_insert_ne. }
  split; cbn [data_vars pending with_pending with_data_vars].
  - intros p. by rewrite Hsame.
  - intros p v Hv. apply lookup_insert_Some in Hv as [[<- <-] | [_ Hv]]; eauto.
  - eapply Forall_impl; [exact Hrest |].
    intros [p v] [Hp' Hv']. split; [by apply Hsame | done].
Qed.

Lemma drain_run_callback g :
  drain g = Nat.iter (length (pending g)) run_callback g.
Proof.
  remember (length (pending g)) as n eqn:Hn. revert g Hn.
  induction n as [| n IH]; intros g Hn.
  - destruct g as [e co ru dt dv w ts pe de]. simpl in *.
    destruct pe; [done | discriminate].
  - rewrite Nat.iter_succ_r.
    destruct (pending g) as [| [param value] rest] eqn:Hp; [discriminate |].
    rewrite <- IH.
    + unfold drain, run_callback. rewrite Hp. reflexivity.
    + unfold run_callback. rewrite Hp. simpl in *. lia.
Qed.

Lemma cells_ok_drain g : cells_ok g -> cells_ok (drain g).
Proof.
  rewrite drain_run_callback. generalize (length (pending g)).
  intros n. induction n as [| n IH]; intros H; [done |].
  simpl. apply cells_ok_run_callback. by apply IH.
Qed.

Lemma cells_ok_reset g :
  cells_ok g -> cells_ok (with_data_vars ((fun _ => "--") <$> data_vars g) g).
Proof.
  intros [Hdom Htext Hpend].
  assert (forall p, is_Some (((fun _ => "--") <$> data_vars g) !! p)
                    <-> is_Some (data_vars g !! p)) as Hsame.
  { intros p. rewrite lookup_fmap. by rewrite fmap_is_Some. }
  split; cbn [data_vars pending with_data_vars].
  - intros p. by rewrite Hsame.
  - intros p v Hv. rewrite lookup_fmap in Hv.
    destruct (data_vars g !! p); [| done]. inversion Hv. by left.
  - eapply Forall_impl; [exact Hpend |].
    intros [p v] [Hp' Hv']. split; [by apply Hsame | done].
Qed.

Lemma preserves_ret {A} P (a : A) : preserves P (mret a).
Proof. by intros g H. Qed.

Lemma preserves_raise {A} P e : preserves P (@raise dash A e).
Proof. by intros g H. Qed.

Lemma preserves_get {A} P (f : dash -> A) : preserves P (get f).
Proof. by intros g H. Qed.

Lemma preserves_attr_of {A} P (o : option A) attr : preserves P (attr_of o attr).
Proof. destruct o; [apply preserves_ret | apply preserves_raise]. Qed.

Lemma preserves_modify P f : (forall g, P g -> P (f g)) -> preserves P (modify f).
Proof. intros Hf g H. by apply Hf. Qed.

Lemma preserves_bind {A B} P (m : M dash A) (k : A -> M dash B) :
  preserves P m -> (forall a, preserves P (k a)) -> preserves P (m ≫= k).
Proof.
  intros Hm Hk g H. specialize (Hm g H). unfold mbind, M_bind.
  destruct (m g) as [[a | e |] g1]; [by apply Hk | done | done].
Qed.

Lemma preserves_try_except {A} P (m : M dash A) h :
  preserves P m -> (forall e, preserves P (h e)) -> preserves P (try_except m h).
Proof.
  intros Hm Hh g H. specialize (Hm g H). unfold try_except.
  destruct (m g) as [[a | e |] g1]; [done | by apply Hh | done].
Qed.

Lemma preserves_when P b m : preserves P m -> preserves P (when b m).
Proof. destruct b; [done | intros _; apply preserves_ret]. Qed.

Lemma preserves_liftE {A} P (m : M env A) :
  (forall g e, P g -> P (with_env e g)) -> preserves P (liftE m).
Proof.
  intros Hf g H. unfold liftE. destruct (m (g_env g)) as [r e]. by apply Hf.
Qed.

Create HintDb pres discriminated.
#[local] Hint Resolve preserves_ret preserves_raise preserves_get preserves_attr_of
  preserves_when : pres.

Ltac pres_step :=
  lazymatch goal with
  | |- preserves _ (_ ≫= _) => apply preserves_bind; [| intros ?]
  | |- preserves _ (try_except _ _) => apply preserves_try_except; [| intros ?]
  | |- preserves _ (when _ _) => apply preserves_when
  | |- preserves _ (liftE _) => apply preserves_liftE; intros ? ? ?
  | |- preserves _ (modify _) => apply preserves_modify; intros ? ?
  | |- preserves _ (if ?b then _ else _) => destruct b
  | |- preserves _ (match ?x with _ => _ end) => destruct x
  | |- preserves _ _ => solve [auto with pres]
  end.

(** A state that differs in other fields than the cells and the scheduled
    calls. *)
Lemma cells_ok_same g g' :
  data_vars g' = data_vars g -> pending g' = pending g -> cells_ok g -> cells_ok g'.
Proof. intros Hd Hp []. split; by rewrite ?Hd, ?Hp. Qed.

Lemma join_preserves W t ms sched : preserves cells_ok (join W t ms sched).
Proof.
  unfold join. repeat pres_step.
  - by apply (cells_ok_same g).
  - eapply cells_ok_polled; [apply wait_for_polled | done].
Qed.

Lemma connect_preserves W : preserves cells_ok (connect W).
Proof.
  unfold connect, connect_attempts, set_status, set_btn_state, set_btn,
    start_thread, showerror.
  repeat pres_step;
    try (by apply cells_ok_drain);
    try (eapply cells_ok_same; [| | eassumption]; reflexivity).
Qed.

Lemma disconnect_preserves W sched : preserves cells_ok (disconnect W sched).
Proof.
  unfold disconnect, set_status, set_btn.
  repeat pres_step;
    try apply join_preserves;
    try (by apply cells_ok_reset);
    try (eapply cells_ok_same; [| | eassumption]; reflexivity).
Qed.

Lemma toggle_connection_preserves W sched :
  preserves cells_ok (toggle_connection W sched).
Proof.
  unfold toggle_connection.
  repeat pres_step;
    try apply connect_preserves; try apply disconnect_preserves;
    try (eapply cells_ok_same; [| | eassumption]; reflexivity).
Qed.

Lemma on_closing_preserves : preserves cells_ok on_closing.
Proof.
  unfold on_closing.
  repeat pres_step;
    try (eapply cells_ok_same; [| | eassumption]; reflexivity).
Qed.

Lemma cells_ok_step W a g : cells_ok g -> cells_ok (step W a g).
Proof.
  intros H. unfold step. destruct (destroyed g); [done |].
  destruct a as [sched | | | t].
  - destruct (btn_st (ui g)); [| done].
    by apply toggle_connection_preserves.
  - by apply on_closing_preserves.
  - by apply cells_ok_run_callback.
  - eapply cells_ok_polled; [apply worker_step_polled | done].
Qed.

Lemma cells_ok_run W acts g : cells_ok g -> cells_ok (run W acts g).
Proof.
  revert g. induction acts as [| a acts IH]; intros g H; [done |].
  simpl. apply IH. by apply cells_ok_step.
Qed.

(** ** [disconnect] and [on_closing] *)

Lemma disconnect_run W sched g :
  disconnect W sched g =
    (Ok tt,
     let g3 := with_ui (Widgets "Status: Disconnected" "red" "Connect" "#4CAF50" Normal)
                 (release (joined W sched g)) in
     with_data_vars ((fun _ => "--") <$> data_vars g3) g3).
Proof.
  unfold disconnect, joined, stopping, release, join, set_status, set_btn.
  unfold mbind, M_bind, mret, M_ret, modify, get, liftE, push.
  cbn [with_is_running data_thread Nat.add].
  destruct (data_thread g) as [t |]; cbn [bool_decide decide_rel attr_of].
  - rewrite bool_decide_eq_true_2 by eauto.
    cbn [attr_of mret M_ret emit g_env with_is_running].
    match goal with |- context [wait_for W t sched ?x] => set (g2 := wait_for W t sched x) end.
    cbn [connection]. destruct (connection g2) as [c |] eqn:Hc.
    + rewrite bool_decide_eq_true_2 by eauto. reflexivity.
    + rewrite bool_decide_eq_false_2 by (intros [? ?]; done). reflexivity.
  - rewrite bool_decide_eq_false_2 by (intros [? ?]; done).
    cbn [connection with_is_running]. destruct (connection g) as [c |] eqn:Hc.
    + rewrite bool_decide_eq_true_2 by eauto. reflexivity.
    + rewrite bool_decide_eq_false_2 by (intros [? ?]; done). reflexivity.
Qed.

Lemma joined_polled W sched g : polled (stopping g) (joined W sched g).
Proof.
  unfold joined. destruct (data_thread g); [apply wait_for_polled | apply polled_refl].
Qed.

Lemma release_connection g : connection (release g) = None.
Proof. unfold release. by destruct (connection g) eqn:H. Qed.

Lemma release_cells g :
  data_vars (release g) = data_vars g /\ pending (release g) = pending g.
Proof. unfold release. by destruct (connection g). Qed.

Lemma stopping_cells g :
  data_vars (stopping g) = data_vars g /\ pending (stopping g) = pending g.
Proof. unfold stopping. by destruct (data_thread g). Qed.

Lemma disconnect_connection W sched g :
  connection (disconnect W sched g).2 = None.
Proof. rewrite disconnect_run. cbn. apply release_connection. Qed.

Lemma disconnect_data_vars W sched g :
  data_vars (disconnect W sched g).2 = (fun _ => "--") <$> data_vars g.
Proof.
  rewrite disconnect_run. cbn. f_equal.
  rewrite (proj1 (release_cells _)), (polled_data_vars _ _ (joined_polled W sched g)).
  apply stopping_cells.
Qed.

Lemma reset_all_reset (d : gmap string string) :
  (forall p v, d !! p = Some v -> v = "--") -> (fun _ => "--") <$> d = d.
Proof.
  intros H. apply map_eq. intros p. rewrite lookup_fmap.
  destruct (d !! p) as [v |] eqn:Hp; [| done]. simpl. f_equal. symmetry. eauto.
Qed.

Lemma cells_ok_start W acts s : cells_ok (run W acts (with_env s dash_init)).
Proof.
  apply cells_ok_run. by apply (cells_ok_same dash_init), cells_ok_init.
Qed.

(** C8: in every state the dashboard can reach from its start, by any
    sequence of clicks, polling steps, scheduled calls and the closing of the
    window, each cell shows "--", "N/A", or the text its parameter's
    formatter gives for some magnitude. *)
Theorem display_state_texts W acts s p v :
  data_vars (run W acts (with_env s dash_init)) !! p = Some v ->
  v = "--" \/ v = "N/A" \/ exists magnitude, v = format_value p (Some magnitude).
Proof.
  intros Hv. exact (cells_text _ (cells_ok_start W acts s) p v Hv).
Qed.

(** After a click on Connect, two polling steps and one scheduled call the
    RPM cell shows a formatted reading. *)
Lemma display_state_texts_witness :
  data_vars (run W_car [Click []; Worker 0; Worker 0; Idle] (with_env env0 dash_init))
    !! "rpm" = Some "812" /\
  ("812" = "--" \/ "812" = "N/A" \/
   exists magnitude, "812" = format_value "rpm" (Some magnitude)).
Proof.
  assert (data_vars (run W_car [Click []; Worker 0; Worker 0; Idle]
                         (with_env env0 dash_init)) !! "rpm"
          = Some "812") as H by (vm_compute; reflexivity).
  split; [exact H |].
  exact (display_state_texts W_car [Click []; Worker 0; Worker 0; Idle] env0
           "rpm" "812" H).
Defined.

(** C6: when [disconnect] returns, in whatever reachable state it was called
    and whatever the polling threads did while it waited, each of the eight
    cells shows "--" and there is no other cell. *)
Theorem disconnect_resets_cells W acts s sched :
  let g := run W acts (with_env s dash_init) in
  (disconnect W sched g).1 = Ok tt /\
  (forall p, p ∈ commands.*1 -> data_vars (disconnect W sched g).2 !! p = Some "--") /\
  (forall p v, data_vars (disconnect W sched g).2 !! p = Some v ->
               p ∈ commands.*1 /\ v = "--").
Proof.
  intros g.
  pose proof (cells_ok_start W acts s) as Hok. fold g in Hok.
  split; [by rewrite disconnect_run |].
  rewrite disconnect_data_vars. split.
  - intros p Hp. rewrite lookup_fmap.
    apply (cells_dom _ Hok) in Hp as [v Hv]. by rewrite Hv.
  - intros p v Hv. rewrite lookup_fmap in Hv.
    destruct (data_vars g !! p) as [w |] eqn:Hw; [| done].
    inversion Hv. split; [| done]. apply (cells_dom _ Hok). eauto.
Qed.

(** The RPM cell shows a reading before [disconnect] and "--" after it. *)
Lemma disconnect_resets_cells_witness :
  let g := run W_car [Click []; Worker 0; Worker 0; Idle] (with_env env0 dash_init) in
  data_vars g !! "rpm" = Some "812" /\
  data_vars (disconnect W_car [0; 0] g).2 !! "rpm" = Some "--".
Proof.
  split; [vm_compute; reflexivity |].
  apply (disconnect_resets_cells W_car [Click []; Worker 0; Worker 0; Idle] env0 [0; 0]).
  vm_compute. set_solver.
Defined.

(** C7: two calls of [disconnect] in a row both return without an
    exception and both leave [self.connection] at [None]; the second call
    closes nothing and changes nothing but by waiting for the thread once
    more. *)
Theorem disconnect_idempotent W sched1 sched2 g :
  exists g1 g2,
    disconnect W sched1 g = (Ok tt, g1) /\ connection g1 = None /\
    disconnect W sched2 g1 = (Ok tt, g2) /\ connection g2 = None /\
    g2 = joined W sched2 g1.
Proof.
  exists (disconnect W sched1 g).2, (disconnect W sched2 (disconnect W sched1 g).2).2.
  split; [by rewrite disconnect_run |].
  split; [apply disconnect_connection |].
  split; [by rewrite (disconnect_run W sched2) |].
  split; [apply disconnect_connection |].
  set (g1 := (disconnect W sched1 g).2).
  assert (connection g1 = None) as Hc by apply disconnect_connection.
  assert (ui g1 = Widgets "Status: Disconnected" "red" "Connect" "#4CAF50" Normal)
    as Hui by (unfold g1; by rewrite disconnect_run).
  assert (forall p v, data_vars g1 !! p = Some v -> v = "--") as Hd.
  { intros p v. unfold g1. rewrite disconnect_data_vars, lookup_fmap.
    destruct (data_vars g !! p); [| done]. by inversion 1. }
  pose proof (joined_polled W sched2 g1) as Hj.
  assert (connection (stopping g1) = connection g1
          /\ ui (stopping g1) = ui g1) as [Hsc Hsu].
  { unfold stopping. by destruct (data_thread g1). }
  rewrite (disconnect_run W sched2 g1). cbn [snd]. cbv zeta.
  unfold release.
  rewrite (polled_connection _ _ Hj), Hsc, Hc.
  cbn [data_vars with_ui].
  rewrite reset_all_reset.
  - destruct (joined W sched2 g1) as [e co ru dt dv w ts pe de] eqn:Hjoined.
    unfold with_data_vars, with_ui. cbn.
    f_equal. rewrite <- Hui, <- Hsu, <- (polled_ui _ _ Hj). reflexivity.
  - intros p v. rewrite (polled_data_vars _ _ Hj), (proj1 (stopping_cells g1)).
    apply Hd.
Qed.

(** [disconnect] waits for the polling thread before it closes the
    connection: between the join and the close only polling threads act. *)
Lemma disconnect_joins_before_close W sched g t c :
  data_thread g = Some t ->
  connection g = Some c ->
  exists evs,
    trace (g_env (disconnect W sched g).2)
      = (trace (g_env g) ++ EvJoin t 2000 :: evs ++ [EvClose c])%list /\
    Forall worker_event evs.
Proof.
  intros Ht Hc. rewrite disconnect_run. cbn [snd]. cbv zeta.
  pose proof (joined_polled W sched g) as Hj.
  destruct (polled_trace _ _ Hj) as (evs & Hevs & Hw).
  exists evs. split; [| exact Hw].
  cbn [g_env with_data_vars with_ui]. unfold release.
  rewrite (polled_connection _ _ Hj).
  unfold stopping in *. rewrite Ht in *. cbn [connection with_env with_is_running] in *.
  rewrite Hc. cbn [g_env with_connection with_env closed close snd trace].
  rewrite Hevs. cbn [g_env with_env push trace].
  by rewrite <- !app_assoc.
Qed.

(** C3: the window is closed while the polling thread is in the middle of a
    pass.  [on_closing] clears the run flag and closes the connection at
    once: no join comes before the close, and the thread has not finished. *)
Theorem on_closing_closes_under_polling_thread :
  let g := run W_car [Click []; Worker 0; Worker 0] dash_init in
  let g' := step W_car CloseWindow g in
  connection g = Some 0 /\
  data_thread g = Some 0 /\
  threads g !! 0 =
    Some (WFor [ ("speed", SPEED); ("coolant_temp", COOLANT_TEMP);
                 ("throttle_pos", THROTTLE_POS); ("engine_load", ENGINE_LOAD);
                 ("intake_temp", INTAKE_TEMP); ("fuel_level", FUEL_LEVEL);
                 ("fuel_pressure", FUEL_PRESSURE) ]) /\
  trace (g_env g') = (trace (g_env g) ++ [EvClose 0; EvDestroy])%list /\
  threads g' = threads g /\
  thread_alive g' 0 = true.
Proof.
  cbv zeta.
  split; [vm_compute; reflexivity |].
  split; [vm_compute; reflexivity |].
  split; [vm_compute; reflexivity |].
  split; [vm_compute; reflexivity |].
  split; vm_compute; reflexivity.
Qed.

(** ** Leaving [terminal_mode] *)

(** Once the polling loop has been entered, leaving it closes the
    connection. *)
Lemma terminal_run_closes W fuel id s r s' :
  terminal_run W fuel id s = (r, s') ->
  r = Running \/
  (r = Ok tt /\
   (exists evs, trace s' = (evs ++ [EvClose id; EvPrint "Connection closed."])%list) /\
   conn_link s' id = None).
Proof.
  intros H.
  destruct (terminal_loop W fuel id s) as [[[] | e |] s1] eqn:Hloop.
  - by apply terminal_loop_not_ok in Hloop.
  - right. rewrite (terminal_run_raised W fuel id s e s1 Hloop) in H.
    inversion H; subst. split; [done |]. split.
    + eexists. unfold push, closed, close. cbn. rewrite <- app_assoc. reflexivity.
    + unfold conn_link, push, closed, close. cbn.
      rewrite list_lookup_alter, decide_True by done.
      by destruct (opened s1 !! id).
  - left. rewrite (terminal_run_running W fuel id s s1 Hloop) in H. by inversion H.
Qed.

(** C4: with no adapter, [terminal_mode] builds two connection objects,
    reports the failure and returns; neither object was closed. *)
Theorem terminal_mode_returns_without_close :
  exists s,
    terminal_mode W_unplugged 5 env0 = (Ok tt, s) /\
    opened s = [ Conn (Some "/dev/ttyACM0") None false; Conn None None false ] /\
    trace s =
      [ EvPrint "Connecting to OBD-II port...";
        EvPrint "Trying /dev/ttyACM0...";
        EvOpen 0 (Some "/dev/ttyACM0");
        EvPrint "Trying auto-detection...";
        EvOpen 1 None;
        EvPrint "Failed to connect to vehicle!";
        EvPrint "Check:";
        EvPrint "- OBD-II adapter is plugged in";
        EvPrint "- Vehicle ignition is ON";
        EvPrint "- Adapter drivers are installed" ].
Proof.
  eexists.
  split; [vm_compute; reflexivity |].
  split; vm_compute; reflexivity.
Qed.

(** ** Mode selection *)

Lemma mode_of_run_terminal W fuel s : mode_of (run_terminal W fuel s) = TerminalMode.
Proof. unfold run_terminal. by destruct (terminal_mode W fuel s). Qed.

Lemma mode_of_gui_mode W GUI_AVAILABLE sched s :
  mode_of (gui_mode W GUI_AVAILABLE sched s) = DashboardMode.
Proof. unfold gui_mode. by destruct GUI_AVAILABLE. Qed.

Lemma truthy_display_set environ :
  truthy (environ !! "DISPLAY") = true <-> display_set environ.
Proof.
  unfold truthy, display_set. destruct (environ !! "DISPLAY") as [v |].
  - destruct (String.eqb_spec v "") as [-> | Hne]; simpl.
    + split; [done | intros (w & Hw & Hne); by inversion Hw].
    + split; [intros _; by exists v | done].
  - split; [done | intros (w & Hw & _); done].
Qed.

(** C9 (amended): [--terminal] always selects the terminal; otherwise
    [--gui] selects the dashboard, which reports an error and gives up when
    the toolkit is missing; with neither flag the dashboard is selected
    exactly when the display variable is set to a non-empty value and the
    toolkit is available, and the terminal otherwise; in particular with no
    flag, no display variable and the toolkit available, the terminal. *)
Theorem mode_selection W GUI_AVAILABLE environ fuel sched a :
  let chosen := mode_of (main W GUI_AVAILABLE environ fuel sched a) in
  (terminal a = true -> chosen = TerminalMode) /\
  (terminal a = false -> gui a = true ->
     chosen = DashboardMode /\
     (GUI_AVAILABLE = false ->
        main W GUI_AVAILABLE environ fuel sched a =
          GuiUnavailable
            (push [ EvPrint "GUI libraries not available. Running in terminal mode only.";
                    EvPrint "Error: GUI libraries not available.";
                    EvPrint "Install tkinter or run in terminal mode with: --terminal" ]
                  0 0 env0))) /\
  (terminal a = false -> gui a = false ->
     (chosen = DashboardMode <-> display_set environ /\ GUI_AVAILABLE = true) /\
     (chosen = TerminalMode <-> ~ (display_set environ /\ GUI_AVAILABLE = true))) /\
  (terminal a = false -> gui a = false -> environ !! "DISPLAY" = None ->
     chosen = TerminalMode).
Proof.
  intros chosen. subst chosen. unfold main.
  destruct (terminal a), (gui a).
  - rewrite mode_of_run_terminal. repeat split; done.
  - rewrite mode_of_run_terminal. repeat split; done.
  - rewrite mode_of_gui_mode.
    split; [done |]. split; [| split; done].
    intros _ _. split; [done |]. intros ->. reflexivity.
  - split; [done |]. split; [done |].
    pose proof (truthy_display_set environ) as Hd.
    destruct GUI_AVAILABLE; cbn [andb].
    + destruct (truthy (environ !! "DISPLAY")) eqn:Ht.
      * rewrite mode_of_gui_mode. split.
        -- intros _ _. split; [split; [intros _; split; [by apply Hd | done] | done] |].
           split; [done |]. intros Hn. exfalso. apply Hn. split; [by apply Hd | done].
        -- intros _ _ Hnone. rewrite Hnone in Ht. discriminate.
      * rewrite mode_of_run_terminal. split; [| done].
        intros _ _. split.
        -- split; [done |]. intros [Hs _]. apply Hd in Hs. discriminate.
        -- split; [| done]. intros _ [Hs _]. apply Hd in Hs. discriminate.
    + rewrite mode_of_run_terminal. split; [| done].
      intros _ _. split.
      * split; [done | intros [_ ?]; done].
      * split; [| done]. intros _ [_ ?]. done.
Qed.

(** One row of the table each. *)
Lemma mode_selection_witness :
  mode_of (main W_car true {["DISPLAY" := ":0"]} 1 [] (Args false false))
    = DashboardMode /\
  mode_of (main W_car true ∅ 1 [] (Args false false)) = TerminalMode /\
  mode_of (main W_car false ∅ 1 [] (Args false true)) = DashboardMode /\
  mode_of (main W_car true ∅ 1 [] (Args true true)) = TerminalMode.
Proof.
  split; [| split; [| split]].
  - destruct (mode_selection W_car true {["DISPLAY" := ":0"]} 1 [] (Args false false))
      as (_ & _ & H & _).
    apply (H eq_refl eq_refl).
    split; [| reflexivity]. exists ":0". split; [reflexivity | discriminate].
  - destruct (mode_selection W_car true ∅ 1 [] (Args false false)) as (_ & _ & _ & H).
    exact (H eq_refl eq_refl eq_refl).
  - destruct (mode_selection W_car false ∅ 1 [] (Args false true)) as (_ & H & _).
    exact (proj1 (H eq_refl eq_refl)).
  - destruct (mode_selection W_car true ∅ 1 [] (Args true true)) as (H & _).
    exact (H eq_refl).
Defined.

(** C9 as stated fails: with no flag, the toolkit available and the display
    variable present but empty, [main] starts the terminal. *)
Lemma empty_display_selects_terminal :
  let environ : gmap string string := {["DISPLAY" := ""]} in
  let chosen := mode_of (main W_car true environ 1 [] (Args false false)) in
  is_Some (environ !! "DISPLAY") /\
  chosen = TerminalMode /\
  ~ (chosen = DashboardMode <-> is_Some (environ !! "DISPLAY") /\ true = true).
Proof.
  cbv zeta.
  assert (mode_of (main W_car true {["DISPLAY" := ""]} 1 [] (Args false false))
          = TerminalMode) as H by (vm_compute; reflexivity).
  split; [vm_compute; eauto |]. split; [exact H |].
  rewrite H. intros [_ Hback].
  assert (TerminalMode = DashboardMode) as Hbad; [| discriminate].
  apply Hback. split; [vm_compute; eauto | reflexivity].
Qed.

(** ** Further runs of the dashboard *)

(** A call scheduled before [disconnect] is still pending when it returns:
    the cells all show "--" then, and the event loop sets the RPM cell
    afterwards. *)
Example stale_call_after_disconnect :
  let g := run W_car [Click []; Worker 0; Worker 0; Click []] dash_init in
  connection g = None /\
  data_vars g !! "rpm" = Some "--" /\
  pending g = [("rpm", "812")] /\
  data_vars (step W_car Idle g) !! "rpm" = Some "812".
Proof.
  cbv zeta.
  split; [vm_compute; reflexivity |].
  split; [vm_compute; reflexivity |].
  split; vm_compute; reflexivity.
Qed.

(** The join of [disconnect] is bounded: when the polling thread makes no
    step before the timeout, the connection is closed with the thread still
    in its pass. *)
Example disconnect_after_timeout :
  let g := run W_car [Click []; Worker 0; Worker 0; Click []] dash_init in
  trace (g_env g) =
    [ EvOpen 0 (Some "/dev/ttyACM0"); EvQuery 0 RPM; EvJoin 0 2000; EvClose 0 ] /\
  thread_alive g 0 = true.
Proof.
  cbv zeta. split; vm_compute; reflexivity.
Qed.

(** Two failed connection attempts from the dashboard, then the window is
    closed: the object left in [self.connection] by the first click is
    replaced by the second click and never closed. *)
Example dashboard_retry_leaves_connection_open :
  let g := run W_unplugged [Click []; Click []; CloseWindow] dash_init in
  destroyed g = true /\
  opened (g_env g) =
    [ Conn (Some "/dev/ttyACM0") None true; Conn None None false;
      Conn (Some "/dev/ttyACM0") None true; Conn None None true ].
Proof.
  cbv zeta. split; vm_compute; reflexivity.
Qed.

(** * Further properties *)

(** ** Leaving the terminal loop *)

(** A pass whose queries all return ends at its sleep: normally, or by the
    interrupt that arrives during it. *)
Lemma terminal_cycle_sleep W id s :
  (forall n c, exists v, on_query W n c = Return v) ->
  terminal_cycle W id s =
    (if on_sleep W (n_sleep s) then Raised KeyboardInterrupt else Ok tt,
     push (report_events W id (n_query s)) 7 1 s).
Proof.
  intros Hret. rewrite terminal_cycle_read_all.
  unfold clear_screen, print.
  rewrite !(bind_ok _ _ _ _ _ (emit_ok _ _)), !push_push.
  rewrite (read_all_ok W id terminal_readings
             (values_from W (n_query s) (map (fun r => r.1.1) terminal_readings)));
    [| apply answers_values_from, Hret].
  rewrite !push_push.
  rewrite !(bind_ok _ _ _ _ _ (emit_ok _ _)), !push_push.
  unfold sleep. cbn [push n_sleep Nat.add].
  destruct (on_sleep W (n_sleep s)); rewrite report_events_readings;
    f_equal; unfold push; cbn; f_equal; by rewrite <- ?app_assoc.
Qed.

Lemma terminal_loop_interrupted W id k : forall fuel s,
  (forall n c, exists v, on_query W n c = Return v) ->
  k < fuel ->
  (forall j, j < k -> on_sleep W (j + n_sleep s) = false) ->
  on_sleep W (k + n_sleep s) = true ->
  terminal_loop W fuel id s =
    (Raised KeyboardInterrupt,
     push (flat_map (fun i => report_events W id (7 * i + n_query s)) (seq 0 (S k)))
          (7 * S k) (S k) s).
Proof.
  induction k as [| k IH]; intros fuel s Hret Hfuel Hquiet Hint;
    (destruct fuel as [| fuel]; [lia |]);
    change (terminal_loop W (S fuel) id)
      with (terminal_cycle W id;; terminal_loop W fuel id);
    unfold mbind, M_bind; rewrite (terminal_cycle_sleep W id s Hret).
  - cbn [Nat.add] in Hint. rewrite Hint. reflexivity.
  - pose proof (Hquiet 0 ltac:(lia)) as H0. cbn [Nat.add] in H0. rewrite H0.
    rewrite (IH fuel); [| exact Hret | lia | |].
    + rewrite push_push, (flat_map_seq_S _ (S k)).
      f_equal. unfold push. cbn [n_query]. f_equal; [lia | lia |].
      f_equal. f_equal. apply flat_map_ext. intros i. f_equal. lia.
    + intros j Hj. cbn [push n_sleep].
      replace (j + (1 + n_sleep s)) with (S j + n_sleep s) by lia.
      apply Hquiet. lia.
    + cbn [push n_sleep].
      replace (k + (1 + n_sleep s)) with (S k + n_sleep s) by lia. exact Hint.
Qed.

(** X1: the polling loop of [terminal_mode] has no normal exit.  When an
    exception [e] ends it, and nothing more is raised while it is handled,
    the handler's message is printed, the connection is closed, "Connection
    closed." is printed last and the [try] statement completes normally; no
    query is made after the exception and no other connection object is
    touched. *)
Theorem terminal_loop_exit W fuel id s :
  (forall s', terminal_loop W fuel id s <> (Ok tt, s')) /\
  (forall e s1,
     terminal_loop W fuel id s = (Raised e, s1) ->
     exists s',
       terminal_run W fuel id s = (Ok tt, s') /\
       trace s' =
         (trace s1 ++ [EvPrint (handler_text e); EvClose id;
                       EvPrint "Connection closed."])%list /\
       n_query s' = n_query s1 /\ n_sleep s' = n_sleep s1 /\
       conn_link s' id = None /\
       (forall c, opened s' !! id = Some c -> c_closed c = true) /\
       (forall id', id' <> id -> opened s' !! id' = opened s1 !! id')).
Proof.
  split; [intros s'; apply terminal_loop_not_ok |].
  intros e s1 Hloop. eexists. split; [exact (terminal_run_raised W fuel id s e s1 Hloop) |].
  unfold push, closed, close. cbn [snd opened trace n_query n_sleep Nat.add].
  split; [by rewrite <- !app_assoc |].
  split; [done |]. split; [done |].
  unfold conn_link. cbn [opened].
  split; [rewrite list_lookup_alter, decide_True by done; by destruct (opened s1 !! id) |].
  split.
  - intros c Hc. rewrite list_lookup_alter, decide_True in Hc by done.
    destruct (opened s1 !! id); inversion Hc. reflexivity.
  - intros id' Hne. by rewrite list_lookup_alter, decide_False.
Qed.

(** Ctrl-C during the second pass of a car that answers. *)
Lemma terminal_loop_exit_witness :
  let s0 := (terminal_connect W_ctrl_c env0).2 in
  conn_link s0 0 <> None /\
  exists s', terminal_run W_ctrl_c 5 0 s0 = (Ok tt, s') /\ conn_link s' 0 = None.
Proof.
  cbv zeta. split; [vm_compute; discriminate |].
  destruct (terminal_loop_exit W_ctrl_c 5 0 (terminal_connect W_ctrl_c env0).2)
    as [_ H].
  assert (exists s1, terminal_loop W_ctrl_c 5 0 (terminal_connect W_ctrl_c env0).2
                     = (Raised KeyboardInterrupt, s1)) as [s1 Hloop]
    by (eexists; vm_compute; reflexivity).
  destruct (H _ _ Hloop) as (s' & Hrun & _ & _ & _ & Hc & _).
  exists s'. split; [exact Hrun | exact Hc].
Defined.

(** X2: Ctrl-C during the sleep of the pass number [k] (counting from 0),
    after [k] undisturbed passes whose queries all return: the terminal has
    printed [k + 1] full reports, then prints the exit message, closes the
    connection and returns. *)
Theorem terminal_interrupt_exits W fuel id s k :
  (forall n c, exists v, on_query W n c = Return v) ->
  k < fuel ->
  (forall j, j < k -> on_sleep W (j + n_sleep s) = false) ->
  on_sleep W (k + n_sleep s) = true ->
  terminal_run W fuel id s =
    (Ok tt,
     Env (alter (fun c => Conn (c_port c) None true) id (opened s))
         (7 * S k + n_query s) (S k + n_sleep s)
         (trace s
          ++ flat_map (fun i => report_events W id (7 * i + n_query s)) (seq 0 (S k))
          ++ [EvPrint (nl ++ nl ++ "Exiting..."); EvClose id;
              EvPrint "Connection closed."])).
Proof.
  intros Hret Hfuel Hquiet Hint.
  rewrite (terminal_run_raised W fuel id s KeyboardInterrupt _
             (terminal_loop_interrupted W id k fuel s Hret Hfuel Hquiet Hint)).
  f_equal. unfold push, closed, close. cbn [snd opened n_query n_sleep trace handler_text].
  f_equal; first [lia | by rewrite <- !app_assoc].
Qed.

Lemma terminal_interrupt_exits_witness :
  exists s,
    terminal_run W_ctrl_c 5 0 env0 = (Ok tt, s) /\
    n_query s = 14 /\
    last (trace s) = Some (EvPrint "Connection closed.").
Proof.
  eexists. split.
  - apply (terminal_interrupt_exits W_ctrl_c 5 0 env0 1).
    + intros n c. destruct c; eexists; reflexivity.
    + lia.
    + intros j Hj. assert (j = 0) as -> by lia. reflexivity.
    + reflexivity.
  - split; vm_compute; reflexivity.
Defined.

(** ** Building connections *)

Lemma OBD_return W port l s :
  on_open W (length (opened s)) port = Return l ->
  OBD W port s = (Ok (length (opened s)), built port l s).
Proof. intros H. unfold OBD. by rewrite H. Qed.

Lemma OBD_raise W port e s :
  on_open W (length (opened s)) port = Raise e ->
  OBD W port s = (Raised e, s).
Proof. intros H. unfold OBD. by rewrite H. Qed.

Lemma conn_link_built port l s id :
  conn_link (built port l s) id =
    if decide (id = length (opened s)) then l else conn_link s id.
Proof.
  unfold conn_link, built. cbn [opened].
  destruct (decide (id = length (opened s))) as [-> | Hne].
  - by rewrite list_lookup_middle.
  - destruct (decide (id < length (opened s))) as [Hlt | Hge].
    + by rewrite lookup_app_l.
    + rewrite !lookup_ge_None_2; [done | lia |].
      rewrite length_app. simpl. lia.
Qed.

Lemma conn_link_closed c s id :
  conn_link (closed c s) id = if decide (id = c) then None else conn_link s id.
Proof.
  unfold conn_link, closed, close. cbn [snd opened].
  destruct (decide (id = c)) as [-> | Hne].
  - rewrite list_lookup_alter, decide_True by done. by destruct (opened s !! c).
  - by rewrite list_lookup_alter, decide_False.
Qed.

Lemma is_connected_eq s id :
  is_connected id s = (Ok (bool_decide (is_Some (conn_link s id))), s).
Proof. reflexivity. Qed.

Lemma try_except_ok {S A} (m : M S A) h s a s' :
  m s = (Ok a, s') -> try_except m h s = (Ok a, s').
Proof. intros H. unfold try_except. by rewrite H. Qed.

Lemma try_except_raised {S A} (m : M S A) h s e s' :
  m s = (Raised e, s') -> try_except m h s = h e s'.
Proof. intros H. unfold try_except. by rewrite H. Qed.

Lemma terminal_connect_direct W s l :
  on_open W (length (opened s)) (Some "/dev/ttyACM0") = Return (Some l) ->
  terminal_connect W s =
    (Ok (length (opened s)),
     push [EvPrint "Connected via /dev/ttyACM0!"] 0 0
       (built (Some "/dev/ttyACM0") (Some l)
          (push [EvPrint "Trying /dev/ttyACM0..."] 0 0 s))).
Proof.
  intros H. unfold terminal_connect, print.
  match goal with |- context [try_except ?m ?h] =>
    assert (m s = (Ok (Some (length (opened s))),
                   push [EvPrint "Connected via /dev/ttyACM0!"] 0 0
                     (built (Some "/dev/ttyACM0") (Some l)
                        (push [EvPrint "Trying /dev/ttyACM0..."] 0 0 s)))) as Hbody
  end.
  { rewrite (bind_ok _ _ _ _ _ (emit_ok _ _)).
    rewrite (bind_ok _ _ _ _ _ (OBD_return W _ (Some l) (push _ 0 0 s) H)).
    cbn [push opened].
    rewrite (bind_ok _ _ _ _ _ (is_connected_eq _ _)).
    rewrite conn_link_built, decide_True by done.
    rewrite bool_decide_eq_true_2 by eauto. cbn [when].
    by rewrite (bind_ok _ _ _ _ _ (emit_ok _ _)). }
  rewrite (bind_ok _ _ _ _ _ (try_except_ok _ _ _ _ _ Hbody)).
  rewrite (bind_ok _ _ _ _ _ (is_connected_eq _ _)).
  rewrite conn_link_push, conn_link_built, decide_True by done.
  by rewrite bool_decide_eq_true_2 by eauto.
Qed.

Lemma terminal_connect_unconnected W s :
  on_open W (length (opened s)) (Some "/dev/ttyACM0") = Return None ->
  terminal_connect W s =
    OBD W None
      (push [EvPrint "Trying auto-detection..."] 0 0
         (built (Some "/dev/ttyACM0") None
            (push [EvPrint "Trying /dev/ttyACM0..."] 0 0 s))).
Proof.
  intros H. unfold terminal_connect, print.
  match goal with |- context [try_except ?m ?h] =>
    assert (m s = (Ok (Some (length (opened s))),
                   built (Some "/dev/ttyACM0") None
                     (push [EvPrint "Trying /dev/ttyACM0..."] 0 0 s))) as Hbody
  end.
  { rewrite (bind_ok _ _ _ _ _ (emit_ok _ _)).
    rewrite (bind_ok _ _ _ _ _ (OBD_return W _ None (push _ 0 0 s) H)).
    cbn [push opened].
    rewrite (bind_ok _ _ _ _ _ (is_connected_eq _ _)).
    rewrite conn_link_built, decide_True by done.
    by rewrite bool_decide_eq_false_2 by (intros [? ?]; done). }
  rewrite (bind_ok _ _ _ _ _ (try_except_ok _ _ _ _ _ Hbody)).
  rewrite (bind_ok _ _ _ _ _ (is_connected_eq _ _)).
  rewrite conn_link_built, decide_True by done.
  rewrite bool_decide_eq_false_2 by (intros [? ?]; done). cbn [negb].
  by rewrite (bind_ok _ _ _ _ _ (emit_ok _ _)).
Qed.

Lemma terminal_connect_raised W s e :
  on_open W (length (opened s)) (Some "/dev/ttyACM0") = Raise e ->
  terminal_connect W s =
    OBD W None
      (push [EvPrint "Trying auto-detection..."] 0 0
         (push [EvPrint "Trying /dev/ttyACM0..."] 0 0 s)).
Proof.
  intros H. unfold terminal_connect, print.
  match goal with |- context [try_except ?m ?h] =>
    assert (m s = (Raised e, push [EvPrint "Trying /dev/ttyACM0..."] 0 0 s)) as Hbody
  end.
  { rewrite (bind_ok _ _ _ _ _ (emit_ok _ _)).
    by rewrite (bind_raised _ _ _ _ _ (OBD_raise W _ e (push _ 0 0 s) H)). }
  rewrite (bind_ok _ _ _ _ _ (try_except_raised _ _ _ _ _ Hbody)).
  by rewrite (bind_ok _ _ _ _ _ (emit_ok _ _)).
Qed.

Lemma trace_built port l s : trace (built port l s) = (trace s ++ [EvOpen (length (opened s)) port])%list.
Proof. reflexivity. Qed.

Ltac no_close := repeat constructor; intros ? ?; discriminate.

Ltac not_in_list H :=
  repeat (apply elem_of_cons in H as [H | H]; [discriminate |]);
  by apply elem_of_nil in H.

(** X3: [terminal_mode]'s two connection attempts.  Auto-detection is tried
    exactly when the fixed port did not give a connected object; at most two
    objects are built and none is closed; the connection handed on is the
    object built last; and if no object was connected before, no object other
    than the one handed on is connected afterwards. *)
Theorem terminal_connect_attempts W s r s' :
  terminal_connect W s = (r, s') ->
  exists evs,
    trace s' = (trace s ++ evs)%list /\
    length (opened s) <= length (opened s') <= length (opened s) + 2 /\
    Forall (fun ev => forall id, ev <> EvClose id) evs /\
    (EvPrint "Trying auto-detection..." ∈ evs <->
     ~ exists l, on_open W (length (opened s)) (Some "/dev/ttyACM0") = Return (Some l)) /\
    (forall id, r = Ok id -> S id = length (opened s')) /\
    r <> Running /\
    ((forall id, conn_link s id = None) ->
     forall id l, conn_link s' id = Some l -> r = Ok id).
Proof.
  intros H.
  destruct (on_open W (length (opened s)) (Some "/dev/ttyACM0"))
    as [[l |] | e] eqn:Hfirst.
  - rewrite (terminal_connect_direct W s l Hfirst) in H. inversion H; subst. clear H.
    exists [EvPrint "Trying /dev/ttyACM0..."; EvOpen (length (opened s)) (Some "/dev/ttyACM0");
            EvPrint "Connected via /dev/ttyACM0!"].
    split; [cbn; by rewrite <- !app_assoc |].
    split; [cbn; rewrite length_app; simpl; lia |].
    split; [no_close |].
    split; [split; [intros Hin; not_in_list Hin | intros Hn; exfalso; eauto] |].
    split; [intros id Hid; inversion Hid; cbn; rewrite length_app; simpl; lia |].
    split; [done |].
    intros Hnone id l' Hl. rewrite conn_link_push, conn_link_built in Hl.
    cbn [push opened] in Hl. destruct (decide (id = length (opened s))) as [-> | _]; [done |].
    rewrite conn_link_push, Hnone in Hl. done.
  - rewrite (terminal_connect_unconnected W s Hfirst) in H.
    match type of H with OBD W None ?s0 = _ => set (s1 := s0) in * end.
    assert (length (opened s1) = S (length (opened s))) as Hlen
      by (cbn; rewrite length_app; simpl; lia).
    assert (trace s1 = (trace s ++ [EvPrint "Trying /dev/ttyACM0...";
                                    EvOpen (length (opened s)) (Some "/dev/ttyACM0");
                                    EvPrint "Trying auto-detection..."])%list) as Htr
      by (cbn; by rewrite <- !app_assoc).
    assert (forall id, (forall i, conn_link s i = None) -> conn_link s1 id = None) as Hs1.
    { intros id Hnone. unfold s1. rewrite conn_link_push, conn_link_built.
      destruct (decide _); [done |]. by rewrite conn_link_push. }
    clearbody s1.
    destruct (on_open W (length (opened s1)) None) as [l2 | e2] eqn:Hsecond.
    + rewrite (OBD_return W None l2 s1 Hsecond) in H. inversion H; subst r s'. clear H.
      exists [EvPrint "Trying /dev/ttyACM0..."; EvOpen (length (opened s)) (Some "/dev/ttyACM0");
              EvPrint "Trying auto-detection..."; EvOpen (length (opened s1)) None].
      split; [rewrite trace_built, Htr; by rewrite <- !app_assoc |].
      split; [cbn [built opened]; rewrite length_app, Hlen; cbn [length]; lia |].
      split; [no_close |].
      split; [split; [intros _ [l Hl]; done | intros _; set_solver] |].
      split; [intros id Hid; inversion Hid; cbn [built opened];
              rewrite length_app; cbn [length]; lia |].
      split; [done |].
      intros Hnone id l' Hl. rewrite conn_link_built in Hl.
      destruct (decide (id = length (opened s1))) as [-> | _]; [done |].
      by rewrite Hs1 in Hl.
    + rewrite (OBD_raise W None e2 s1 Hsecond) in H. inversion H; subst r s'. clear H.
      exists [EvPrint "Trying /dev/ttyACM0..."; EvOpen (length (opened s)) (Some "/dev/ttyACM0");
              EvPrint "Trying auto-detection..."].
      split; [exact Htr |].
      split; [lia |].
      split; [no_close |].
      split; [split; [intros _ [l Hl]; done | intros _; set_solver] |].
      split; [done |]. split; [done |].
      intros Hnone id l' Hl. by rewrite Hs1 in Hl.
  - rewrite (terminal_connect_raised W s e Hfirst) in H.
    match type of H with OBD W None ?s0 = _ => set (s1 := s0) in * end.
    assert (length (opened s1) = length (opened s)) as Hlen by reflexivity.
    assert (trace s1 = (trace s ++ [EvPrint "Trying /dev/ttyACM0...";
                                    EvPrint "Trying auto-detection..."])%list) as Htr
      by (cbn; by rewrite <- !app_assoc).
    assert (forall id, conn_link s1 id = conn_link s id) as Hs1 by reflexivity.
    clearbody s1.
    destruct (on_open W (length (opened s1)) None) as [l2 | e2] eqn:Hsecond.
    + rewrite (OBD_return W None l2 s1 Hsecond) in H. inversion H; subst r s'. clear H.
      exists [EvPrint "Trying /dev/ttyACM0..."; EvPrint "Trying auto-detection...";
              EvOpen (length (opened s1)) None].
      split; [rewrite trace_built, Htr; by rewrite <- !app_assoc |].
      split; [cbn [built opened]; rewrite length_app, Hlen; cbn [length]; lia |].
      split; [no_close |].
      split; [split; [intros _ [l Hl]; done | intros _; set_solver] |].
      split; [intros id Hid; inversion Hid; cbn [built opened];
              rewrite length_app; cbn [length]; lia |].
      split; [done |].
      intros Hnone id l' Hl. rewrite conn_link_built in Hl.
      destruct (decide (id = length (opened s1))) as [-> | _]; [done |].
      by rewrite Hs1, Hnone in Hl.
    + rewrite (OBD_raise W None e2 s1 Hsecond) in H. inversion H; subst r s'. clear H.
      exists [EvPrint "Trying /dev/ttyACM0..."; EvPrint "Trying auto-detection..."].
      split; [exact Htr |].
      split; [lia |].
      split; [no_close |].
      split; [split; [intros _ [l Hl]; done | intros _; set_solver] |].
      split; [done |]. split; [done |].
      intros Hnone id l' Hl. by rewrite Hs1, Hnone in Hl.
Qed.

(** With no adapter the fixed port and then auto-detection are tried. *)
Lemma terminal_connect_attempts_witness :
  exists evs,
    trace (terminal_connect W_unplugged env0).2 = evs /\
    EvPrint "Trying auto-detection..." ∈ evs /\
    length (opened (terminal_connect W_unplugged env0).2) <= 2.
Proof.
  destruct (terminal_connect_attempts W_unplugged env0
              (terminal_connect W_unplugged env0).1
              (terminal_connect W_unplugged env0).2)
    as (evs & Htr & [_ Hlen] & _ & Hauto & _).
  - by destruct (terminal_connect W_unplugged env0).
  - exists evs. split; [exact Htr |]. split; [| exact Hlen].
    apply Hauto. intros [l Hl]. discriminate.
Defined.

(** ** Exceptions that leave [terminal_mode] *)

Lemma terminal_mode_start_delay W fuel s id s1 l :
  terminal_connect W (print "Connecting to OBD-II port..." s).2 = (Ok id, s1) ->
  conn_link s1 id = Some l ->
  terminal_mode W fuel s =
    if on_sleep W (n_sleep s1)
    then (Raised KeyboardInterrupt, push (prologue l) 0 1 s1)
    else terminal_run W fuel id (push (prologue l) 0 1 s1).
Proof.
  intros Hc Hl. unfold terminal_mode.
  rewrite (bind_ok _ _ s tt (print "Connecting to OBD-II port..." s).2 eq_refl).
  rewrite (bind_ok _ _ _ _ _ Hc).
  rewrite (bind_ok _ _ _ _ _ (is_connected_true _ _ _ Hl)). cbn [negb].
  rewrite (bind_ok _ _ _ _ _ (get_port_name_ok _ _ _ Hl)).
  unfold print.
  rewrite (bind_ok _ _ _ _ _ (emit_ok _ _)).
  rewrite (bind_ok _ _ _ _ _ (get_protocol_name_ok (push _ 0 0 s1) id l Hl)).
  rewrite !(bind_ok _ _ _ _ _ (emit_ok _ _)), !push_push.
  destruct (on_sleep W (n_sleep s1)) eqn:Hsl.
  - rewrite (bind_raised _ _ _ _ _ (sleep_interrupted W 2000 (push _ 0 0 s1) Hsl)).
    by rewrite push_push.
  - rewrite (bind_ok _ _ _ _ _ (sleep_ok W 2000 (push _ 0 0 s1) Hsl)).
    by rewrite push_push.
Qed.

Lemma terminal_mode_not_connected W fuel s id s1 :
  terminal_connect W (print "Connecting to OBD-II port..." s).2 = (Ok id, s1) ->
  conn_link s1 id = None ->
  terminal_mode W fuel s =
    (Ok tt,
     push [ EvPrint "Failed to connect to vehicle!";
            EvPrint "Check:";
            EvPrint "- OBD-II adapter is plugged in";
            EvPrint "- Vehicle ignition is ON";
            EvPrint "- Adapter drivers are installed" ] 0 0 s1).
Proof.
  intros Hc Hl. unfold terminal_mode.
  rewrite (bind_ok _ _ s tt (print "Connecting to OBD-II port..." s).2 eq_refl).
  rewrite (bind_ok _ _ _ _ _ Hc).
  rewrite (bind_ok _ _ _ _ _ (is_connected_false _ _ Hl)). cbn [negb].
  unfold print.
  rewrite !(bind_ok _ _ _ _ _ (emit_ok _ _)), !push_push.
  rewrite emit_ok, push_push. reflexivity.
Qed.

(** X4: two ways in which an exception leaves [terminal_mode] uncaught, both
    ahead of its [try] statement.  Ctrl-C during the two-second delay of
    line 53 ends [terminal_mode] with the connection just established still
    open and never closed.  An exception raised by the auto-detection call of
    line 40 ends it right after "Trying auto-detection..." was printed, and
    the object the fixed port gave, if any, is not closed. *)
Theorem terminal_mode_raises W fuel s :
  let s0 := (print "Connecting to OBD-II port..." s).2 in
  (forall id s1 l,
     terminal_connect W s0 = (Ok id, s1) ->
     conn_link s1 id = Some l ->
     on_sleep W (n_sleep s1) = true ->
     terminal_mode W fuel s
       = (Raised KeyboardInterrupt, push (prologue l) 0 1 s1) /\
     conn_link (push (prologue l) 0 1 s1) id = Some l /\
     Forall (fun ev => forall c, ev <> EvClose c) (prologue l)) /\
  (forall e,
     on_open W (length (opened s)) (Some "/dev/ttyACM0") = Return None ->
     on_open W (S (length (opened s))) None = Raise e ->
     terminal_mode W fuel s =
       (Raised e,
        push [EvPrint "Trying auto-detection..."] 0 0
          (built (Some "/dev/ttyACM0") None
             (push [EvPrint "Connecting to OBD-II port...";
                    EvPrint "Trying /dev/ttyACM0..."] 0 0 s)))) /\
  (forall e1 e,
     on_open W (length (opened s)) (Some "/dev/ttyACM0") = Raise e1 ->
     on_open W (length (opened s)) None = Raise e ->
     terminal_mode W fuel s =
       (Raised e,
        push [EvPrint "Connecting to OBD-II port...";
              EvPrint "Trying /dev/ttyACM0...";
              EvPrint "Trying auto-detection..."] 0 0 s)).
Proof.
  cbv zeta.
  assert (forall e s', terminal_connect W (print "Connecting to OBD-II port..." s).2
                       = (Raised e, s') ->
                       terminal_mode W fuel s = (Raised e, s')) as Hescape.
  { intros e s' Hc. unfold terminal_mode.
    rewrite (bind_ok _ _ s tt (print "Connecting to OBD-II port..." s).2 eq_refl).
    by rewrite (bind_raised _ _ _ _ _ Hc). }
  split; [| split].
  - intros id s1 l Hc Hl Hsl.
    rewrite (terminal_mode_start_delay W fuel s id s1 l Hc Hl), Hsl.
    split; [done |]. split; [by rewrite conn_link_push |].
    unfold prologue. no_close.
  - intros e Hfirst Hsecond. apply Hescape.
    rewrite terminal_connect_unconnected by exact Hfirst.
    match goal with |- OBD W None ?st = _ =>
      assert (length (opened st) = S (length (opened s))) as Hlen
        by (cbn; rewrite length_app; cbn; lia);
      rewrite (OBD_raise W None e st) by (rewrite Hlen; exact Hsecond)
    end.
    unfold print, emit, push, built. cbn. by rewrite <- !app_assoc.
  - intros e1 e Hfirst Hsecond. apply Hescape.
    rewrite (terminal_connect_raised W _ e1) by exact Hfirst.
    match goal with |- OBD W None ?st = _ =>
      rewrite (OBD_raise W None e st) by exact Hsecond
    end.
    unfold print, emit, push. cbn. by rewrite <- !app_assoc.
Qed.

Lemma terminal_mode_raises_witness :
  (exists s',
     terminal_mode W_early_ctrl_c 3 env0 = (Raised KeyboardInterrupt, s') /\
     conn_link s' 0 = Some (Link "/dev/ttyACM0" "ISO 15765-4")) /\
  (exists s',
     terminal_mode W_autodetect_raises 3 env0
       = (Raised (Exception "could not open port"), s') /\
     last (trace s') = Some (EvPrint "Trying auto-detection...")).
Proof.
  split.
  - destruct (terminal_mode_raises W_early_ctrl_c 3 env0) as (H & _).
    destruct (H 0 (terminal_connect W_early_ctrl_c
                     (print "Connecting to OBD-II port..." env0).2).2
                (Link "/dev/ttyACM0" "ISO 15765-4")) as (Hm & Hl & _).
    + vm_compute. reflexivity.
    + vm_compute. reflexivity.
    + vm_compute. reflexivity.
    + eexists. split; [exact Hm | exact Hl].
  - destruct (terminal_mode_raises W_autodetect_raises 3 env0) as (_ & H & _).
    eexists. split; [apply H; reflexivity |]. vm_compute. reflexivity.
Defined.

(** ** Formatting the other readings *)

Lemma fixed_0 n : Fmt.fixed 0 n = Fmt.int_digits n.
Proof.
  unfold Fmt.fixed. cbn [Z.of_nat]. rewrite Z.pow_0_r, Z.div_1_r.
  apply append_nil_r.
Qed.

(** X5: RPM and speed are printed as the integer nearest to the magnitude,
    the even one when the magnitude lies half way between two integers, with
    a minus sign when it is negative and with no decimal point; this is one
    text, and both front ends print it. *)
Theorem integer_format (magnitude : float) :
  exists text,
    shows_to 0 magnitude text /\
    (forall t, shows_to 0 magnitude t -> t = text) /\
    rpm_line magnitude = "Engine RPM:      " ++ text ++ " rpm" /\
    speed_line magnitude = "Vehicle Speed:   " ++ text ++ " mph" /\
    format_value "rpm" (Some magnitude) = text /\
    format_value "speed" (Some magnitude) = text.
Proof.
  exists (Fmt.format_f 0 magnitude).
  split; [apply format_f_shows |].
  split; [intros t H; by apply shows_to_format_f |].
  repeat split.
Qed.

(** Half-way magnitudes go to the even integer, a negative one keeps its
    sign. *)
Lemma integer_format_witness :
  shows_to 0 812.5%float "812" /\ rpm_line 812.5%float = "Engine RPM:      812 rpm" /\
  shows_to 0 813.5%float "814" /\ format_value "speed" (Some 813.5%float) = "814" /\
  shows_to 0 (-2.5)%float "-2" /\ format_value "rpm" (Some (-2.5)%float) = "-2".
Proof.
  assert (forall x t, Fmt.format_f 0 x = t -> shows_to 0 x t) as Hshow
    by (intros x t <-; apply format_f_shows).
  destruct (integer_format 812.5%float) as (t1 & _ & Hu1 & Hr1 & _).
  destruct (integer_format 813.5%float) as (t2 & _ & Hu2 & _ & _ & _ & Hs2).
  destruct (integer_format (-2.5)%float) as (t3 & _ & Hu3 & _ & _ & Hr3 & _).
  assert (shows_to 0 812.5%float "812") as H1 by (apply Hshow; vm_compute; reflexivity).
  assert (shows_to 0 813.5%float "814") as H2 by (apply Hshow; vm_compute; reflexivity).
  assert (shows_to 0 (-2.5)%float "-2") as H3 by (apply Hshow; vm_compute; reflexivity).
  split; [exact H1 |]. split; [by rewrite Hr1, <- (Hu1 _ H1) |].
  split; [exact H2 |]. split; [by rewrite Hs2, <- (Hu2 _ H2) |].
  split; [exact H3 |]. by rewrite Hr3, <- (Hu3 _ H3).
Defined.

(** X6: throttle position, engine load, fuel level and fuel pressure are
    printed to one decimal, and so is, in the dashboard, any parameter that
    is neither RPM, speed nor a temperature. *)
Theorem one_decimal_format (magnitude : float) :
  exists text,
    shows_to 1 magnitude text /\
    throttle_line magnitude = "Throttle Pos:    " ++ text ++ "%" /\
    load_line magnitude = "Engine Load:     " ++ text ++ "%" /\
    fuel_line magnitude = "Fuel Level:      " ++ text ++ "%" /\
    forall param,
      str_in param ["rpm"; "speed"; "coolant_temp"; "intake_temp"] = false ->
      format_value param (Some magnitude) = text.
Proof.
  exists (Fmt.format_f 1 magnitude).
  split; [apply format_f_shows |].
  do 3 (split; [reflexivity |]).
  intros param H. unfold format_value, str_in in *. cbn [existsb] in *.
  destruct (String.eqb param "rpm"); [done |].
  destruct (String.eqb param "speed"); [done |].
  destruct (String.eqb param "coolant_temp"); [done |].
  destruct (String.eqb param "intake_temp"); done.
Qed.

Lemma one_decimal_format_witness :
  format_value "fuel_pressure" (Some 300%float) = "300.0" /\
  format_value "throttle_pos" (Some 37.5%float) = "37.5".
Proof.
  destruct (one_decimal_format 300%float) as (t1 & _ & _ & _ & _ & H1).
  destruct (one_decimal_format 37.5%float) as (t2 & _ & _ & _ & _ & H2).
  split.
  - rewrite (H1 "fuel_pressure" eq_refl).
    rewrite <- (H1 "throttle_pos" eq_refl). vm_compute. reflexivity.
  - rewrite (H2 "throttle_pos" eq_refl).
    rewrite <- (H2 "fuel_level" eq_refl). vm_compute. reflexivity.
Defined.

Lemma round_half_even_exact k den :
  (0 < den)%Z -> Fmt.round_half_even (k * den) den = k.
Proof.
  intros Hden. unfold Fmt.round_half_even.
  rewrite Z.div_mul, Z.mod_mul by lia.
  destruct (Z.compare_spec (2 * 0) den); lia.
Qed.

Lemma scaled_exact prec m e k :
  (Z.pos m * 2 ^ Z.max e 0 = k * 2 ^ Z.max (- e) 0)%Z ->
  Fmt.scaled prec m e = (k * 10 ^ Z.of_nat prec)%Z.
Proof.
  intros H. unfold Fmt.scaled. destruct (Z.leb_spec 0 e) as [Hle | Hlt].
  - rewrite (Z.max_l e 0), (Z.max_r (- e) 0) in H by lia.
    rewrite H. simpl (2 ^ 0)%Z. lia.
  - rewrite (Z.max_r e 0), (Z.max_l (- e) 0) in H by lia.
    simpl (2 ^ 0)%Z in H. rewrite Z.mul_1_r in H. rewrite H.
    replace (k * 2 ^ (- e) * 10 ^ Z.of_nat prec)%Z
      with (k * 10 ^ Z.of_nat prec * 2 ^ (- e))%Z by lia.
    apply round_half_even_exact. apply Z.pow_pos_nonneg; lia.
Qed.

(** A whole number is written as its numeral, and with one decimal as that
    numeral and ".0". *)
Lemma whole_format_f x neg k :
  whole x neg k ->
  exists t, numeral 0 neg k t /\
            Fmt.format_f 0 x = t /\ Fmt.format_f 1 x = t ++ ".0".
Proof.
  unfold whole, Fmt.format_f.
  destruct (Prim2SF x) as [s | s | | s m e]; try done; intros [-> Hk].
  - subst k. exists (Fmt.sign s ++ Fmt.fixed 0 0).
    split; [by apply fixed_numeral |]. split; [reflexivity |].
    by destruct s.
  - assert (0 <= k)%Z as Hk0.
    { assert (0 < 2 ^ Z.max e 0)%Z by (apply Z.pow_pos_nonneg; lia).
      assert (0 < 2 ^ Z.max (- e) 0)%Z by (apply Z.pow_pos_nonneg; lia). nia. }
    exists (Fmt.sign s ++ Fmt.fixed 0 k).
    split; [by apply fixed_numeral |].
    rewrite (scaled_exact 0 m e k Hk), (scaled_exact 1 m e k Hk).
    simpl (10 ^ _)%Z. rewrite Z.mul_1_r. split; [reflexivity |].
    rewrite fixed_0. unfold Fmt.fixed, Fmt.frac_digits. simpl (10 ^ _)%Z.
    rewrite Z.div_mul, Z.mod_mul by lia.
    by rewrite !append_assoc.
Qed.

(** X7: a reading whose magnitude is a whole number (zero included) is
    printed exactly at every place a reading is formatted: as the numeral of
    that number, with a minus sign when it is negative, where the format has
    no decimals (RPM, speed), and as that numeral followed by ".0" where it
    has one (the Celsius part of a temperature included). *)
Theorem whole_number_format (magnitude : float) (neg : bool) (k : Z) :
  whole magnitude neg k ->
  exists text fahrenheit,
    numeral 0 neg k text /\
    shows_to 1 (magnitude * 9 / 5 + 32)%float fahrenheit /\
    rpm_line magnitude = "Engine RPM:      " ++ text ++ " rpm" /\
    speed_line magnitude = "Vehicle Speed:   " ++ text ++ " mph" /\
    coolant_line magnitude
      = "Coolant Temp:    " ++ (text ++ ".0") ++ "°C (" ++ fahrenheit ++ "°F)" /\
    throttle_line magnitude = "Throttle Pos:    " ++ (text ++ ".0") ++ "%" /\
    load_line magnitude = "Engine Load:     " ++ (text ++ ".0") ++ "%" /\
    iat_line magnitude
      = "Intake Air Temp: " ++ (text ++ ".0") ++ "°C (" ++ fahrenheit ++ "°F)" /\
    fuel_line magnitude = "Fuel Level:      " ++ (text ++ ".0") ++ "%" /\
    forall param,
      format_value param (Some magnitude) =
        if str_in param ["rpm"; "speed"] then text
        else if str_in param ["coolant_temp"; "intake_temp"]
             then (text ++ ".0") ++ "°C" ++ nl ++ "(" ++ fahrenheit ++ "°F)"
             else text ++ ".0".
Proof.
  intros H. destruct (whole_format_f magnitude neg k H) as (t & Hnum & H0 & H1).
  exists t, (Fmt.format_f 1 (magnitude * 9 / 5 + 32)%float).
  split; [exact Hnum |]. split; [apply format_f_shows |].
  unfold rpm_line, speed_line, coolant_line, throttle_line, load_line, iat_line,
    fuel_line. cbv zeta. rewrite H0, H1.
  do 7 (split; [reflexivity |]).
  intros param. unfold format_value, str_in. cbn [existsb]. rewrite H0, H1.
  destruct (String.eqb param "rpm"); [done |].
  destruct (String.eqb param "speed"); [done |].
  cbn [orb]. reflexivity.
Qed.

Lemma whole_number_format_witness :
  rpm_line 3000%float = "Engine RPM:      3000 rpm" /\
  format_value "fuel_pressure" (Some 300%float) = "300.0" /\
  format_value "speed" (Some 0%float) = "0" /\
  throttle_line 0%float = "Throttle Pos:    0.0%" /\
  format_value "coolant_temp" (Some (-40)%float) = "-40.0°C" ++ nl ++ "(-40.0°F)".
Proof.
  assert (forall neg k t, numeral 0 neg k t ->
            Fmt.sign neg ++ Fmt.fixed 0 k = t) as Hread.
  { intros neg k t Ht.
    destruct (Z.le_gt_cases 0 k) as [Hk | Hk].
    - exact (numeral_unique 0 neg k _ _ (fixed_numeral 0 neg k Hk) Ht).
    - destruct Ht as (ip & fp & _ & _ & _ & Hv).
      apply digits_value_bounds in Hv.
      assert (0 < 10 ^ Z.of_nat (String.length (ip ++ fp)))%Z
        by (apply Z.pow_pos_nonneg; lia).
      lia. }
  split; [| split; [| split; [| split]]].
  - destruct (whole_number_format 3000%float false 3000) as (t & f & Ht & _ & H & _);
      [vm_compute; split; reflexivity |].
    rewrite H, <- (Hread _ _ _ Ht). vm_compute. reflexivity.
  - destruct (whole_number_format 300%float false 300) as (t & f & Ht & _ & H);
      [vm_compute; split; reflexivity |].
    do 7 destruct H as (_ & H).
    rewrite (H "fuel_pressure"), <- (Hread _ _ _ Ht). vm_compute. reflexivity.
  - destruct (whole_number_format 0%float false 0) as (t & f & Ht & _ & H);
      [vm_compute; split; reflexivity |].
    do 7 destruct H as (_ & H).
    rewrite (H "speed"), <- (Hread _ _ _ Ht). vm_compute. reflexivity.
  - destruct (whole_number_format 0%float false 0) as (t & f & Ht & _ & _ & _ & _ & H & _);
      [vm_compute; split; reflexivity |].
    rewrite H, <- (Hread _ _ _ Ht). vm_compute. reflexivity.
  - destruct (whole_number_format (-40)%float true 40) as (t & f & Ht & Hf & H);
      [vm_compute; split; reflexivity |].
    do 7 destruct H as (_ & H).
    rewrite (H "coolant_temp"), <- (Hread _ _ _ Ht).
    rewrite (proj1 (shows_to_format_f _ _ _) Hf). vm_compute. reflexivity.
Defined.

(** ** The polling thread and the shared state *)

(** X8: whatever the polling threads do, in any number and order of steps,
    they issue queries, print and sleep, and append scheduled calls for
    existing cells with valid texts; they never write a cell themselves and
    never change the connection, the run flag, the widgets or the store of
    connection objects. *)
Theorem polling_threads_only_schedule W (ts : list nat) g :
  polled g (foldl (fun g t => worker_step W t g) g ts).
Proof.
  revert g. induction ts as [| t ts IH]; intros g; [apply polled_refl |].
  simpl. eapply polled_trans; [apply worker_step_polled | apply IH].
Qed.

Lemma thread_alive_set_exited t g : thread_alive (set_thread t WExited g) t = false.
Proof.
  unfold thread_alive, set_thread. cbn [threads with_threads].
  destruct (decide (t < length (threads g))) as [Hlt | Hge].
  - by rewrite list_lookup_insert_eq.
  - rewrite list_insert_ge by lia.
    by rewrite lookup_ge_None_2 by lia.
Qed.

Lemma worker_step_exited W t g :
  thread_alive g t = false -> worker_step W t g = g.
Proof.
  unfold thread_alive, worker_step.
  by destruct (threads g !! t) as [[| | |] |].
Qed.

(** A thread at its loop test or asleep, with the run flag down, is gone
    after two steps and has asked for nothing. *)
Lemma stop_from_loop_head W t g :
  is_running g = false ->
  threads g !! t = Some WLoopHead ->
  let g' := worker_step W t g in
  thread_alive g' t = false /\ g_env g' = g_env g /\ pending g' = pending g
  /\ is_running g' = false.
Proof.
  intros Hrun Ht. cbv zeta. rewrite (worker_step_loop_head W t g Ht).
  unfold loop_condition. rewrite Hrun. cbn [andb].
  split; [| done].
  unfold thread_alive. cbn [threads with_threads].
  rewrite list_lookup_insert_eq; [done | by eapply lookup_lt_Some].
Qed.

Lemma stop_from_sleep W t g ms :
  is_running g = false ->
  threads g !! t = Some (WSleep ms) ->
  let g' := worker_step W t (worker_step W t g) in
  thread_alive g' t = false /\
  n_query (g_env g') = n_query (g_env g) /\ pending g' = pending g
  /\ is_running g' = false.
Proof.
  intros Hrun Ht. cbv zeta. rewrite (worker_step_sleep W t g ms Ht).
  assert (t < length (threads g)) as Hlt by (by eapply lookup_lt_Some).
  destruct (on_sleep W (n_sleep (g_env g))).
  - rewrite worker_step_exited;
      unfold thread_alive; cbn [threads]; rewrite list_lookup_insert_eq by done; done.
  - match goal with |- context [worker_step W t ?x] => set (g1 := x) end.
    assert (threads g1 !! t = Some WLoopHead) as Ht1
      by (by apply list_lookup_insert_eq).
    destruct (stop_from_loop_head W t g1 Hrun Ht1) as (Ha & He & Hp & Hr).
    split; [exact Ha |]. rewrite He, Hp. done.
Qed.

(** A thread between two statements, with the run flag down, is gone after
    three steps and has asked for nothing. *)
Lemma stop_between_statements W t g :
  is_running g = false ->
  let g' := Nat.iter 3 (worker_step W t) g in
  thread_alive g' t = false /\
  n_query (g_env g') = n_query (g_env g) /\
  pending g' = pending g.
Proof.
  intros Hrun. cbn [Nat.iter nat_rect].
  destruct (threads g !! t) as [[| [| [param cmd] rest] | ms |] |] eqn:Ht.
  - destruct (stop_from_loop_head W t g Hrun Ht) as (Ha & He & Hp & Hr).
    rewrite !(worker_step_exited W t (worker_step W t g)) by done.
    by rewrite He, Hp.
  - assert (worker_step W t g = set_thread t (WSleep 500) g) as Hs
      by (unfold worker_step; by rewrite Ht).
    assert (threads (set_thread t (WSleep 500) g) !! t = Some (WSleep 500)) as Ht1.
    { apply list_lookup_insert_eq. by eapply lookup_lt_Some. }
    rewrite Hs.
    destruct (stop_from_sleep W t (set_thread t (WSleep 500) g) 500 Hrun Ht1)
      as (Ha & Hq & Hp & _).
    split; [exact Ha |]. by rewrite Hq, Hp.
  - assert (worker_step W t g = set_thread t (WSleep 500) g) as Hs.
    { rewrite (worker_step_for W t g param cmd rest Ht).
      unfold read_param. by rewrite Hrun. }
    assert (threads (set_thread t (WSleep 500) g) !! t = Some (WSleep 500)) as Ht1.
    { apply list_lookup_insert_eq. by eapply lookup_lt_Some. }
    rewrite Hs.
    destruct (stop_from_sleep W t (set_thread t (WSleep 500) g) 500 Hrun Ht1)
      as (Ha & Hq & Hp & _).
    split; [exact Ha |]. by rewrite Hq, Hp.
  - destruct (stop_from_sleep W t g ms Hrun Ht) as (Ha & Hq & Hp & _).
    rewrite (worker_step_exited W t _ Ha). by rewrite Hq, Hp.
  - rewrite !(worker_step_exited W t g) by (unfold thread_alive; by rewrite Ht).
    split; [unfold thread_alive; by rewrite Ht | done].
  - rewrite !(worker_step_exited W t g) by (unfold thread_alive; by rewrite Ht).
    split; [unfold thread_alive; by rewrite Ht | done].
Qed.

(** The two grains agree: with nothing in between, entering the query and
    returning from it is the step of [worker_step], and every other step is
    the same. *)
Lemma fine_step_coarse W t g :
  exists k, 1 <= k <= 2 /\
            Nat.iter k (fine_step W t) (None, g) = (None, worker_step W t g).
Proof.
  destruct (threads g !! t) as [[| [| [param cmd] rest] | ms |] |] eqn:Ht;
    try (exists 1; split; [lia |]; cbn [Nat.iter nat_rect]; unfold fine_step;
         by rewrite Ht).
  destruct (is_running g) eqn:Hrun;
    [| exists 1; split; [lia |]; cbn [Nat.iter nat_rect]; unfold fine_step;
       by rewrite Ht, Hrun].
  destruct (connection g) as [c |] eqn:Hc;
    [| exists 1; split; [lia |]; cbn [Nat.iter nat_rect]; unfold fine_step;
       rewrite Ht, Hrun, Hc; by rewrite bool_decide_eq_false_2 by (intros [? ?]; done)].
  exists 2. split; [lia |]. cbn [Nat.iter nat_rect]. unfold fine_step at 2.
  rewrite Ht, Hrun, Hc, bool_decide_eq_true_2 by eauto. cbn [andb].
  unfold fine_step. rewrite Ht.
  rewrite (worker_step_for W t g param cmd rest Ht).
  unfold finish_query, read_param. rewrite Hrun, Hc. cbn [negb attr_of].
  reflexivity.
Qed.

Lemma fine_step_flag_down W t g :
  is_running g = false -> fine_step W t (None, g) = (None, worker_step W t g).
Proof.
  intros Hrun. unfold fine_step.
  destruct (threads g !! t) as [[| [| [param cmd] rest] | ms |] |]; try done.
  by rewrite Hrun.
Qed.

Lemma fine_steps_flag_down W t n : forall g,
  is_running g = false ->
  Nat.iter n (fine_step W t) (None, g) = (None, Nat.iter n (worker_step W t) g).
Proof.
  induction n as [| n IH]; intros g Hrun; [done |].
  rewrite !Nat.iter_succ_r, fine_step_flag_down by done.
  apply IH. by rewrite (polled_is_running _ _ (worker_step_polled W t g)).
Qed.

Lemma finish_query_effect W t c param cmd rest g :
  let g1 := finish_query W t c param cmd rest g in
  is_running g1 = is_running g /\
  n_query (g_env g1) = S (n_query (g_env g)) /\
  (exists calls, pending g1 = (pending g ++ calls)%list /\ length calls <= 1) /\
  (forall v,
     on_query W (n_query (g_env g)) cmd = Return v ->
     is_Some (data_vars g !! param) ->
     pending g1 = (pending g ++ [(param, format_value param v)])%list).
Proof.
  cbv zeta. unfold finish_query, liftE, query.
  destruct (on_query W (n_query (g_env g)) cmd) as [v | [| msg]].
  - cbn [data_vars with_env].
    destruct (bool_decide (is_Some (data_vars g !! param))) eqn:Hcell.
    + split; [done |]. split; [done |].
      split; [exists [(param, format_value param v)]; split; [done | simpl; lia] |].
      by intros v' [= <-] _.
    + split; [done |]. split; [done |].
      split; [exists []; rewrite app_nil_r; split; [done | simpl; lia] |].
      intros v' _ Hsome. by rewrite bool_decide_eq_true_2 in Hcell.
  - split; [done |]. split; [done |].
    split; [exists []; rewrite app_nil_r; split; [done | simpl; lia] | done].
  - split; [done |]. split; [done |].
    split; [exists []; rewrite app_nil_r; split; [done | simpl; lia] | done].
Qed.

(** X9: stopping is cooperative, and prompt up to the call in flight.  Once
    the run flag is down, a polling thread starts no further query.  If the
    flag went down while the thread was inside a query, that query still
    returns and its answer is still scheduled as a cell update (or its
    failure reported); a thread between two statements schedules nothing.
    In both cases the thread has finished after at most four of its steps:
    the return of the query, the [break], the half-second sleep and the loop
    test. *)
Theorem cleared_flag_stops_thread W t g (in_query : option nat) :
  is_running g = false ->
  let g' := (Nat.iter 4 (fine_step W t) (in_query, g)).2 in
  thread_alive g' t = false /\
  (exists calls,
     pending g' = (pending g ++ calls)%list /\ length calls <= 1 /\
     (in_query = None -> calls = [])) /\
  n_query (g_env g') <= S (n_query (g_env g)) /\
  (in_query = None -> n_query (g_env g') = n_query (g_env g)) /\
  (forall c param cmd rest,
     in_query = Some c ->
     threads g !! t = Some (WFor ((param, cmd) :: rest)) ->
     n_query (g_env g') = S (n_query (g_env g)) /\
     forall v,
       on_query W (n_query (g_env g)) cmd = Return v ->
       is_Some (data_vars g !! param) ->
       pending g' = (pending g ++ [(param, format_value param v)])%list).
Proof.
  intros Hrun. cbv zeta.
  assert (forall g0, is_running g0 = false ->
            let g' := (Nat.iter 4 (fine_step W t) (None, g0)).2 in
            thread_alive g' t = false /\
            n_query (g_env g') = n_query (g_env g0) /\ pending g' = pending g0)
    as Hidle.
  { intros g0 H0. cbv zeta. rewrite fine_steps_flag_down by done. cbn [snd].
    destruct (stop_between_statements W t g0 H0) as (Ha & Hq & Hp).
    change (Nat.iter 4 (worker_step W t) g0)
      with (worker_step W t (Nat.iter 3 (worker_step W t) g0)).
    by rewrite (worker_step_exited W t _ Ha). }
  assert (forall g1, is_running g1 = false ->
            let g' := (Nat.iter 3 (fine_step W t) (None, g1)).2 in
            thread_alive g' t = false /\
            n_query (g_env g') = n_query (g_env g1) /\ pending g' = pending g1)
    as Hthree.
  { intros g1 H1. cbv zeta. rewrite fine_steps_flag_down by done. cbn [snd].
    exact (stop_between_statements W t g1 H1). }
  destruct in_query as [c |].
  - destruct (threads g !! t) as [[| [| [param cmd] rest] | ms |] |] eqn:Ht;
      try (assert (fine_step W t (Some c, g) = fine_step W t (None, g)) as Hsame
             by (unfold fine_step; by rewrite Ht);
           rewrite Nat.iter_succ_r, Hsame, <- Nat.iter_succ_r;
           destruct (Hidle g Hrun) as (Ha & Hq & Hp);
           split; [exact Ha |];
           split; [exists []; rewrite app_nil_r; split; [exact Hp | split; [simpl; lia | done]] |];
           split; [lia |]; split; [done |];
           intros ? ? ? ? _ [=]).
    assert (fine_step W t (Some c, g) = (None, finish_query W t c param cmd rest g))
      as Hstep by (unfold fine_step; by rewrite Ht).
    rewrite Nat.iter_succ_r, Hstep.
    destruct (finish_query_effect W t c param cmd rest g)
      as (Hr1 & Hq1 & (calls & Hp1 & Hlen) & Hpub).
    rewrite Hrun in Hr1.
    destruct (Hthree _ Hr1) as (Ha & Hq & Hp).
    split; [exact Ha |].
    split; [exists calls; rewrite Hp; by repeat split |].
    split; [lia |]. split; [done |].
    intros c' param' cmd' rest' [= <-] [= <- <- <-].
    split; [lia |]. intros v Hv Hcell. rewrite Hp. by apply Hpub.
  - destruct (Hidle g Hrun) as (Ha & Hq & Hp).
    split; [exact Ha |].
    split; [exists []; rewrite app_nil_r; split; [exact Hp | split; [simpl; lia | done]] |].
    split; [lia |]. split; [done |]. by intros.
Qed.

(** The flag goes down while a thread is inside the query for the speed:
    the answer is still scheduled; a thread at the same place that has not
    entered the query schedules nothing. *)
Lemma cleared_flag_stops_thread_witness :
  let g := with_is_running false
             (run W_car [Click []; Worker 0; Worker 0] dash_init) in
  thread_alive g 0 = true /\
  thread_alive (Nat.iter 4 (fine_step W_car 0) (Some 0, g)).2 0 = false /\
  pending (Nat.iter 4 (fine_step W_car 0) (Some 0, g)).2
    = (pending g ++ [("speed", "N/A")])%list /\
  pending (Nat.iter 4 (fine_step W_car 0) (None, g)).2 = pending g.
Proof.
  cbv zeta.
  set (g := with_is_running false (run W_car [Click []; Worker 0; Worker 0] dash_init)).
  destruct (cleared_flag_stops_thread W_car 0 g (Some 0) eq_refl)
    as (Ha & _ & _ & _ & Hin).
  destruct (cleared_flag_stops_thread W_car 0 g None eq_refl)
    as (_ & (calls & Hcalls & _ & Hnone) & _).
  split; [vm_compute; reflexivity |]. split; [exact Ha |]. split.
  - destruct (Hin 0 "speed" SPEED
                [ ("coolant_temp", COOLANT_TEMP); ("throttle_pos", THROTTLE_POS);
                  ("engine_load", ENGINE_LOAD); ("intake_temp", INTAKE_TEMP);
                  ("fuel_level", FUEL_LEVEL); ("fuel_pressure", FUEL_PRESSURE) ]
                eq_refl) as (_ & Hpub).
    + vm_compute. reflexivity.
    + apply (Hpub None); [reflexivity |]. vm_compute. eauto.
  - rewrite Hcalls, (Hnone eq_refl). by rewrite app_nil_r.
Defined.

(** X10: a pass in which all eight queries return.  The polling thread asks
    for the eight parameters in the order of its table, schedules one call
    per answer in that order, and goes to its half-second sleep; once the
    event loop has run the calls, every cell shows the text formatted from
    this pass's answer, "N/A" where the answer had no value. *)
Theorem full_pass_publishes W acts s t c vs :
  let g := run W acts (with_env s dash_init) in
  threads g !! t = Some (WFor commands) ->
  is_running g = true ->
  connection g = Some c ->
  answers W (n_query (g_env g)) commands.*2 vs ->
  let g' := Nat.iter 8 (worker_step W t) g in
  g_env g' = push (map (EvQuery c) commands.*2) 8 0 (g_env g) /\
  pending g' =
    (pending g ++ zip_with (fun pc v => (pc.1, format_value pc.1 v)) commands vs)%list /\
  threads (worker_step W t g') !! t = Some (WSleep 500) /\
  (forall i p c' v,
     commands !! i = Some (p, c') -> vs !! i = Some v ->
     data_vars (drain g') !! p = Some (format_value p v)).
Proof.
  intros g Ht Hrun Hc Hans g'.
  pose proof (cells_ok_start W acts s) as Hok. fold g in Hok.
  assert (forall p, p ∈ commands.*1 -> is_Some (data_vars g !! p)) as Hcells
    by (intros p Hp; by apply (cells_dom _ Hok)).
  assert (threads g !! t = Some (WFor (commands ++ []))) as Ht'
    by (by rewrite app_nil_r).
  pose proof (worker_reads W t c commands [] vs g Ht' Hrun Hc Hans) as Hg'.
  change (length commands) with 8 in Hg'. fold g' in Hg'.
  assert (t < length (threads g)) as Hlt by (by eapply lookup_lt_Some).
  rewrite Hg'. cbn [g_env pending].
  split; [done |]. split; [f_equal; by apply published_all |]. split.
  - unfold worker_step. cbn [threads]. rewrite list_lookup_insert_eq by done.
    unfold set_thread. cbn [threads with_threads].
    apply list_lookup_insert_eq. by rewrite length_insert.
  - intros i p c' v Hp Hv.
    rewrite data_vars_drain. cbn [data_vars pending].
    rewrite apply_calls_app. apply apply_calls_in.
    + apply published_NoDup, commands_NoDup.
    + eapply published_lookup; [| exact Hp | exact Hv].
      apply Hcells. apply list_elem_of_fmap. exists (p, c'). split; [done |].
      by eapply list_elem_of_lookup_2.
Qed.

(** The first pass against a car that answers: the RPM cell gets its
    reading and the speed cell, whose query returns no value, "N/A". *)
Lemma full_pass_publishes_witness :
  let g := run W_car [Click []; Worker 0] (with_env env0 dash_init) in
  let g' := Nat.iter 8 (worker_step W_car 0) g in
  data_vars (drain g') !! "rpm" = Some "812" /\
  data_vars (drain g') !! "speed" = Some "N/A" /\
  data_vars (drain g') !! "fuel_pressure" = Some "300.0".
Proof.
  cbv zeta.
  destruct (full_pass_publishes W_car [Click []; Worker 0] env0 0 0
              [Some 812.5%float; None; Some 90%float; Some 37.5%float;
               Some 37.5%float; Some 20%float; Some 37.5%float; Some 300%float])
    as (_ & _ & _ & H).
  - vm_compute. reflexivity.
  - vm_compute. reflexivity.
  - vm_compute. reflexivity.
  - repeat split.
  - split; [exact (H 0 "rpm" RPM _ eq_refl eq_refl) |].
    split; [exact (H 1 "speed" SPEED _ eq_refl eq_refl) |].
    exact (H 7 "fuel_pressure" FUEL_PRESSURE _ eq_refl eq_refl).
Defined.



Lemma on_closing_run g :
  on_closing g =
    (Ok tt,
     Dash (push [EvDestroy] 0 0
             (match connection g with Some c => closed c (g_env g) | None => g_env g end))
          (connection g) false (data_thread g) (data_vars g) (ui g)
          (threads g) (pending g) true).
Proof.
  unfold on_closing. unfold mbind, M_bind, mret, M_ret, modify, get, liftE.
  cbn [with_is_running connection].
  destruct (connection g) as [c |] eqn:Hc.
  - rewrite bool_decide_eq_true_2 by eauto. cbn [attr_of mret M_ret].
    unfold close, emit, closed, push, with_env, with_destroyed. cbn.
    by rewrite Hc.
  - rewrite bool_decide_eq_false_2 by (intros [? ?]; done).
    unfold emit, push, with_env, with_destroyed. cbn. by rewrite Hc.
Qed.

(** X12: [on_closing] in full.  It clears the run flag, closes the
    connection if there is one and destroys the window; it never waits for
    the polling thread, leaves every thread where it stands, and leaves
    [self.connection] pointing to the closed object. *)
Theorem on_closing_effect g :
  let g' := (on_closing g).2 in
  (on_closing g).1 = Ok tt /\
  trace (g_env g') =
    (trace (g_env g)
     ++ match connection g with Some c => [EvClose c] | None => [] end
     ++ [EvDestroy])%list /\
  threads g' = threads g /\
  connection g' = connection g /\
  is_running g' = false /\
  destroyed g' = true /\
  data_vars g' = data_vars g /\
  pending g' = pending g /\
  (forall c, connection g = Some c -> conn_link (g_env g') c = None).
Proof.
  cbv zeta. rewrite on_closing_run. cbn [fst snd g_env threads connection is_running
                                         destroyed data_vars pending].
  split; [done |]. split.
  - destruct (connection g); cbn; by rewrite <- ?app_assoc.
  - repeat (split; [done |]). intros c Hc. rewrite Hc.
    rewrite conn_link_push, conn_link_closed. by rewrite decide_True.
Qed.

(** The window is closed while the dashboard polls. *)
Lemma on_closing_effect_witness :
  let g := run W_car [Click []; Worker 0; Worker 0] dash_init in
  connection g = Some 0 /\
  conn_link (g_env (on_closing g).2) 0 = None /\
  thread_alive (on_closing g).2 0 = true.
Proof.
  cbv zeta.
  destruct (on_closing_effect (run W_car [Click []; Worker 0; Worker 0] dash_init))
    as (_ & _ & Hth & _ & _ & _ & _ & _ & Hlink).
  split; [vm_compute; reflexivity |].
  split; [apply Hlink; vm_compute; reflexivity |].
  unfold thread_alive. rewrite Hth. vm_compute. reflexivity.
Defined.

(** ** [connect] *)

Lemma with_env_id g : with_env (g_env g) g = g.
Proof. by destruct g. Qed.

Lemma liftE_ok {A} (m : M env A) g a e :
  m (g_env g) = (Ok a, e) -> liftE m g = (Ok a, with_env e g).
Proof. intros H. unfold liftE. by rewrite H. Qed.

Lemma liftE_raised {A} (m : M env A) g x e :
  m (g_env g) = (Raised x, e) -> liftE m g = (Raised x, with_env e g).
Proof. intros H. unfold liftE. by rewrite H. Qed.

Lemma close_eq id s : close id s = (Ok tt, closed id s).
Proof. reflexivity. Qed.

Lemma modify_eq f g : modify f g = (Ok tt, f g).
Proof. reflexivity. Qed.

Lemma get_eq {A} (f : dash -> A) g : get f g = (Ok (f g), g).
Proof. reflexivity. Qed.

Lemma length_opened_built port l s :
  length (opened (built port l s)) = S (length (opened s)).
Proof. unfold built. cbn [opened]. rewrite length_app. simpl. lia. Qed.

Lemma length_opened_closed c s : length (opened (closed c s)) = length (opened s).
Proof. unfold closed, close. cbn [snd opened]. by rewrite length_alter. Qed.

(** Lines 266-272 by the answers of the library. *)
Lemma connect_attempts_cases W g :
  let n := length (opened (g_env g)) in
  let p := Some "/dev/ttyACM0" in
  connect_attempts W g =
    match on_open W n p with
    | Return (Some l) =>
        (Ok tt, with_connection (Some n) (with_env (built p (Some l) (g_env g)) g))
    | Return None =>
        let e1 := closed n (built p None (g_env g)) in
        match on_open W (S n) None with
        | Return l2 =>
            (Ok tt, with_connection (Some (S n)) (with_env (built None l2 e1) g))
        | Raise e => (Raised e, with_connection (Some n) (with_env e1 g))
        end
    | Raise _ =>
        match on_open W n None with
        | Return l2 =>
            (Ok tt, with_connection (Some n) (with_env (built None l2 (g_env g)) g))
        | Raise e => (Raised e, g)
        end
    end.
Proof.
  cbv zeta. unfold connect_attempts.
  destruct (on_open W (length (opened (g_env g))) (Some "/dev/ttyACM0"))
    as [[l |] | e] eqn:Hfirst.
  - apply try_except_ok.
    rewrite (bind_ok _ _ _ _ _ (liftE_ok _ g _ _ (OBD_return W _ _ _ Hfirst))).
    rewrite (bind_ok _ _ _ _ _ (modify_eq _ _)).
    rewrite (bind_ok _ _ _ _ _ (liftE_ok _ _ _ _ (is_connected_eq _ _))).
    cbn [g_env with_connection with_env].
    rewrite conn_link_built, decide_True by done.
    rewrite bool_decide_eq_true_2 by eauto. reflexivity.
  - set (e1 := closed (length (opened (g_env g))) (built (Some "/dev/ttyACM0") None (g_env g))).
    assert (length (opened e1) = S (length (opened (g_env g)))) as Hlen
      by (unfold e1; by rewrite length_opened_closed, length_opened_built).
    match goal with |- try_except ?m ?h g = _ =>
      assert (m g = match on_open W (S (length (opened (g_env g)))) None with
                    | Return l2 =>
                        (Ok tt, with_connection (Some (S (length (opened (g_env g)))))
                                  (with_env (built None l2 e1) g))
                    | Raise e =>
                        (Raised e, with_connection (Some (length (opened (g_env g))))
                                     (with_env e1 g))
                    end) as Hbody
    end.
    { rewrite (bind_ok _ _ _ _ _ (liftE_ok _ g _ _ (OBD_return W _ _ _ Hfirst))).
      rewrite (bind_ok _ _ _ _ _ (modify_eq _ _)).
      rewrite (bind_ok _ _ _ _ _ (liftE_ok _ _ _ _ (is_connected_eq _ _))).
      cbn [g_env with_connection with_env].
      rewrite conn_link_built, decide_True by done.
      rewrite bool_decide_eq_false_2 by (intros [? ?]; done).
      cbn [negb when].
      rewrite (bind_ok _ _ _ _ _ (liftE_ok (close _) _ tt _ (close_eq _ _))).
      cbn [with_env g_env].
      destruct (on_open W (S (length (opened (g_env g)))) None) as [l2 | e] eqn:Hsecond.
      - rewrite <- Hlen in Hsecond.
        match goal with |- (_ ≫= _) ?st = _ =>
          rewrite (bind_ok _ _ st _ _
                     (liftE_ok (OBD W None) st _ _ (OBD_return W None l2 e1 Hsecond)))
        end.
        by rewrite Hlen.
      - rewrite <- Hlen in Hsecond.
        match goal with |- (_ ≫= _) ?st = _ =>
          by rewrite (bind_raised _ _ st _ _
                        (liftE_raised (OBD W None) st _ _ (OBD_raise W None e e1 Hsecond)))
        end. }
    destruct (on_open W (S (length (opened (g_env g)))) None) as [l2 | e] eqn:Hsecond.
    + by apply try_except_ok.
    + rewrite (try_except_raised _ _ _ _ _ Hbody).
      rewrite <- Hlen in Hsecond.
      match goal with |- (_ ≫= _) ?st = _ =>
        by rewrite (bind_raised _ _ st _ _
                      (liftE_raised (OBD W None) st _ _ (OBD_raise W None e e1 Hsecond)))
      end.
  - match goal with |- try_except ?m ?h g = _ =>
      assert (m g = (Raised e, g)) as Hbody
    end.
    { rewrite (bind_raised _ _ _ _ _ (liftE_raised _ g _ _ (OBD_raise W _ _ _ Hfirst))).
      by rewrite with_env_id. }
    rewrite (try_except_raised _ _ _ _ _ Hbody).
    destruct (on_open W (length (opened (g_env g))) None) as [l2 | e2] eqn:Hsecond.
    + by rewrite (bind_ok _ _ _ _ _ (liftE_ok _ g _ _ (OBD_return W _ _ _ Hsecond))).
    + rewrite (bind_raised _ _ _ _ _ (liftE_raised _ g _ _ (OBD_raise W _ _ _ Hsecond))).
      by rewrite with_env_id.
Qed.

Lemma connect_after_attempts W g :
  connect W g =
    match connect_attempts W (connecting g) with
    | (Ok _, g1) =>
        match connection g1 with
        | Some id =>
            match conn_link (g_env g1) id with
            | Some l => (Ok tt, connected_state l g1)
            | None =>
                (Ok tt, refused_state "Status: Connection Failed" "Connection Error"
                          connection_failed_text g1)
            end
        | None =>
            (Ok tt, refused_state "Status: Error" "Error"
                      ("Connection error: "
                       ++ "'NoneType' object has no attribute 'is_connected'") g1)
        end
    | (Raised (Exception msg), g1) =>
        (Ok tt, refused_state "Status: Error" "Error" ("Connection error: " ++ msg) g1)
    | (Raised KeyboardInterrupt, g1) => (Raised KeyboardInterrupt, g1)
    | (Running, g1) => (Running, g1)
    end.
Proof.
  unfold connect, try_except, set_status, set_btn_state, set_btn, start_thread, showerror.
  rewrite !(bind_ok _ _ _ _ _ (modify_eq _ _)).
  change (drain _) with (connecting g).
  unfold mbind at 1, M_bind at 1.
  destruct (connect_attempts W (connecting g)) as [[[] | [| msg] |] g1]; try reflexivity.
  match goal with |- (let (_, _) := ?m g1 in _) = _ => set (body := m) end.
  destruct (connection g1) as [id |] eqn:Hid.
  - assert ((get connection ≫= λ o : option nat, attr_of o "is_connected") g1
            = (Ok id, g1)) as Hget
      by (unfold mbind, M_bind, get; by rewrite Hid).
    destruct (conn_link (g_env g1) id) as [l |] eqn:Hl.
    + assert (body g1 = (Ok tt, connected_state l g1)) as ->; [| reflexivity].
      unfold body. rewrite (bind_ok _ _ _ _ _ Hget).
      rewrite (bind_ok _ _ _ _ _ (liftE_ok _ _ _ _ (is_connected_eq _ _))).
      rewrite with_env_id, Hl, bool_decide_eq_true_2 by eauto.
      rewrite (bind_ok _ _ _ _ _ (liftE_ok _ _ _ _ (get_protocol_name_ok _ _ _ Hl))).
      rewrite with_env_id.
      rewrite !(bind_ok _ _ _ _ _ (modify_eq _ _)). reflexivity.
    + assert (body g1 = (Ok tt, refused_state "Status: Connection Failed"
                                  "Connection Error" connection_failed_text g1)) as ->;
        [| reflexivity].
      unfold body. rewrite (bind_ok _ _ _ _ _ Hget).
      rewrite (bind_ok _ _ _ _ _ (liftE_ok _ _ _ _ (is_connected_eq _ _))).
      rewrite with_env_id, Hl, bool_decide_eq_false_2 by (intros [? ?]; done).
      rewrite !(bind_ok _ _ _ _ _ (modify_eq _ _)). reflexivity.
  - assert (body g1 = (Raised (Exception "'NoneType' object has no attribute 'is_connected'"), g1))
      as ->; [| reflexivity].
    unfold body. apply bind_raised. unfold mbind, M_bind, get. by rewrite Hid.
Qed.

Lemma conn_link_opened s s' id :
  opened s' = opened s -> conn_link s' id = conn_link s id.
Proof. intros H. unfold conn_link. by rewrite H. Qed.

Lemma connecting_frame g :
  g_env (connecting g) = g_env g /\ connection (connecting g) = connection g /\
  threads (connecting g) = threads g /\ is_running (connecting g) = is_running g /\
  data_thread (connecting g) = data_thread g /\ pending (connecting g) = [] /\
  data_vars (connecting g) = data_vars (drain g).
Proof. by repeat split. Qed.

(** What the attempts leave behind, in every case. *)
Lemma connect_attempts_frame W g r g1 :
  connect_attempts W g = (r, g1) ->
  r <> Running /\
  threads g1 = threads g /\ is_running g1 = is_running g /\
  data_thread g1 = data_thread g /\ ui g1 = ui g /\
  data_vars g1 = data_vars g /\ pending g1 = pending g /\ destroyed g1 = destroyed g /\
  (exists evs, trace (g_env g1) = (trace (g_env g) ++ evs)%list /\
               Forall (fun ev => forall t ms, ev <> EvJoin t ms) evs) /\
  length (opened (g_env g)) <= length (opened (g_env g1)) <= length (opened (g_env g)) + 2 /\
  ((forall id, conn_link (g_env g) id = None) -> one_session g1) /\
  (r = Ok tt -> exists id, connection g1 = Some id /\ S id = length (opened (g_env g1))).
Proof.
  rewrite connect_attempts_cases. cbv zeta.
  remember (length (opened (g_env g))) as n eqn:Hn.
  destruct (on_open W n (Some "/dev/ttyACM0")) as [[l |] | e].
  - intros H. inversion H; subst r g1. clear H.
    cbn [threads is_running data_thread ui data_vars pending destroyed g_env connection
         with_connection with_env].
    repeat (split; [done |]).
    split; [exists [EvOpen n (Some "/dev/ttyACM0")]; split; [by rewrite Hn | repeat constructor; done] |].
    split; [rewrite length_opened_built; rewrite <- ?Hn; lia |].
    split.
    + intros Hnone id l' Hl. unfold one_session in *.
      cbn [g_env connection with_connection with_env] in *.
      rewrite conn_link_built in Hl.
      rewrite <- Hn in Hl. destruct (decide (id = n)) as [-> | _]; [done |].
      by rewrite Hnone in Hl.
    + intros _. exists n. split; [done |]. by rewrite length_opened_built, Hn.
  - destruct (on_open W (S n) None) as [l2 | e].
    + intros H. inversion H; subst r g1. clear H.
      cbn [threads is_running data_thread ui data_vars pending destroyed g_env connection
           with_connection with_env].
      repeat (split; [done |]).
      split; [exists [EvOpen n (Some "/dev/ttyACM0"); EvClose n; EvOpen (S n) None];
              split; [| repeat constructor; done] |].
      { unfold built, closed, close. cbn [snd trace opened].
        rewrite length_alter, length_app. cbn [length]. rewrite <- ?Hn.
        rewrite <- !app_assoc. cbn [app]. by rewrite Nat.add_1_r. }
      split; [rewrite length_opened_built, length_opened_closed, length_opened_built;
              rewrite <- ?Hn; lia |].
      split.
      * intros Hnone id l' Hl.
        cbn [g_env connection with_connection with_env] in *.
        rewrite conn_link_built, length_opened_closed, length_opened_built in Hl.
        rewrite <- ?Hn in Hl.
        destruct (decide (id = S n)) as [-> | _]; [done |].
        rewrite conn_link_closed in Hl. destruct (decide (id = n)); [done |].
        rewrite conn_link_built in Hl. destruct (decide _); [done |].
        by rewrite Hnone in Hl.
      * intros _. exists (S n). split; [done |].
        by rewrite length_opened_built, length_opened_closed, length_opened_built, Hn.
    + intros H. inversion H; subst r g1. clear H.
      cbn [threads is_running data_thread ui data_vars pending destroyed g_env connection
           with_connection with_env].
      repeat (split; [done |]).
      split; [exists [EvOpen n (Some "/dev/ttyACM0"); EvClose n];
              split; [| repeat constructor; done] |].
      { unfold built, closed, close. cbn [snd trace opened].
        by rewrite <- ?Hn, <- !app_assoc. }
      split; [rewrite length_opened_closed, length_opened_built; rewrite <- ?Hn; lia |].
      split; [| done].
      intros Hnone id l' Hl.
      cbn [g_env connection with_connection with_env] in *.
      rewrite conn_link_closed in Hl. destruct (decide (id = n)); [done |].
      rewrite conn_link_built in Hl. destruct (decide _); [done |].
      by rewrite Hnone in Hl.
  - destruct (on_open W n None) as [l2 | e2].
    + intros H. inversion H; subst r g1. clear H.
      cbn [threads is_running data_thread ui data_vars pending destroyed g_env connection
           with_connection with_env].
      repeat (split; [done |]).
      split; [exists [EvOpen n None]; split; [by rewrite Hn | repeat constructor; done] |].
      split; [rewrite length_opened_built; rewrite <- ?Hn; lia |].
      split.
      * intros Hnone id l' Hl.
        cbn [g_env connection with_connection with_env] in *.
        rewrite conn_link_built in Hl.
        rewrite <- Hn in Hl. destruct (decide (id = n)) as [-> | _]; [done |].
        by rewrite Hnone in Hl.
      * intros _. exists n. split; [done |]. by rewrite length_opened_built, Hn.
    + intros H. inversion H; subst r g1. clear H.
      repeat (split; [done |]).
      split; [exists []; split; [by rewrite app_nil_r | constructor] |].
      split; [lia |].
      split; [| done].
      intros Hnone id l' Hl. by rewrite Hnone in Hl.
Qed.

(** X13: how [connect] ends.  No [Exception] leaves it, and whenever it
    returns the button is enabled again.  Either [self.connection] holds a
    connected object, the run flag is up, one new polling thread stands at
    its loop test and the button reads "Disconnect"; or a message box was
    shown last, no thread was started and the run flag is untouched.  It
    never waits for a thread, and (the method taken as one step, no polling
    thread scheduled meanwhile) the calls scheduled before it have been run
    by its [root.update()]. *)
Theorem connect_outcome W g :
  let r := (connect W g).1 in
  let g' := (connect W g).2 in
  r <> Running /\
  (forall msg, r <> Raised (Exception msg)) /\
  data_vars g' = data_vars (drain g) /\
  pending g' = [] /\
  (exists evs, trace (g_env g') = (trace (g_env g) ++ evs)%list /\
               Forall (fun ev => forall t ms, ev <> EvJoin t ms) evs) /\
  (r = Ok tt ->
     btn_st (ui g') = Normal /\
     ((exists id l,
         connection g' = Some id /\ conn_link (g_env g') id = Some l /\
         is_running g' = true /\
         threads g' = (threads g ++ [WLoopHead])%list /\
         data_thread g' = Some (length (threads g)) /\
         ui g' = Widgets ("Status: Connected (" ++ protocol_name l ++ ")") "green"
                         "Disconnect" "#f44336" Normal)
      \/
      (is_running g' = is_running g /\
       threads g' = threads g /\
       data_thread g' = data_thread g /\
       status_fg (ui g') = "red" /\
       btn_text (ui g') = btn_text (ui g) /\
       exists title msg, last (trace (g_env g')) = Some (EvShowError title msg)))).
Proof.
  cbv zeta. rewrite connect_after_attempts.
  destruct (connect_attempts W (connecting g)) as [r1 g1] eqn:Hatt.
  destruct (connect_attempts_frame W _ _ _ Hatt)
    as (Hnr & Hth & Hrun & Hdt & Hui & Hdv & Hpe & _ & (evs & Htr & Hnj) & _ & _ & Hok).
  destruct (connecting_frame g) as (Henv & _ & Hth0 & Hrun0 & Hdt0 & Hpe0 & Hdv0).
  rewrite Henv in Htr. rewrite Hth0 in Hth. rewrite Hrun0 in Hrun. rewrite Hdt0 in Hdt.
  rewrite Hpe0 in Hpe. rewrite Hdv0 in Hdv.
  assert (btn_text (ui g1) = btn_text (ui g)) as Hbt by (by rewrite Hui).
  destruct r1 as [[] | [| msg] |]; [| | | done].
  - destruct (Hok eq_refl) as (id & Hid & Hlast). rewrite Hid.
    destruct (conn_link (g_env g1) id) as [l |] eqn:Hl;
      cbn [fst snd connected_state refused_state data_vars pending g_env ui btn_st
           with_threads with_data_thread with_is_running with_ui with_env
           connection is_running threads data_thread status_fg btn_text].
    + split; [done |]. split; [done |]. split; [done |]. split; [done |].
      split; [by exists evs |]. intros _. split; [done |]. left.
      exists id, l. by rewrite Hth.
    + split; [done |]. split; [done |]. split; [done |]. split; [done |].
      split.
      { exists (evs ++ [EvShowError "Connection Error" connection_failed_text])%list.
        cbn [push trace]. rewrite Htr, <- app_assoc. split; [done |].
        apply Forall_app. split; [done | repeat constructor; done]. }
      intros _. split; [done |]. right.
      repeat (split; [done |]).
      exists "Connection Error", connection_failed_text.
      cbn [push trace]. by rewrite last_snoc.
  - cbn [fst snd refused_state data_vars pending g_env ui btn_st
         with_ui with_env connection is_running threads data_thread status_fg btn_text].
    split; [done |]. split; [done |]. split; [done |]. split; [done |].
    split; [by exists evs |]. done.
  - cbn [fst snd refused_state data_vars pending g_env ui btn_st
         with_ui with_env connection is_running threads data_thread status_fg btn_text].
    split; [done |]. split; [done |]. split; [done |]. split; [done |].
    split.
    { exists (evs ++ [EvShowError "Error" ("Connection error: " ++ msg)])%list.
      cbn [push trace]. rewrite Htr, <- app_assoc. split; [done |].
      apply Forall_app. split; [done | repeat constructor; done]. }
    intros _. split; [done |]. right.
    repeat (split; [done |]).
    exists "Error", ("Connection error: " ++ msg).
    cbn [push trace]. by rewrite last_snoc.
Qed.

Lemma connect_outcome_witness :
  status_text (ui (connect W_car dash_init).2) = "Status: Connected (ISO 15765-4)" /\
  btn_st (ui (connect W_unplugged dash_init).2) = Normal.
Proof.
  split.
  - destruct (connect_outcome W_car dash_init) as (_ & _ & _ & _ & _ & H).
    destruct (H ltac:(vm_compute; reflexivity)) as [_ [(id & l & _ & Hl & _ & _ & _ & Hui) | Hno]].
    + rewrite Hui. cbn [status_text]. f_equal.
      assert (id = 0) as ->.
      { destruct id as [| id]; [done |]. vm_compute in Hl. discriminate. }
      vm_compute in Hl. by inversion Hl.
    + destruct Hno as (Hrun & Hth & _). vm_compute in Hth. discriminate.
  - destruct (connect_outcome W_unplugged dash_init) as (_ & _ & _ & _ & _ & H).
    apply H. vm_compute. reflexivity.
Defined.

(** ** One session at a time *)

Lemma one_session_same g g' :
  opened (g_env g') = opened (g_env g) -> connection g' = connection g ->
  one_session g -> one_session g'.
Proof.
  intros Ho Hc H id l Hl. rewrite Hc. apply (H id l).
  by rewrite <- (conn_link_opened _ _ id Ho).
Qed.

Lemma one_session_polled g g' : polled g g' -> one_session g -> one_session g'.
Proof. intros []. by apply one_session_same. Qed.

Lemma toggle_connection_eq W sched g :
  toggle_connection W sched g =
    if match connection g with
       | Some c => bool_decide (is_Some (conn_link (g_env g) c))
       | None => false
       end
    then disconnect W sched g else connect W g.
Proof.
  unfold toggle_connection.
  rewrite (bind_ok _ _ _ _ _ (get_eq _ _)).
  destruct (connection g) as [c |].
  - rewrite (bind_ok _ _ _ _ _ (liftE_ok _ _ _ _ (is_connected_eq _ _))).
    rewrite with_env_id. by destruct (bool_decide _).
  - reflexivity.
Qed.

Lemma one_session_connect W g :
  (forall id, conn_link (g_env g) id = None) -> one_session (connect W g).2.
Proof.
  intros Hnone. rewrite connect_after_attempts.
  destruct (connect_attempts W (connecting g)) as [r1 g1] eqn:Hatt.
  destruct (connect_attempts_frame W _ _ _ Hatt)
    as (_ & _ & _ & _ & _ & _ & _ & _ & _ & _ & Hone & _).
  specialize (Hone Hnone).
  destruct r1 as [[] | [| msg] |]; cbn [snd]; try done.
  destruct (connection g1) as [id |] eqn:Hid.
  - destruct (conn_link (g_env g1) id);
      (eapply one_session_same; [| | exact Hone]); done.
  - eapply one_session_same; [| | exact Hone]; done.
Qed.

Lemma one_session_disconnect W sched g :
  one_session g -> one_session (disconnect W sched g).2.
Proof.
  intros H id l Hl. exfalso.
  rewrite disconnect_run in Hl. cbn [snd] in Hl. cbv zeta in Hl.
  cbn [g_env with_data_vars with_ui] in Hl.
  pose proof (joined_polled W sched g) as Hj.
  assert (opened (g_env (joined W sched g)) = opened (g_env g)) as Ho.
  { rewrite (polled_opened _ _ Hj). unfold stopping. by destruct (data_thread g). }
  assert (connection (joined W sched g) = connection g) as Hc.
  { rewrite (polled_connection _ _ Hj). unfold stopping. by destruct (data_thread g). }
  unfold release in Hl. rewrite Hc in Hl.
  destruct (connection g) as [c |] eqn:Hcg.
  - cbn [g_env with_connection with_env] in Hl.
    rewrite conn_link_closed in Hl. destruct (decide (id = c)) as [-> | Hne]; [done |].
    rewrite (conn_link_opened _ _ id Ho) in Hl.
    apply H in Hl. rewrite Hcg in Hl. by inversion Hl.
  - rewrite (conn_link_opened _ _ id Ho) in Hl.
    apply H in Hl. by rewrite Hcg in Hl.
Qed.

Lemma one_session_on_closing g : one_session g -> one_session (on_closing g).2.
Proof.
  intros H id l Hl. exfalso.
  rewrite on_closing_run in Hl. cbn [snd g_env] in Hl.
  rewrite conn_link_push in Hl.
  destruct (connection g) as [c |] eqn:Hc.
  - rewrite conn_link_closed in Hl. destruct (decide (id = c)) as [-> | Hne]; [done |].
    apply (H id l) in Hl. rewrite Hc in Hl. by inversion Hl.
  - apply (H id l) in Hl. by rewrite Hc in Hl.
Qed.

Lemma one_session_step W a g : one_session g -> one_session (step W a g).
Proof.
  intros H. unfold step. destruct (destroyed g); [done |].
  destruct a as [sched | | | t].
  - destruct (btn_st (ui g)); [| done]. unfold handle.
    rewrite toggle_connection_eq.
    destruct (connection g) as [c |] eqn:Hc.
    + destruct (bool_decide (is_Some (conn_link (g_env g) c))) eqn:Hb.
      * by apply one_session_disconnect.
      * apply one_session_connect. intros id.
        destruct (conn_link (g_env g) id) as [l |] eqn:Hl; [| done].
        pose proof (H id l Hl) as Hid. rewrite Hc in Hid. inversion Hid; subst.
        apply bool_decide_eq_false_1 in Hb. exfalso. apply Hb. eauto.
    + apply one_session_connect. intros id.
      destruct (conn_link (g_env g) id) as [l |] eqn:Hl; [| done].
      pose proof (H id l Hl) as Hid. by rewrite Hc in Hid.
  - by apply one_session_on_closing.
  - eapply one_session_same; [| | exact H]; unfold run_callback;
      by destruct (pending g) as [| [? ?] ?].
  - eapply one_session_polled; [apply worker_step_polled | done].
Qed.

Lemma one_session_run W acts g : one_session g -> one_session (run W acts g).
Proof.
  revert g. induction acts as [| a acts IH]; intros g H; [done |].
  simpl. apply IH. by apply one_session_step.
Qed.

(** X14: at most one session at a time.  In every state the dashboard can
    reach from a start with no connected object, an object of the library is
    connected only if it is the one in [self.connection]; so no two objects
    are connected at once.  (An object loses its link only by [close()].) *)
Theorem dashboard_one_session W acts s :
  (forall id, conn_link s id = None) ->
  let g := run W acts (with_env s dash_init) in
  (forall id l, conn_link (g_env g) id = Some l -> connection g = Some id) /\
  (forall id1 id2 l1 l2,
     conn_link (g_env g) id1 = Some l1 -> conn_link (g_env g) id2 = Some l2 -> id1 = id2).
Proof.
  intros Hnone g.
  assert (one_session g) as H.
  { apply one_session_run. intros id l Hl.
    change (conn_link s id = Some l) in Hl. by rewrite Hnone in Hl. }
  split; [exact H |].
  intros id1 id2 l1 l2 H1 H2. apply H in H1. apply H in H2. congruence.
Qed.

(** Connect, poll, disconnect, connect again: the second object is the only
    one connected. *)
Lemma dashboard_one_session_witness :
  let g := run W_car [Click []; Worker 0; Click []; Click []] (with_env env0 dash_init) in
  conn_link (g_env g) 1 = Some (Link "/dev/ttyACM0" "ISO 15765-4") /\
  connection g = Some 1.
Proof.
  cbv zeta.
  assert (conn_link (g_env (run W_car [Click []; Worker 0; Click []; Click []]
                              (with_env env0 dash_init))) 1
          = Some (Link "/dev/ttyACM0" "ISO 15765-4")) as Hl by (vm_compute; reflexivity).
  split; [exact Hl |].
  exact (proj1 (dashboard_one_session W_car [Click []; Worker 0; Click []; Click []] env0
                  (fun id => eq_refl)) 1 _ Hl).
Defined.

(** ** Where a polling thread can stand *)

Lemma threads_ok_same g g' : threads g' = threads g -> threads_ok g -> threads_ok g'.
Proof. unfold threads_ok. by intros ->. Qed.

Lemma threads_ok_set t pc g : pc_ok pc -> threads_ok g -> threads_ok (set_thread t pc g).
Proof.
  intros Hpc H. unfold threads_ok, set_thread. cbn [threads with_threads].
  by apply Forall_insert.
Qed.

Lemma threads_ok_worker_step W t g : threads_ok g -> threads_ok (worker_step W t g).
Proof.
  intros H. unfold worker_step.
  destruct (threads g !! t) as [pc |] eqn:Ht; [| done].
  assert (pc_ok pc) as Hpc by (eapply Forall_lookup_1; [exact H | exact Ht]).
  destruct pc as [| [| [param cmd] rest] | ms |]; [| | | | done].
  - apply threads_ok_set; [| done].
    destruct (loop_condition g); [by exists [] | done].
  - apply threads_ok_set; [by left | done].
  - unfold read_param. destruct (is_running g); cbn [negb];
      [| apply threads_ok_set; [by left | done]].
    unfold mbind, M_bind, mret, M_ret.
    destruct (attr_of (connection g) "query" g) as [[c | [| msg] |] g1] eqn:Hattr.
    + assert (g1 = g) as -> by (destruct (connection g); by inversion Hattr).
      unfold liftE, query.
      destruct (on_query W (n_query (g_env g)) cmd) as [v | [| msg]].
      * apply threads_ok_set.
        -- destruct Hpc as (visited & Hv). exists (visited ++ [(param, cmd)])%list.
           by rewrite <- app_assoc.
        -- by destruct (bool_decide _).
      * by apply threads_ok_set.
      * unfold read_error. apply threads_ok_set; [by right | done].
    + destruct (connection g); inversion Hattr.
    + assert (g1 = g) as -> by (destruct (connection g); by inversion Hattr).
      unfold read_error. apply threads_ok_set; [by right | done].
    + destruct (connection g); inversion Hattr.
  - unfold liftE, sleep.
    destruct (on_sleep W (n_sleep (g_env g))); by apply threads_ok_set.
Qed.

Lemma threads_ok_wait_for W t sched g : threads_ok g -> threads_ok (wait_for W t sched g).
Proof.
  revert g. induction sched as [| u sched IH]; intros g H; [done |].
  simpl. destruct (thread_alive g t); [| done].
  by apply IH, threads_ok_worker_step.
Qed.

Lemma threads_ok_start g :
  threads_ok g ->
  threads_ok (with_threads (threads g ++ [WLoopHead])
                (with_data_thread (Some (length (threads g))) g)).
Proof.
  intros H. unfold threads_ok. cbn [threads with_threads].
  apply Forall_app. split; [done | by repeat constructor].
Qed.

Lemma connect_threads_ok W : preserves threads_ok (connect W).
Proof.
  unfold connect, connect_attempts, set_status, set_btn_state, set_btn,
    start_thread, showerror.
  repeat pres_step;
    try (by apply threads_ok_start);
    try (eapply threads_ok_same; [| eassumption]; reflexivity).
Qed.

Lemma disconnect_threads_ok W sched : preserves threads_ok (disconnect W sched).
Proof.
  unfold disconnect, join, set_status, set_btn.
  repeat pres_step;
    try (by apply threads_ok_wait_for);
    try (eapply threads_ok_same; [| eassumption]; reflexivity).
Qed.

Lemma toggle_connection_threads_ok W sched :
  preserves threads_ok (toggle_connection W sched).
Proof.
  unfold toggle_connection.
  repeat pres_step;
    try apply connect_threads_ok; try apply disconnect_threads_ok;
    try (eapply threads_ok_same; [| eassumption]; reflexivity).
Qed.

Lemma on_closing_threads_ok : preserves threads_ok on_closing.
Proof.
  unfold on_closing.
  repeat pres_step;
    try (eapply threads_ok_same; [| eassumption]; reflexivity).
Qed.

Lemma threads_ok_step W a g : threads_ok g -> threads_ok (step W a g).
Proof.
  intros H. unfold step. destruct (destroyed g); [done |].
  destruct a as [sched | | | t].
  - destruct (btn_st (ui g)); [| done].
    by apply toggle_connection_threads_ok.
  - by apply on_closing_threads_ok.
  - eapply threads_ok_same; [| exact H].
    unfold run_callback. by destruct (pending g) as [| [? ?] ?].
  - by apply threads_ok_worker_step.
Qed.

Lemma threads_ok_run W acts g : threads_ok g -> threads_ok (run W acts g).
Proof.
  revert g. induction acts as [| a acts IH]; intros g H; [done |].
  simpl. apply IH. by apply threads_ok_step.
Qed.

(** X15: no reading is dropped.  In every reachable state a polling thread
    in a pass has a tail of the command table before it, and when the query
    of its next parameter returns, the guard [param in self.data_vars] holds:
    exactly one call, for that parameter and with the text formatted from the
    answer, is scheduled, and the thread moves on to the following
    parameter. *)
Theorem reading_always_published W acts s t param cmd rest c v :
  let g := run W acts (with_env s dash_init) in
  threads g !! t = Some (WFor ((param, cmd) :: rest)) ->
  is_running g = true ->
  connection g = Some c ->
  on_query W (n_query (g_env g)) cmd = Return v ->
  (exists visited, commands = (visited ++ (param, cmd) :: rest)%list) /\
  pending (worker_step W t g) = (pending g ++ [(param, format_value param v)])%list /\
  threads (worker_step W t g) !! t = Some (WFor rest) /\
  trace (g_env (worker_step W t g)) = (trace (g_env g) ++ [EvQuery c cmd])%list /\
  data_vars (worker_step W t g) = data_vars g.
Proof.
  intros g Ht Hrun Hc Hq.
  assert (threads_ok g) as Hth by (apply threads_ok_run; constructor).
  pose proof (cells_ok_start W acts s) as Hok. fold g in Hok.
  assert (exists visited, commands = (visited ++ (param, cmd) :: rest)%list) as Hpos
    by exact (Forall_lookup_1 pc_ok _ _ _ Hth Ht).
  split; [exact Hpos |].
  rewrite (worker_step_for W t g param cmd rest Ht).
  rewrite (read_param_ok W t g param cmd rest c v Hrun Hc Hq).
  cbn [pending threads g_env data_vars push trace published].
  rewrite bool_decide_eq_true_2.
  - split; [by rewrite app_nil_r |]. split; [| done].
    apply list_lookup_insert_eq. by eapply lookup_lt_Some.
  - apply (cells_dom _ Hok). destruct Hpos as (visited & ->).
    rewrite fmap_app. apply elem_of_app. right. left.
Qed.

Lemma reading_always_published_witness :
  let g := run W_car [Click []; Worker 0; Worker 0] (with_env env0 dash_init) in
  pending (worker_step W_car 0 g) = [("rpm", "812"); ("speed", "N/A")].
Proof.
  cbv zeta.
  destruct (reading_always_published W_car [Click []; Worker 0; Worker 0] env0 0
              "speed" SPEED
              [ ("coolant_temp", COOLANT_TEMP); ("throttle_pos", THROTTLE_POS);
                ("engine_load", ENGINE_LOAD); ("intake_temp", INTAKE_TEMP);
                ("fuel_level", FUEL_LEVEL); ("fuel_pressure", FUEL_PRESSURE) ]
              0 None) as (_ & H & _).
  - vm_compute. reflexivity.
  - vm_compute. reflexivity.
  - vm_compute. reflexivity.
  - reflexivity.
  - etransitivity; [exact H |]. vm_compute. reflexivity.
Defined.

(** ** The grid of cells *)

(** X16: the layout.  Two parameters never share a grid position, the eight
    cells lie inside the four rows and two columns that are given weight
    (lines 243-246), and they fill them. *)
Theorem grid_layout :
  (forall i j, grid_position i = grid_position j -> i = j) /\
  NoDup grid_cells.*2 /\
  Forall (fun cell => cell.2.1 < 4 /\ cell.2.2 < 2) grid_cells /\
  (forall row col, row < 4 -> col < 2 -> (row, col) ∈ grid_cells.*2) /\
  grid_cells.*1 = commands.*1.
Proof.
  split; [| split; [| split; [| split]]].
  - intros i j H. unfold grid_position in H.
    apply pair_equal_spec in H as [Hd Hm].
    rewrite (Nat.div_mod_eq i 2), (Nat.div_mod_eq j 2). by rewrite Hd, Hm.
  - apply (bool_decide_unpack (NoDup grid_cells.*2)). vm_compute. exact I.
  - repeat constructor.
  - intros row col Hr Hc.
    assert (row = 0 \/ row = 1 \/ row = 2 \/ row = 3) as Hrow by lia.
    assert (col = 0 \/ col = 1) as Hcol by lia.
    destruct Hrow as [-> | [-> | [-> | ->]]], Hcol as [-> | ->];
      vm_compute; set_solver.
  - reflexivity.
Qed.

Lemma grid_layout_witness :
  grid_position 5 = (2, 1) /\ (2, 1) ∈ grid_cells.*2.
Proof.
  split; [reflexivity |].
  destruct grid_layout as (_ & _ & _ & H & _). apply H; lia.
Defined.

(** ** Polling threads that outlive their session *)

Lemma connect_answering W g l :
  on_open W (length (opened (g_env (connecting g)))) (Some "/dev/ttyACM0")
    = Return (Some l) ->
  connect W g =
    (Ok tt,
     connected_state l
       (with_connection (Some (length (opened (g_env (connecting g)))))
          (with_env (built (Some "/dev/ttyACM0") (Some l) (g_env (connecting g)))
             (connecting g)))).
Proof.
  intros Hl. rewrite connect_after_attempts.
  pose proof (connect_attempts_cases W (connecting g)) as H. cbv zeta in H.
  rewrite Hl in H. rewrite H.
  cbn [connection with_connection g_env with_env].
  by rewrite conn_link_built, decide_True.
Qed.

Lemma click_connects W sched g k :
  (forall n, exists l, on_open W n (Some "/dev/ttyACM0") = Return (Some l)) ->
  destroyed g = false -> btn_st (ui g) = Normal -> connection g = None ->
  threads g = replicate k WLoopHead ->
  polling_sessions k (step W (Click sched) g).
Proof.
  intros Hport Hd Hb Hc Hts. unfold step, handle. rewrite Hd, Hb.
  rewrite toggle_connection_eq, Hc.
  destruct (Hport (length (opened (g_env (connecting g))))) as [l Hl].
  rewrite (connect_answering W g l Hl). cbn [snd].
  unfold polling_sessions, connected_state, connecting, drain.
  cbn [destroyed ui btn_st is_running threads connection g_env
       with_threads with_data_thread with_is_running with_ui with_connection
       with_env with_pending with_data_vars].
  repeat split; [done | | ].
  - rewrite Hts. change (S k) with (1 + k). rewrite Nat.add_comm.
    by rewrite replicate_add.
  - exists (length (opened (g_env g))), l. split; [done |].
    by rewrite conn_link_built, decide_True, length_opened_built.
Qed.

Lemma click_disconnects W g k :
  polling_sessions k g ->
  let g' := step W (Click []) g in
  destroyed g' = false /\ btn_st (ui g') = Normal /\ connection g' = None /\
  threads g' = replicate (S k) WLoopHead.
Proof.
  intros (Hd & Hb & _ & Hts & c & l & Hc & Hl & _). cbv zeta.
  unfold step, handle. rewrite Hd, Hb.
  rewrite toggle_connection_eq, Hc, Hl, bool_decide_eq_true_2 by eauto.
  rewrite disconnect_run. cbn [snd].
  assert (joined W [] g = stopping g) as ->
    by (unfold joined; by destruct (data_thread g)).
  cbn [destroyed ui btn_st connection threads with_data_vars with_ui].
  assert (forall h, destroyed (release h) = destroyed h /\
                    threads (release h) = threads h) as Hrel
    by (intros h; unfold release; by destruct (connection h)).
  assert (destroyed (stopping g) = destroyed g /\ threads (stopping g) = threads g)
    as [Hsd Hst] by (unfold stopping; by destruct (data_thread g)).
  rewrite (proj1 (Hrel _)), (proj2 (Hrel _)), Hsd, Hst, release_connection.
  done.
Qed.

Lemma reconnects W g j k :
  (forall n, exists l, on_open W n (Some "/dev/ttyACM0") = Return (Some l)) ->
  polling_sessions j g ->
  polling_sessions (k + j) (run W (repeat (Click []) (2 * k)) g).
Proof.
  intros Hport. revert g j. induction k as [| k IH]; intros g j H; [done |].
  replace (2 * S k) with (S (S (2 * k))) by lia.
  replace (S k + j) with (k + S j) by lia.
  cbn [repeat]. unfold run. cbn [foldl]. apply IH.
  destruct (click_disconnects W g j H) as (Hd & Hb & Hc & Hts).
  by apply click_connects.
Qed.

(** X17: the number of live polling threads is not bounded.  With an adapter
    that answers on the fixed port, clicking the button [2 k + 1] times while
    no polling thread is scheduled (each [join] of [disconnect] times out)
    leaves [k + 1] polling threads alive on one window; the flag set by the
    last [connect] lets every one of them pass its loop test and start a pass
    on the newest connection. *)
Theorem stale_threads_resume W s k :
  (forall n, exists l, on_open W n (Some "/dev/ttyACM0") = Return (Some l)) ->
  let g := run W (repeat (Click []) (S (2 * k))) (with_env s dash_init) in
  length (threads g) = S k /\
  (exists c, connection g = Some c /\ S c = length (opened (g_env g))) /\
  forall t, t <= k ->
    thread_alive g t = true /\
    threads (worker_step W t g) !! t = Some (WFor commands).
Proof.
  intros Hport g.
  assert (polling_sessions k g) as (Hd & Hb & Hrun & Hts & c & l & Hc & Hl & Hnew).
  { pose proof (reconnects W (step W (Click []) (with_env s dash_init)) 0 k Hport) as H.
    rewrite Nat.add_0_r in H. apply H. by apply click_connects. }
  split; [by rewrite Hts, length_replicate |].
  split; [by exists c |].
  intros t Ht.
  assert (threads g !! t = Some WLoopHead) as Hpc
    by (rewrite Hts; apply lookup_replicate_2; lia).
  split; [unfold thread_alive; by rewrite Hpc |].
  rewrite (worker_step_loop_head W t g Hpc). cbn [threads with_threads].
  assert (loop_condition g = true) as ->
    by (unfold loop_condition; rewrite Hrun, Hc, Hl; by rewrite bool_decide_eq_true_2).
  apply list_lookup_insert_eq. by eapply lookup_lt_Some.
Qed.

Lemma stale_threads_resume_witness :
  let g := run W_car (repeat (Click []) (S (2 * 1))) (with_env env0 dash_init) in
  length (threads g) = 2 /\
  threads (worker_step W_car 0 g) !! 0 = Some (WFor commands).
Proof.
  cbv zeta.
  destruct (stale_threads_resume W_car env0 1) as (Hlen & _ & Hall).
  - intros n. eexists. reflexivity.
  - split; [exact Hlen |]. apply (Hall 0). lia.
Defined.
